(** * Luca learning assistant: remote-first content with local fallback

    A shallow embedding of [content_generator.py], [ai_interface.py],
    [data_store.py] and the progress-recording slots of [main.py], followed
    by the properties of the specification proved on it.

    Conventions of the embedding.
    - A Python [str] is a [string]: the UTF-8 encoding of the text, in
      which a character is a byte that is not a continuation byte
      followed by the continuation bytes of its code point ([chars]).
      Equality, order, concatenation and the search of a text in another
      are those of the bytes.  [strip] removes the characters for which
      [str.isspace] holds, over the whole of Unicode; [lower] is supplied
      by the runtime.
    - A Python [int] is a [Z] and a Python [float] a binary64 number.
    - A [dict] is an association list in insertion order with [dict_get]
      as lookup; equality of dictionaries ([py_eq]) ignores the order, as
      [==] does in Python.
    - Exceptions are values of [exn]; a fallible computation returns a
      [result]; a computation with effects is a function of the state it
      reads and writes (monad [M]).
    - What the CPython runtime supplies (the generator behind
      [random.shuffle], the text parser behind [json.loads], [repr] of
      containers and of floating-point numbers, the case mapping of
      [str.lower]) is the class [CPython]: every theorem holds for every
      instance.
    - A file of the data directory holds the JSON document that
      [json.dump] writes, as a value, or a text that is not JSON, or
      bytes that are not text; whether a directory or a file can be used
      is decided by the state ([w_io_ok]), and a refusal is an
      [OSError]. *)

From Stdlib Require Import ZArith String Ascii List Bool Lia DecimalString.
From Stdlib Require PrimFloat FloatOps SpecFloat.
From stdpp Require Import base list gmap strings sorting.

Open Scope string_scope.
Set Warnings "-register-all".

(** ** Python strings *)

Module PyStr.

Definition nl : string := String "010"%char "".

(** [str(n)] for an [int]. *)
Definition str_of_int (n : Z) : string := NilZero.string_of_int (Z.to_int n).

(** The UTF-8 encoding of a code point. *)
Definition bytes (l : list N) : string :=
  fold_right (fun n s => String (ascii_of_N n) s) "" l.

Definition utf8 (cp : N) : string :=
  (if cp <? 0x80 then bytes [cp]
   else if cp <? 0x800 then bytes [0xC0 + cp / 0x40; 0x80 + cp mod 0x40]
   else if cp <? 0x10000 then
     bytes [0xE0 + cp / 0x1000; 0x80 + (cp / 0x40) mod 0x40; 0x80 + cp mod 0x40]
   else
     bytes [0xF0 + cp / 0x40000; 0x80 + (cp / 0x1000) mod 0x40;
            0x80 + (cp / 0x40) mod 0x40; 0x80 + cp mod 0x40])%N.

(** A continuation byte of the encoding: [10xxxxxx]. *)
Definition is_continuation (c : ascii) : bool :=
  let n := N_of_ascii c in
  ((0x80 <=? n) && (n <? 0xC0))%N.

Definition starts_with_continuation (s : string) : bool :=
  match s with
  | "" => false
  | String c _ => is_continuation c
  end.

(** The characters of a text, each as the bytes of its encoding: a
    character starts at every byte that is not a continuation byte. *)
Fixpoint chars (s : string) : list string :=
  match s with
  | "" => []
  | String c s' =>
      match chars s' with
      | ch :: rest =>
          if starts_with_continuation ch then String c ch :: rest
          else String c "" :: ch :: rest
      | [] => [String c ""]
      end
  end.

(** The code points for which [str.isspace] holds, which are the ones
    that [str.strip] removes: the controls 0x09-0x0d and 0x1c-0x1f, the
    space, the next line control, the no-break space, the ogham space
    mark, the spaces U+2000-U+200A, the line and the paragraph
    separator, the narrow no-break space, the medium mathematical space
    and the ideographic space. *)
Definition whitespace : list N :=
  [ 0x09; 0x0A; 0x0B; 0x0C; 0x0D; 0x1C; 0x1D; 0x1E; 0x1F; 0x20;
    0x85; 0xA0; 0x1680;
    0x2000; 0x2001; 0x2002; 0x2003; 0x2004; 0x2005; 0x2006; 0x2007;
    0x2008; 0x2009; 0x200A;
    0x2028; 0x2029; 0x202F; 0x205F; 0x3000 ]%N.

Definition whitespace_chars : list string :=
  Eval vm_compute in map utf8 whitespace.

(** [ch.isspace()] for one character. *)
Definition is_space (ch : string) : bool :=
  existsb (String.eqb ch) whitespace_chars.

Fixpoint drop_while {A : Type} (f : A -> bool) (l : list A) : list A :=
  match l with
  | [] => []
  | x :: l' => if f x then drop_while f l' else l
  end.

(** [s.lstrip()], [s.rstrip()] *)
Definition lstrip (s : string) : string :=
  String.concat "" (drop_while is_space (chars s)).

Definition rstrip (s : string) : string :=
  String.concat "" (rev (drop_while is_space (rev (chars s)))).

(** [s.strip()] *)
Definition strip (s : string) : string := lstrip (rstrip s).

(** [needle in hay] for two strings. *)
Fixpoint contains (needle hay : string) : bool :=
  String.prefix needle hay ||
  match hay with
  | "" => false
  | String _ hay' => contains needle hay'
  end.

(** Truth value of a string: [bool(s)]. *)
Definition nonempty (s : string) : bool :=
  match s with "" => false | _ => true end.

(** [s.replace(old, new)] for single characters. *)
Fixpoint replace_char (old new : ascii) (s : string) : string :=
  match s with
  | "" => ""
  | String c s' =>
      String (if Ascii.eqb c old then new else c) (replace_char old new s')
  end.

Fixpoint ends_with_char (c : ascii) (s : string) : bool :=
  match s with
  | "" => false
  | String c' "" => Ascii.eqb c' c
  | String _ s' => ends_with_char c s'
  end.

End PyStr.
Import PyStr.

(** ** Python values, exceptions, results *)

(** The values that JSON text denotes; a [float] is a binary64 number,
    the infinities and NaN included. *)
Inductive pyval : Type :=
| PNone
| PBool (b : bool)
| PInt (n : Z)
| PFloat (x : PrimFloat.float)
| PStr (s : string)
| PList (items : list pyval)
| PDict (entries : list (string * pyval)).

Inductive exn : Type :=
| KeyError (msg : string)
| RuntimeError (msg : string)
| ValueError (msg : string)
| TypeError
| AttributeError
| JSONDecodeError
| UnicodeDecodeError
| IndexError
| OSError
| HTTPStatusError (status : Z)
| TransportError.

Inductive result (A : Type) : Type :=
| Ok (a : A)
| Raise (e : exn).
Arguments Ok {A} a.
Arguments Raise {A} e.

(** [d.get(k)] on an association list: the first binding of [k]. *)
Fixpoint dict_get `{EqDecision K} {V : Type} (k : K) (d : list (K * V)) : option V :=
  match d with
  | [] => None
  | (k', v) :: d' => if decide (k' = k) then Some v else dict_get k d'
  end.

(** [d.get(k, dflt)] *)
Definition dict_get_default `{EqDecision K} {V : Type} (k : K) (dflt : V)
    (d : list (K * V)) : V :=
  default dflt (dict_get k d).

(** [d[k]], raising [KeyError] when the key is absent. *)
Definition dict_item {V : Type} (k : string) (d : list (string * V)) : result V :=
  match dict_get k d with
  | Some v => Ok v
  | None => Raise (KeyError k)
  end.

(** [x == n] for a [float] and an [int]: the two numbers are compared
    exactly, without rounding the integer. *)
Definition float_eq_int (x : PrimFloat.float) (n : Z) : bool :=
  match FloatOps.Prim2SF x with
  | SpecFloat.S754_zero _ => (n =? 0)%Z
  | SpecFloat.S754_finite s m e =>
      let v := if s then Z.neg m else Z.pos m in
      if (0 <=? e)%Z then (v * 2 ^ e =? n)%Z
      else ((v mod 2 ^ (- e) =? 0) && (v / 2 ^ (- e) =? n))%Z
  | _ => false
  end.

(** [bool(v)] *)
Definition truthy (v : pyval) : bool :=
  match v with
  | PNone => false
  | PBool b => b
  | PInt n => negb (n =? 0)%Z
  | PFloat x => negb (PrimFloat.eqb x PrimFloat.zero)
  | PStr s => nonempty s
  | PList l => match l with [] => false | _ => true end
  | PDict d => match d with [] => false | _ => true end
  end.

(** [a == b] for two values that are not one object.  [bool] is a
    subclass of [int] ([True == 1]); numbers are compared by value
    ([1 == 1.0]) and NaN equals nothing; two lists are equal when equal
    pointwise; two dictionaries are equal when they have the same number
    of keys and every key of the first is bound in the second to an equal
    value. *)
Fixpoint py_eq (a b : pyval) : bool :=
  match a, b with
  | PNone, PNone => true
  | PBool x, PBool y => Bool.eqb x y
  | PBool x, PInt y => (Z.b2z x =? y)%Z
  | PInt x, PBool y => (x =? Z.b2z y)%Z
  | PInt x, PInt y => (x =? y)%Z
  | PBool x, PFloat y => float_eq_int y (Z.b2z x)
  | PInt x, PFloat y => float_eq_int y x
  | PFloat x, PBool y => float_eq_int x (Z.b2z y)
  | PFloat x, PInt y => float_eq_int x y
  | PFloat x, PFloat y => PrimFloat.eqb x y
  | PStr x, PStr y => String.eqb x y
  | PList xs, PList ys =>
      (fix go (xs ys : list pyval) {struct xs} : bool :=
         match xs, ys with
         | [], [] => true
         | x :: xs', y :: ys' => py_eq x y && go xs' ys'
         | _, _ => false
         end) xs ys
  | PDict xs, PDict ys =>
      (length xs =? length ys)%nat &&
      (fix go (xs : list (string * pyval)) {struct xs} : bool :=
         match xs with
         | [] => true
         | (k, v) :: xs' =>
             match dict_get k ys with
             | Some w => py_eq v w
             | None => false
             end && go xs'
         end) xs
  | _, _ => false
  end.

(** Two lists agree pointwise under a test. *)
Fixpoint forall2b {A B} (f : A -> B -> bool) (xs : list A) (ys : list B) : bool :=
  match xs, ys with
  | [], [] => true
  | x :: xs', y :: ys' => f x y && forall2b f xs' ys'
  | _, _ => false
  end.

(** A well-formed value: no dictionary binds a key twice, and no number
    is NaN, which is equal to nothing, itself included. *)
Fixpoint py_wf (v : pyval) : bool :=
  match v with
  | PFloat x => PrimFloat.eqb x x
  | PList l => forallb py_wf l
  | PDict d =>
      bool_decide (NoDup (map fst d)) &&
      forallb (fun kv => py_wf (snd kv)) d
  | _ => true
  end.

(** ** The runtime and the state *)

(** What the interpreter and its libraries supply.
    - [randbelow n st]: the private [Random._randbelow(n)], a number below
      [n] and the next state of the generator; [random_seed] is
      [random.seed].
    - [json_loads]: the parser behind [json.loads] and [response.json()],
      [None] when the text is not JSON.
    - [repr_container]: [str(v)] for a list or a dictionary;
      [repr_float]: [str(x)] for a [float].
    - [lower]: [str.lower], the lowercase mapping of the Unicode
      database that the interpreter carries. *)
Class CPython : Type := {
  rng_state : Type;
  random_seed : Z -> rng_state;
  randbelow : nat -> rng_state -> nat * rng_state;
  randbelow_lt : forall n st, 0 < n -> fst (randbelow n st) < n;
  json_loads : string -> option pyval;
  repr_container : pyval -> string;
  repr_float : PrimFloat.float -> string;
  lower : string -> string;
}.

(** A record of the [logging] module. *)
Inductive log_record : Type :=
| Warning (format : string) (args : list string) (exc : exn)
| Error (format : string) (args : list string) (exc : exn).

(** A file of the data directory: the JSON document that its text
    denotes, a text that is not JSON, or bytes that are not UTF-8
    text. *)
Inductive file : Type :=
| JsonFile (doc : pyval)
| OtherFile (raw : string)
| BinaryFile.

Section Runtime.
Context `{py : CPython}.

(** The state outside the window: the module-level generator of
    [random], the log, the files on disk by path, and what the operating
    system allows: [w_io_ok path] holds when the directory [path] can be
    created or is there, respectively when the file [path] can be
    opened. *)
Record world : Type := {
  w_rng : rng_state;
  w_log : list log_record;
  w_files : gmap string file;
  w_io_ok : string -> bool;
}.

(** State and exceptions.  The state reached when an exception is raised
    is kept: Python does not roll back. *)
Definition M (S A : Type) : Type := S -> result A * S.

Definition ret {S A} (a : A) : M S A := fun s => (Ok a, s).
Definition raise {S A} (e : exn) : M S A := fun s => (Raise e, s).
Definition bind {S A B} (m : M S A) (k : A -> M S B) : M S B :=
  fun s => match m s with
           | (Ok a, s') => k a s'
           | (Raise e, s') => (Raise e, s')
           end.
(** [try: m  except Exception as exc: h exc] *)
Definition try_except {S A} (m : M S A) (h : exn -> M S A) : M S A :=
  fun s => match m s with
           | (Ok a, s') => (Ok a, s')
           | (Raise e, s') => h e s'
           end.
Definition lift_result {S A} (r : result A) : M S A := fun s => (r, s).
Definition get_state {S} : M S S := fun s => (Ok s, s).
Definition put_state {S} (s : S) : M S unit := fun _ => (Ok tt, s).

Definition log_append (r : log_record) : M world unit :=
  fun w => (Ok tt, {| w_rng := w_rng w; w_log := w_log w ++ [r];
                      w_files := w_files w; w_io_ok := w_io_ok w |}).

End Runtime.

Declare Scope py_scope.
Delimit Scope py_scope with py.
Notation "'do' x <- m ; k" := (bind m (fun x => k))
  (at level 10, x name, m at level 100, k at level 200) : py_scope.
Notation "'run' m ; k" := (bind m (fun _ => k))
  (at level 10, m at level 100, k at level 200) : py_scope.
Open Scope py_scope.

(** Binding on plain results, for code without effects. *)
Definition rbind {A B} (r : result A) (k : A -> result B) : result B :=
  match r with
  | Ok a => k a
  | Raise e => Raise e
  end.
Notation "'let?' x := r 'in' k" := (rbind r (fun x => k))
  (at level 10, x name, r at level 100, k at level 200).

(** ** content_generator.py *)

Module content_generator.

(** [Dict[str, str]]: the lesson text and the concept summary. *)
Definition content : Type := list (string * string).

Definition LOCAL_CONTENT : list (string * list (Z * list (string * content))) :=
  [ ("Mathematics",
     [ (3%Z,
        [ ("Fractions",
           [ ("lesson",
              "Fractions represent equal parts of a whole. When we write " +:+
              "a fraction like 1/2, the number on top (the numerator) " +:+
              "tells us how many parts we have and the number on the bottom " +:+
              "(the denominator) tells us how many equal parts the whole is " +:+
              "divided into.");
             ("concept",
              "Understanding halves, thirds, and quarters of shapes and groups.") ]);
          ("Multiplication",
           [ ("lesson",
              "Multiplication is repeated addition. To find 3 × 4, add 4 " +:+
              "three times (4 + 4 + 4 = 12). Arrays and equal groups help " +:+
              "us visualise multiplication problems.");
             ("concept", "Building fluency with times tables up to 5.") ]) ]);
       (4%Z,
        [ ("Decimals",
           [ ("lesson",
              "Decimals are another way to write fractions. 0.5 is the same " +:+
              "as 1/2 because it represents 5 tenths. Each place to the " +:+
              "right of the decimal point is worth ten times less than the " +:+
              "place before it.");
             ("concept", "Linking tenths and hundredths to place value charts.") ]) ]) ]);
    ("Science",
     [ (3%Z,
        [ ("Life Cycles",
           [ ("lesson",
              "Plants and animals go through life cycles. A butterfly starts " +:+
              "as an egg, becomes a caterpillar, forms a chrysalis, and " +:+
              "emerges as an adult butterfly. Each stage has a special job.");
             ("concept", "Recognising patterns in living things.") ]) ]);
       (4%Z,
        [ ("Energy",
           [ ("lesson",
              "Energy is the ability to do work. It can take many forms " +:+
              "such as light, heat, and movement. Energy can change from " +:+
              "one form to another, like when electricity powers a lamp.");
             ("concept", "Observing energy transfers in everyday situations.") ]) ]) ]) ].

(** [sorted] on integers and on strings (by code point, which is the
    byte order of the UTF-8 encoding). *)
Definition sorted_int (l : list Z) : list Z := merge_sort Z.le l.
Definition sorted_str (l : list string) : list string :=
  merge_sort (fun a b => String.leb a b) l.

Definition get_available_grades : list Z :=
  let grades : gset Z :=
    fold_left (fun grades subject => grades ∪ list_to_set (map fst subject))
              (map snd LOCAL_CONTENT) ∅ in
  sorted_int (elements grades).

Definition get_subjects_for_grade (grade : Z) : list string :=
  sorted_str
    (map fst
       (filter (fun item => is_Some (dict_get grade (snd item))) LOCAL_CONTENT)).

Definition get_topics (subject : string) (grade : Z) : list string :=
  let subject_data := dict_get_default subject [] LOCAL_CONTENT in
  sorted_str (map fst (dict_get_default grade [] subject_data)).

Definition no_content_message (subject : string) (grade : Z) (topic : string) : string :=
  "No local content for " +:+ subject +:+ " grade " +:+ str_of_int grade +:+
  " topic " +:+ topic +:+ ".".

Definition _select_content (subject : string) (grade : Z) (topic : string)
    : result content :=
  let subject_data := dict_get_default subject [] LOCAL_CONTENT in
  let grade_data := dict_get_default grade [] subject_data in
  match dict_get topic grade_data with
  | Some ((_ :: _) as content) => Ok content
  | _ => Raise (KeyError (no_content_message subject grade topic))
  end.

Definition generate_local_lesson (subject : string) (grade : Z) (topic : string)
    : result string :=
  let? content := _select_content subject grade topic in
  let? concept := dict_item "concept" content in
  let? lesson := dict_item "lesson" content in
  Ok ("Lesson Topic: " +:+ topic +:+ nl +:+
      "Grade Level: " +:+ str_of_int grade +:+ nl +:+
      "Subject: " +:+ subject +:+ nl +:+ nl +:+
      "Big Idea: " +:+ concept +:+ nl +:+ nl +:+
      "Key Learning:" +:+ nl +:+ lesson +:+ nl +:+ nl +:+
      "Try sketching or acting out the idea to help it stick!").

(** An exercise: [{"question": ..., "expected_answer": ..., "hint": ...}]. *)
Record exercise : Type := {
  question : string;
  expected_answer : string;
  hint : string;
}.

Section WithRuntime.
Context `{py : CPython}.

(** [x[i], x[j] = x[j], x[i]] *)
Definition swap {A} (i j : nat) (x : list A) : result (list A) :=
  match x !! j, x !! i with
  | Some xj, Some xi => Ok (<[j := xi]> (<[i := xj]> x))
  | _, _ => Raise IndexError
  end.

(** The loop of [random.shuffle]:
    [for i in reversed(range(1, len(x))): j = randbelow(i + 1); swap],
    entered with the largest index still to visit. *)
Fixpoint shuffle_from {A} (i : nat) (x : list A) (st : rng_state)
    : result (list A) * rng_state :=
  match i with
  | 0 => (Ok x, st)
  | S i' =>
      let (j, st') := randbelow (i + 1) st in
      match swap i j x with
      | Ok x' => shuffle_from i' x' st'
      | Raise e => (Raise e, st')
      end
  end.

(** [random.shuffle(x)] on the module-level generator. *)
Definition random_shuffle {A} (x : list A) : M world (list A) :=
  fun w =>
    let (r, st') := shuffle_from (length x - 1) x (w_rng w) in
    (r, {| w_rng := st'; w_log := w_log w; w_files := w_files w;
           w_io_ok := w_io_ok w |}).

(** The questions before shuffling. *)
Definition base_questions (subject topic concept : string)
    : list (string * string) :=
  let base_questions :=
    [ ("Explain the main idea of " +:+ lower topic +:+ " in your own words.", concept);
      ("Give a real-life example related to " +:+ lower topic +:+ ".", concept) ] in
  if String.eqb subject "Mathematics" && contains "fraction" (lower topic) then
    base_questions ++
      [ ("What fraction of a pizza is left if you eat 3 of 8 slices?", "5/8") ]
  else if String.eqb subject "Mathematics" && contains "multiplication" (lower topic) then
    base_questions ++ [ ("Solve 4 × 6.", "24") ]
  else if String.eqb subject "Science" && contains "energy" (lower topic) then
    base_questions ++
      [ ("Name two forms of energy you use at school.", "light and sound") ]
  else base_questions.

Definition to_exercise (concept : string) (qa : string * string) : exercise :=
  {| question := fst qa;
     expected_answer := snd qa;
     hint := "Think about: " +:+ concept |}.

Definition generate_local_exercises (subject : string) (grade : Z) (topic : string)
    : M world (list exercise) :=
  do content <- lift_result (_select_content subject grade topic) ;
  do concept <- lift_result (dict_item "concept" content) ;
  do shuffled <- random_shuffle (base_questions subject topic concept) ;
  ret (map (to_exercise concept) shuffled).

End WithRuntime.

Definition answer_question_locally `{py : CPython} (question context : string) : string :=
  let question_lower := lower question in
  if contains "fraction" question_lower && contains "pizza" question_lower then
    "If 3 of 8 slices are eaten, 5/8 of the pizza remains."
  else if contains "4 × 6" question || contains "4 x 6" question_lower then
    "4 × 6 equals 24."
  else if contains "energy" question_lower then
    "Common forms include light, sound, and heat energy."
  else
    "Think back to the main idea of the lesson. Highlight key words in the " +:+
    "question and match them to details from the lesson text.".

End content_generator.

(** ** Dynamic operations on values *)

(** [v.get(k, dflt)]: only a dictionary has [get]. *)
Definition py_get (k : string) (dflt : pyval) (v : pyval) : result pyval :=
  match v with
  | PDict d => Ok (dict_get_default k dflt d)
  | _ => Raise AttributeError
  end.

(** The items visited by [for x in v]: the elements of a list, the keys of
    a dictionary, the characters of a string; anything else is not
    iterable. *)
Definition py_iter (v : pyval) : result (list pyval) :=
  match v with
  | PList l => Ok l
  | PDict d => Ok (map (fun kv => PStr (fst kv)) d)
  | PStr s => Ok (map PStr (chars s))
  | _ => Raise TypeError
  end.

(** [v.strip()]: only a string has [strip]. *)
Definition py_strip (v : pyval) : result string :=
  match v with
  | PStr s => Ok (strip s)
  | _ => Raise AttributeError
  end.

(** [str(v)] *)
Definition py_str `{py : CPython} (v : pyval) : string :=
  match v with
  | PStr s => s
  | PNone => "None"
  | PBool true => "True"
  | PBool false => "False"
  | PInt n => str_of_int n
  | PFloat x => repr_float x
  | _ => repr_container v
  end.

(** [entry in container] with [entry] a dictionary: a list is searched
    with [==]; a dictionary would hash the entry and a string would
    require a string, both a [TypeError]; the rest is not iterable. *)
Definition py_contains (entry : pyval) (container : pyval) : result bool :=
  match container with
  | PList l => Ok (existsb (fun e => py_eq e entry) l)
  | _ => Raise TypeError
  end.

(** [container.append(entry)]: only a list has [append]. *)
Definition py_append (container : pyval) (entry : pyval) : result pyval :=
  match container with
  | PList l => Ok (PList (l ++ [entry]))
  | _ => Raise AttributeError
  end.

(** [l[i]]: a negative index counts from the end; outside the list an
    [IndexError]. *)
Definition list_item {A : Type} (l : list A) (i : Z) : result A :=
  let n := Z.of_nat (length l) in
  let j := if (i <? 0)%Z then (i + n)%Z else i in
  if ((0 <=? j) && (j <? n))%Z then
    match l !! Z.to_nat j with
    | Some x => Ok x
    | None => Raise IndexError
    end
  else Raise IndexError.

(** [s[i]] for a string of ASCII characters. *)
Definition str_item (s : string) (i : Z) : result string :=
  let? c := list_item (list_ascii_of_string s) i in
  Ok (String c "").

(** [enumerate(l)] *)
Definition enumerate {A : Type} (l : list A) : list (Z * A) :=
  imap (fun i x => (Z.of_nat i, x)) l.

(** ** ai_interface.py *)

Module ai_interface.
Import content_generator.

(** The request of [client.post(url, params={"key": key}, json=payload)]. *)
Record request : Type := {
  req_url : string;
  req_key : string;
  req_json : pyval;
}.

(** What the call yields: an exception of the transport (no connection,
    timeout), or a response with its status and body. *)
Inductive http_outcome : Type :=
| Failed
| Response (status : Z) (body : string).

(** The process environment and the network seen by one call. *)
Record Env : Type := {
  getenv : string -> option string;
  http_post : request -> http_outcome;
}.

Definition GEMINI_API_KEY (env : Env) : option string :=
  getenv env "GEMINI_API_KEY".
Definition GEMINI_MODEL (env : Env) : string :=
  default "gemini-pro" (getenv env "GEMINI_MODEL").
Definition GEMINI_ENDPOINT (env : Env) : string :=
  default
    ("https://generativelanguage.googleapis.com/v1beta/models/" +:+
     GEMINI_MODEL env +:+ ":generateContent")
    (getenv env "GEMINI_API_ENDPOINT").

(** [response.raise_for_status()] raises unless the status is 2xx. *)
Definition is_success (status : Z) : bool :=
  ((200 <=? status) && (status <=? 299))%Z.

Section WithRuntime.
Context `{py : CPython}.

(** The inner loop of [_request_from_gemini]: the first truthy
    ["text"] among the parts, [None] when the loop runs out. *)
Fixpoint text_of_parts (parts : list pyval) : result (option pyval) :=
  match parts with
  | [] => Ok None
  | part :: parts' =>
      let? text := py_get "text" PNone part in
      if truthy text then Ok (Some text) else text_of_parts parts'
  end.

(** The outer loop. *)
Fixpoint text_of_candidates (candidates : list pyval) : result (option pyval) :=
  match candidates with
  | [] => Ok None
  | candidate :: candidates' =>
      let? content := py_get "content" (PDict []) candidate in
      let? parts := py_get "parts" (PList []) content in
      let? parts := py_iter parts in
      let? found := text_of_parts parts in
      match found with
      | Some text => Ok (Some text)
      | None => text_of_candidates candidates'
      end
  end.

(** What follows [data = response.json()]. *)
Definition text_of_data (data : pyval) : result pyval :=
  let? candidates := py_get "candidates" PNone data in
  let candidates := if truthy candidates then candidates else PList [] in
  let? candidates := py_iter candidates in
  let? found := text_of_candidates candidates in
  match found with
  | Some text => Ok text
  | None => Raise (RuntimeError "Gemini response did not include any text.")
  end.

Definition _request_from_gemini (env : Env) (prompt : string) : result pyval :=
  match GEMINI_API_KEY env with
  | None | Some "" => Raise (RuntimeError "GEMINI_API_KEY is not set.")
  | Some key =>
      let payload :=
        PDict [("contents", PList [PDict [("parts", PList [PDict [("text", PStr prompt)]])]])] in
      match http_post env {| req_url := GEMINI_ENDPOINT env;
                             req_key := key;
                             req_json := payload |} with
      | Failed => Raise TransportError
      | Response status body =>
          if negb (is_success status) then Raise (HTTPStatusError status)
          else match json_loads body with
               | None => Raise JSONDecodeError
               | Some data => text_of_data data
               end
      end
  end.

Definition lesson_prompt (subject : string) (grade : Z) (topic : string) : string :=
  "You are a friendly elementary school teacher. " +:+
  "Create a concise lesson for grade " +:+ str_of_int grade +:+ " " +:+ subject +:+
  " learners about " +:+ topic +:+ ". " +:+
  "Use inviting language, short paragraphs, and include one practical activity suggestion.".

Definition generate_lesson (env : Env) (subject : string) (grade : Z) (topic : string)
    : M world string :=
  try_except
    (do lesson_text <- lift_result (_request_from_gemini env (lesson_prompt subject grade topic)) ;
     lift_result (py_strip lesson_text))
    (fun exc =>
       run log_append (Warning "Falling back to local lesson for %s grade %s: %s"
                         [subject; str_of_int grade] exc) ;
       lift_result (generate_local_lesson subject grade topic)).

Definition exercises_prompt (subject : string) (grade : Z) (topic : string) : string :=
  "Create three short practice questions for grade " +:+ str_of_int grade +:+
  " students in " +:+ subject +:+ " about " +:+ topic +:+ ". " +:+
  "Respond with a JSON list where each item has keys 'question', 'expected_answer', and 'hint'.".

(** [json.loads(v)]: a [TypeError] unless [v] is text. *)
Definition py_json_loads (v : pyval) : result pyval :=
  match v with
  | PStr s => match json_loads s with
              | Some doc => Ok doc
              | None => Raise JSONDecodeError
              end
  | _ => Raise TypeError
  end.

(** The loop over the entries, [parsed] being the list built so far. *)
Fixpoint parse_entries (exercises : list pyval) (parsed : list exercise)
    : result (list exercise) :=
  match exercises with
  | [] => Ok parsed
  | PDict exercise :: exercises' =>
      let question := strip (py_str (dict_get_default "question" (PStr "") exercise)) in
      let answer := strip (py_str (dict_get_default "expected_answer" (PStr "") exercise)) in
      let hint := py_str (dict_get_default "hint" (PStr "Use clues from the lesson.") exercise) in
      parse_entries exercises'
        (if nonempty question
         then parsed ++ [ {| question := question; expected_answer := answer; hint := hint |} ]
         else parsed)
  | _ :: _ => Raise (ValueError "Exercise entry must be a dict")
  end.

(** What follows [exercises = json.loads(response_text)]. *)
Definition parse_exercises (exercises : pyval) : result (list exercise) :=
  match exercises with
  | PList exercises =>
      let? parsed := parse_entries exercises [] in
      match parsed with
      | _ :: _ => Ok parsed
      | [] => Raise (ValueError "No valid exercises returned")
      end
  | _ => Raise (ValueError "Gemini exercise response must be a list")
  end.

Definition generate_exercises (env : Env) (subject : string) (grade : Z) (topic : string)
    : M world (list exercise) :=
  try_except
    (do response_text <- lift_result (_request_from_gemini env (exercises_prompt subject grade topic)) ;
     do exercises <- lift_result (py_json_loads response_text) ;
     lift_result (parse_exercises exercises))
    (fun exc =>
       run log_append (Warning "Falling back to local exercises for %s grade %s: %s"
                         [subject; str_of_int grade] exc) ;
       generate_local_exercises subject grade topic).

Definition answer_prompt (question lesson_context student_answer : string) : string :=
  "You are an encouraging tutor. A student answered a question incorrectly. " +:+
  "Provide gentle feedback using the lesson summary and student response." +:+ nl +:+
  "Lesson summary: " +:+ lesson_context +:+ nl +:+
  "Question: " +:+ question +:+ nl +:+
  "Student answer: " +:+ student_answer +:+ nl +:+
  "Respond with two short sentences offering guidance.".

Definition answer_question (env : Env) (question lesson_context student_answer : string)
    : M world string :=
  try_except
    (do text <- lift_result (_request_from_gemini env
                               (answer_prompt question lesson_context student_answer)) ;
     lift_result (py_strip text))
    (fun exc =>
       run log_append (Warning "Falling back to local answer helper: %s" [] exc) ;
       ret (answer_question_locally question lesson_context)).

(** [asyncio.run] of the coroutine: the same computation. *)
Definition generate_lesson_sync := generate_lesson.
Definition generate_exercises_sync := generate_exercises.
Definition answer_question_sync := answer_question.

End WithRuntime.

End ai_interface.

(** ** data_store.py *)

Module data_store.

Definition DEFAULT_DATA_DIR : string := "data".

(** The dataclass.  The two lists are dynamic values: [from_dict] stores
    whatever the file holds under the two keys. *)
Record StudentProgress : Type := {
  student_id : string;
  completed_lessons : pyval;
  completed_tests : pyval;
}.

(** The [__eq__] that [@dataclass] generates: the tuples of the fields
    are compared with [==]. *)
Definition StudentProgress_eq (a b : StudentProgress) : bool :=
  String.eqb (student_id a) (student_id b) &&
  py_eq (completed_lessons a) (completed_lessons b) &&
  py_eq (completed_tests a) (completed_tests b).

Definition from_dict (payload : pyval) (student_id : string) : result StudentProgress :=
  let? lessons := py_get "completed_lessons" (PList []) payload in
  let? tests := py_get "completed_tests" (PList []) payload in
  Ok {| student_id := student_id;
        completed_lessons := lessons;
        completed_tests := tests |}.

(** [os.path.join(a, b)] on POSIX. *)
Definition path_join (a b : string) : string :=
  if String.prefix "/" b then b
  else if negb (nonempty a) || ends_with_char "/" a then a +:+ b
  else a +:+ "/" +:+ b.

(** The path that [_progress_path] returns; [os.sep] is the slash. *)
Definition progress_file (student_id data_dir : string) : string :=
  let safe_id := replace_char "/" "_" student_id in
  path_join data_dir (safe_id +:+ ".json").

(** [dataclasses.asdict]: the fields in declaration order (the copies it
    makes of lists and dictionaries are the same values). *)
Definition asdict (progress : StudentProgress) : pyval :=
  PDict [ ("student_id", PStr (student_id progress));
          ("completed_lessons", completed_lessons progress);
          ("completed_tests", completed_tests progress) ].

(** The document written by [json.dump(v, handle, indent=2,
    sort_keys=True)]: the members of every object in key order. *)
Definition key_le (a b : string * pyval) : Prop := String.leb (fst a) (fst b).

#[global] Instance key_le_dec : RelDecision key_le :=
  fun a b => decide (Is_true (String.leb (fst a) (fst b))).

Fixpoint sort_keys (v : pyval) : pyval :=
  match v with
  | PList l => PList (map sort_keys l)
  | PDict d =>
      PDict (merge_sort key_le (map (fun kv => (fst kv, sort_keys (snd kv))) d))
  | _ => v
  end.

Section WithRuntime.
Context `{py : CPython}.

(** [os.makedirs(data_dir, exist_ok=True)] *)
Definition makedirs (data_dir : string) : M world unit :=
  fun w => if w_io_ok w data_dir then (Ok tt, w) else (Raise OSError, w).

Definition _progress_path (student_id data_dir : string) : M world string :=
  run makedirs data_dir ;
  ret (progress_file student_id data_dir).

(** [open(path, "w")] followed by the writing of the document. *)
Definition write_file (path : string) (f : file) : M world unit :=
  fun w => if w_io_ok w path
           then (Ok tt, {| w_rng := w_rng w; w_log := w_log w;
                           w_files := <[path := f]> (w_files w);
                           w_io_ok := w_io_ok w |})
           else (Raise OSError, w).

(** [os.path.exists(path)] *)
Definition path_exists (path : string) : M world bool :=
  fun w => (Ok (bool_decide (is_Some (w_files w !! path))), w).

(** [open(path, "r")] followed by the reading of the file. *)
Definition read_file (path : string) : M world file :=
  fun w => match w_files w !! path with
           | Some f => if w_io_ok w path then (Ok f, w) else (Raise OSError, w)
           | None => (Raise OSError, w)
           end.

Definition save_progress (progress : StudentProgress) (data_dir : string)
    : M world unit :=
  do path <- _progress_path (student_id progress) data_dir ;
  write_file path (JsonFile (sort_keys (asdict progress))).

Definition load_progress (student_id : string) (data_dir : string)
    : M world StudentProgress :=
  do path <- _progress_path student_id data_dir ;
  do found <- path_exists path ;
  if negb found then
    ret {| student_id := student_id;
           completed_lessons := PList [];
           completed_tests := PList [] |}
  else
    do f <- read_file path ;
    match f with
    | JsonFile payload => lift_result (from_dict payload student_id)
    | OtherFile _ => raise JSONDecodeError
    | BinaryFile => raise UnicodeDecodeError
    end.

End WithRuntime.

End data_store.

(** ** main.py: the window and its progress-recording slots *)

Module main.
Import content_generator ai_interface data_store.

(** The attributes of [MainWindow] that the slots read and write (the
    widgets are left out). *)
Record MainWindow : Type := {
  mw_student_id : string;
  progress : StudentProgress;
  current_subject : option string;
  current_topic : option string;
  current_grade : option Z;
  current_lesson_text : string;
}.

(** [MainWindow.__init__] *)
Definition init : MainWindow :=
  {| mw_student_id := "student";
     progress := {| student_id := "student";
                    completed_lessons := PList [];
                    completed_tests := PList [] |};
     current_subject := None;
     current_topic := None;
     current_grade := None;
     current_lesson_text := "" |}.

Definition set_progress (p : StudentProgress) (mw : MainWindow) : MainWindow :=
  {| mw_student_id := mw_student_id mw;
     progress := p;
     current_subject := current_subject mw;
     current_topic := current_topic mw;
     current_grade := current_grade mw;
     current_lesson_text := current_lesson_text mw |}.

Definition set_student_id (name : string) (mw : MainWindow) : MainWindow :=
  {| mw_student_id := name;
     progress := progress mw;
     current_subject := current_subject mw;
     current_topic := current_topic mw;
     current_grade := current_grade mw;
     current_lesson_text := current_lesson_text mw |}.

Definition set_current (subject : string) (grade : Z) (topic : string)
    (mw : MainWindow) : MainWindow :=
  {| mw_student_id := mw_student_id mw;
     progress := progress mw;
     current_subject := Some subject;
     current_topic := Some topic;
     current_grade := Some grade;
     current_lesson_text := current_lesson_text mw |}.

Definition set_current_lesson_text (text : string) (mw : MainWindow) : MainWindow :=
  {| mw_student_id := mw_student_id mw;
     progress := progress mw;
     current_subject := current_subject mw;
     current_topic := current_topic mw;
     current_grade := current_grade mw;
     current_lesson_text := text |}.

Definition set_completed_lessons (l : pyval) (p : StudentProgress) : StudentProgress :=
  {| student_id := student_id p;
     completed_lessons := l;
     completed_tests := completed_tests p |}.

Definition set_completed_tests (l : pyval) (p : StudentProgress) : StudentProgress :=
  {| student_id := student_id p;
     completed_lessons := completed_lessons p;
     completed_tests := l |}.

Definition lesson_entry (subject : string) (grade : Z) (topic : string) : pyval :=
  PDict [ ("subject", PStr subject); ("grade", PInt grade); ("topic", PStr topic) ].

Definition test_entry (subject : string) (grade : Z) (topic : string)
    (score total : Z) : pyval :=
  PDict [ ("subject", PStr subject); ("grade", PInt grade); ("topic", PStr topic);
          ("score", PInt score); ("total", PInt total) ].

(** The guard [self.current_subject and self.current_grade and
    self.current_topic]: the triple when all three are truthy. *)
Definition current_triple (mw : MainWindow) : option (string * Z * string) :=
  match current_subject mw, current_grade mw, current_topic mw with
  | Some subject, Some grade, Some topic =>
      if nonempty subject && negb (grade =? 0)%Z && nonempty topic
      then Some (subject, grade, topic) else None
  | _, _, _ => None
  end.

Section WithRuntime.
Context `{py : CPython}.

(** The window together with the state outside it. *)
Record app : Type := {
  window : MainWindow;
  outside : world;
}.

Definition in_world {A} (m : M world A) : M app A :=
  fun a => let (r, w') := m (outside a) in
           (r, {| window := window a; outside := w' |}).

Definition modify_window (f : MainWindow -> MainWindow) : M app unit :=
  fun a => (Ok tt, {| window := f (window a); outside := outside a |}).

Definition get_window : M app MainWindow :=
  fun a => (Ok (window a), a).

Definition _persist_progress : M app unit :=
  do mw <- get_window ;
  try_except
    (in_world (save_progress (progress mw) DEFAULT_DATA_DIR))
    (fun exc => in_world (log_append (Error "Failed to save progress: %s" [] exc))).

Definition _on_intro_started (student_name : string) : M app unit :=
  run modify_window (set_student_id student_name) ;
  do loaded <- in_world (load_progress student_name DEFAULT_DATA_DIR) ;
  modify_window (set_progress loaded).

Definition _open_lesson (env : Env) (subject : string) (grade : Z) (topic : string)
    : M app unit :=
  run modify_window (set_current subject grade topic) ;
  do lesson_text <- in_world (generate_lesson_sync env subject grade topic) ;
  run modify_window (set_current_lesson_text lesson_text) ;
  let lesson_entry := lesson_entry subject grade topic in
  do mw <- get_window ;
  do recorded <- lift_result (py_contains lesson_entry (completed_lessons (progress mw))) ;
  if negb recorded then
    do lessons <- lift_result (py_append (completed_lessons (progress mw)) lesson_entry) ;
    run modify_window (fun mw => set_progress (set_completed_lessons lessons (progress mw)) mw) ;
    _persist_progress
  else ret tt.

Definition _record_test (score total : Z) : M app unit :=
  do mw <- get_window ;
  match current_triple mw with
  | None => ret tt
  | Some (subject, grade, topic) =>
      let test_entry := test_entry subject grade topic score total in
      do tests <- lift_result (py_append (completed_tests (progress mw)) test_entry) ;
      run modify_window (fun mw => set_progress (set_completed_tests tests (progress mw)) mw) ;
      _persist_progress
  end.

(** What the user does: the slots connected to the signals
    [lesson_selected] and [test_completed], each with the environment
    in which it runs. *)
Inductive event : Type :=
| LessonSelected (env : Env) (subject : string) (grade : Z) (topic : string)
| TestCompleted (score total : Z).

Definition handle (e : event) : M app unit :=
  match e with
  | LessonSelected env subject grade topic => _open_lesson env subject grade topic
  | TestCompleted score total => _record_test score total
  end.

(** The state after a sequence of events.  An exception that leaves a
    slot ends that slot; the state it reached stays, and the next event,
    if the application goes on, is handled from there. *)
Fixpoint run_events (es : list event) (a : app) : app :=
  match es with
  | [] => a
  | e :: es' => run_events es' (snd (handle e a))
  end.

End WithRuntime.

(** *** The intro page and the quiz page *)

(** [IntroPage._handle_start_clicked]: the name that the signal [started]
    carries, [name_input] being the text typed. *)
Definition _handle_start_clicked (name_input : string) : string :=
  let student_name := strip name_input in
  if nonempty student_name then student_name else "student".

(** The attributes of [TestPage], the texts of its widgets included. *)
Record TestPage : Type := {
  _exercises : list exercise;
  _index : Z;
  _score : Z;
  _lesson_context : string;
  question_label : string;
  hint_label : string;
  answer_input : string;
  feedback_box : string;
}.

(** [TestPage.__init__] *)
Definition new_test_page : TestPage :=
  {| _exercises := []; _index := 0; _score := 0; _lesson_context := "";
     question_label := ""; hint_label := ""; answer_input := ""; feedback_box := "" |}.

Definition set_exercises (exercises : list exercise) (lesson_context : string)
    (tp : TestPage) : TestPage :=
  {| _exercises := exercises; _index := 0; _score := 0;
     _lesson_context := lesson_context;
     question_label := question_label tp; hint_label := hint_label tp;
     answer_input := answer_input tp; feedback_box := feedback_box tp |}.

Definition set_index (index : Z) (tp : TestPage) : TestPage :=
  {| _exercises := _exercises tp; _index := index; _score := _score tp;
     _lesson_context := _lesson_context tp;
     question_label := question_label tp; hint_label := hint_label tp;
     answer_input := answer_input tp; feedback_box := feedback_box tp |}.

Definition set_score (score : Z) (tp : TestPage) : TestPage :=
  {| _exercises := _exercises tp; _index := _index tp; _score := score;
     _lesson_context := _lesson_context tp;
     question_label := question_label tp; hint_label := hint_label tp;
     answer_input := answer_input tp; feedback_box := feedback_box tp |}.

Definition set_labels (question hint : string) (tp : TestPage) : TestPage :=
  {| _exercises := _exercises tp; _index := _index tp; _score := _score tp;
     _lesson_context := _lesson_context tp;
     question_label := question; hint_label := hint;
     answer_input := answer_input tp; feedback_box := feedback_box tp |}.

Definition set_answer_input (text : string) (tp : TestPage) : TestPage :=
  {| _exercises := _exercises tp; _index := _index tp; _score := _score tp;
     _lesson_context := _lesson_context tp;
     question_label := question_label tp; hint_label := hint_label tp;
     answer_input := text; feedback_box := feedback_box tp |}.

Definition set_feedback_box (text : string) (tp : TestPage) : TestPage :=
  {| _exercises := _exercises tp; _index := _index tp; _score := _score tp;
     _lesson_context := _lesson_context tp;
     question_label := question_label tp; hint_label := hint_label tp;
     answer_input := answer_input tp; feedback_box := text |}.

(** The test of [_handle_submit]:
    [bool(expected) and student_answer.lower() == expected.lower()],
    both texts stripped. *)
Definition is_correct `{py : CPython} (exercise : exercise) (typed : string) : bool :=
  let student_answer := strip typed in
  let expected := strip (expected_answer exercise) in
  nonempty expected && String.eqb (lower student_answer) (lower expected).

Section Pages.
Context `{py : CPython}.

(** The main window, what is outside it, and its quiz page. *)
Record gui : Type := {
  the_app : app;
  test_page : TestPage;
}.

Definition in_app {A} (m : M app A) : M gui A :=
  fun s => let (r, a') := m (the_app s) in
           (r, {| the_app := a'; test_page := test_page s |}).

Definition get_test_page : M gui TestPage :=
  fun s => (Ok (test_page s), s).

Definition modify_test_page (f : TestPage -> TestPage) : M gui unit :=
  fun s => (Ok tt, {| the_app := the_app s; test_page := f (test_page s) |}).

Definition _display_current_question : M gui unit :=
  do tp <- get_test_page ;
  match _exercises tp with
  | [] => modify_test_page (set_labels "No exercises available." "")
  | _ :: _ =>
      do exercise <- lift_result (list_item (_exercises tp) (_index tp)) ;
      run modify_test_page (set_labels (question exercise) ("Hint: " +:+ hint exercise)) ;
      run modify_test_page (set_answer_input "") ;
      modify_test_page (set_feedback_box "")
  end.

Definition load_exercises (exercises : list exercise) (lesson_context : string)
    : M gui unit :=
  run modify_test_page (set_exercises exercises lesson_context) ;
  run modify_test_page (set_feedback_box "") ;
  run modify_test_page (set_answer_input "") ;
  _display_current_question.

Definition _handle_submit (env : Env) : M gui unit :=
  do tp <- get_test_page ;
  match _exercises tp with
  | [] => ret tt
  | _ :: _ =>
      do exercise <- lift_result (list_item (_exercises tp) (_index tp)) ;
      let student_answer := strip (answer_input tp) in
      run (if is_correct exercise (answer_input tp) then
             run modify_test_page (set_feedback_box "Great job! That's correct.") ;
             modify_test_page (fun tp => set_score (_score tp + 1)%Z tp)
           else
             do feedback <- in_app (in_world
                              (answer_question_sync env (question exercise)
                                 (_lesson_context tp) student_answer)) ;
             modify_test_page (set_feedback_box feedback)) ;
      modify_test_page (set_answer_input "")
  end.

(** [back_requested] is connected to [_show_lesson_list], which changes
    the page shown only; [test_completed] is connected to
    [_record_test]. *)
Definition _handle_next : M gui unit :=
  do tp <- get_test_page ;
  match _exercises tp with
  | [] => ret tt
  | _ :: _ =>
      if (_index tp <? Z.of_nat (length (_exercises tp)) - 1)%Z then
        run modify_test_page (fun tp => set_index (_index tp + 1)%Z tp) ;
        _display_current_question
      else
        let total := Z.of_nat (length (_exercises tp)) in
        in_app (_record_test (_score tp) total)
  end.

Definition _start_test (env : Env) : M gui unit :=
  do mw <- in_app get_window ;
  match current_triple mw with
  | None => ret tt
  | Some (subject, grade, topic) =>
      do exercises <- in_app (in_world (generate_exercises_sync env subject grade topic)) ;
      match exercises with
      | [] => ret tt
      | _ :: _ => load_exercises exercises (current_lesson_text mw)
      end
  end.

(** What the user does on the pages. *)
Inductive gui_event : Type :=
| StartClicked (name_input : string)
| LessonOpened (env : Env) (subject : string) (grade : Z) (topic : string)
| QuizStarted (env : Env)
| AnswerTyped (text : string)
| SubmitClicked (env : Env)
| NextClicked.

Definition gui_handle (e : gui_event) : M gui unit :=
  match e with
  | StartClicked name_input => in_app (_on_intro_started (_handle_start_clicked name_input))
  | LessonOpened env subject grade topic => in_app (_open_lesson env subject grade topic)
  | QuizStarted env => _start_test env
  | AnswerTyped text => modify_test_page (set_answer_input text)
  | SubmitClicked env => _handle_submit env
  | NextClicked => _handle_next
  end.

Fixpoint gui_run (es : list gui_event) (s : gui) : gui :=
  match es with
  | [] => s
  | e :: es' => gui_run es' (snd (gui_handle e s))
  end.

End Pages.

(** *** ProgressPage *)

Section ProgressPages.
Context `{py : CPython}.

(** [item[key]] with [key] a string: the value of a dictionary, a
    [KeyError] with the key when it is missing; a list and a string take
    integers only and the other values take no index, both a
    [TypeError]. *)
Definition py_subscript (item : pyval) (key : string) : result pyval :=
  match item with
  | PDict d =>
      match dict_get key d with
      | Some v => Ok v
      | None => Raise (KeyError key)
      end
  | _ => Raise TypeError
  end.

(** [[f(x) for x in l]]: the first exception ends the comprehension. *)
Fixpoint comprehension {A B : Type} (f : A -> result B) (l : list A) : result (list B) :=
  match l with
  | [] => Ok []
  | x :: l' =>
      let? y := f x in
      let? ys := comprehension f l' in
      Ok (y :: ys)
  end.

(** The two f-strings of [display_progress]; a replacement field formats
    its value as [str] does. *)
Definition lesson_line (item : pyval) : result string :=
  let? subject := py_subscript item "subject" in
  let? grade := py_subscript item "grade" in
  let? topic := py_subscript item "topic" in
  Ok ("• " +:+ py_str subject +:+ " grade " +:+ py_str grade +:+ " – " +:+ py_str topic).

Definition test_line (item : pyval) : result string :=
  let? subject := py_subscript item "subject" in
  let? grade := py_subscript item "grade" in
  let? topic := py_subscript item "topic" in
  let? score := py_subscript item "score" in
  let? total := py_subscript item "total" in
  Ok ("• " +:+ py_str subject +:+ " grade " +:+ py_str grade +:+ " – " +:+ py_str topic +:+
      " (score " +:+ py_str score +:+ "/" +:+ py_str total +:+ ")").

(** [lines or dflt] *)
Definition lines_or (lines dflt : list string) : list string :=
  match lines with
  | [] => dflt
  | _ :: _ => lines
  end.

(** The list [summary] of [display_progress]. *)
Definition summary_lines (progress : StudentProgress) : result (list string) :=
  let? lessons := py_iter (completed_lessons progress) in
  let? lessons_lines := comprehension lesson_line lessons in
  let? tests := py_iter (completed_tests progress) in
  let? tests_lines := comprehension test_line tests in
  Ok (["Student: " +:+ student_id progress; ""; "Completed lessons:"] ++
      lines_or lessons_lines ["  No lessons completed yet."] ++
      [""; "Quiz history:"] ++
      lines_or tests_lines ["  No quizzes taken yet."])%list.

(** [ProgressPage.display_progress]: the text given to the summary box. *)
Definition display_progress (progress : StudentProgress) : result string :=
  let? summary := summary_lines progress in
  Ok (String.concat nl summary).

(** [MainWindow._show_progress]: the text shown (the change of page is
    left out). *)
Definition _show_progress : M app string :=
  do mw <- get_window ;
  lift_result (display_progress (progress mw)).

End ProgressPages.

End main.

(** ** games/labyrinth_game.py *)

Module labyrinth_game.

Definition GRID : list string :=
  [ "####################";
    "#S   #         #   #";
    "### ### #### # # # #";
    "#     #    # # # # #";
    "# ### #### # # # # #";
    "# #   #    #   #   #";
    "# # ### ####### ###E";
    "# #   #       #   ##";
    "# ### # ##### ###  #";
    "#     #     #     ##";
    "####################" ].

Definition ROWS : Z := Z.of_nat (length GRID).

(** [len(GRID[0])] *)
Definition COLS : Z :=
  match GRID with
  | row :: _ => Z.of_nat (String.length row)
  | [] => 0
  end.

Record Player : Type := { position : Z * Z }.

(** [Player.move] *)
Definition move (player : Player) (dx dy : Z) : Player :=
  let '(x, y) := position player in
  {| position := (x + dx, y + dy)%Z |}.

(** The import of [pygame] succeeded or not; [_assert_pygame_available]
    raises when it did not. *)
Definition _assert_pygame_available (pygame : bool) : result unit :=
  if pygame then Ok tt
  else Raise (RuntimeError "pygame is required to launch the labyrinth mini-game.").

(** The two nested loops over the rows and over the cells of a row. *)
Definition scan_row (row_idx : Z) (row : string) (found : (Z * Z) * (Z * Z))
    : (Z * Z) * (Z * Z) :=
  fold_left
    (fun found cell =>
       let '(col_idx, c) := cell in
       if Ascii.eqb c "S" then ((col_idx, row_idx), snd found)
       else if Ascii.eqb c "E" then (fst found, (col_idx, row_idx))
       else found)
    (enumerate (list_ascii_of_string row)) found.

Definition _find_positions : (Z * Z) * (Z * Z) :=
  fold_left (fun found r => scan_row (fst r) (snd r) found)
            (enumerate GRID) ((1, 1), (1, 1))%Z.

Definition _is_wall (col row : Z) : result bool :=
  if ((0 <=? row) && (row <? ROWS) && ((0 <=? col) && (col <? COLS)))%Z then
    let? line := list_item GRID row in
    let? cell := str_item line col in
    Ok (String.eqb cell "#")
  else Ok true.

Definition _attempt_move (player : Player) (dx dy : Z) : result Player :=
  let '(x, y) := position player in
  let '(new_x, new_y) := ((x + dx)%Z, (y + dy)%Z) in
  let? wall := _is_wall new_x new_y in
  if negb wall then Ok (move player dx dy) else Ok player.

(** The keys and the events of [pygame] that the loop tells apart. *)
Inductive key : Type :=
| K_ESCAPE | K_UP | K_w | K_DOWN | K_s | K_LEFT | K_a | K_RIGHT | K_d | K_other.

Inductive pg_event : Type :=
| QUIT
| KEYDOWN (k : key)
| other_event.

(** The variables of the loop of [run_labyrinth_game]. *)
Record game : Type := {
  player : Player;
  running : bool;
  won : bool;
}.

(** The body of [for event in pygame.event.get()]. *)
Definition handle_event (g : game) (event : pg_event) : result game :=
  let moved dx dy :=
    let? p := _attempt_move (player g) dx dy in
    Ok {| player := p; running := running g; won := won g |} in
  match event with
  | QUIT => Ok {| player := player g; running := false; won := won g |}
  | KEYDOWN K_ESCAPE => Ok {| player := player g; running := false; won := won g |}
  | KEYDOWN K_UP | KEYDOWN K_w => moved 0%Z (-1)%Z
  | KEYDOWN K_DOWN | KEYDOWN K_s => moved 0%Z 1%Z
  | KEYDOWN K_LEFT | KEYDOWN K_a => moved (-1)%Z 0%Z
  | KEYDOWN K_RIGHT | KEYDOWN K_d => moved 1%Z 0%Z
  | KEYDOWN K_other => Ok g
  | other_event => Ok g
  end.

Fixpoint handle_events (g : game) (events : list pg_event) : result game :=
  match events with
  | [] => Ok g
  | event :: events' =>
      let? g' := handle_event g event in
      handle_events g' events'
  end.

(** One turn of [while running]: the events that [pygame.event.get()]
    returned, then the test of the exit. *)
Definition frame (exit_pos : Z * Z) (g : game) (events : list pg_event) : result game :=
  let? g' := handle_events g events in
  if bool_decide (position (player g') = exit_pos)
  then Ok {| player := player g'; running := false; won := true |}
  else Ok g'.

(** The loop, over the batches of events of the successive turns.  When
    the batches run out with [running] still true the loop is waiting
    for the next one. *)
Fixpoint game_loop (exit_pos : Z * Z) (g : game) (frames : list (list pg_event))
    : result game :=
  if running g then
    match frames with
    | [] => Ok g
    | events :: frames' =>
        let? g' := frame exit_pos g events in
        game_loop exit_pos g' frames'
    end
  else Ok g.

(** The message of [_show_outcome]. *)
Definition outcome_message (won : bool) : string :=
  if won then "You escaped!" else "Maybe next time!".

(** [run_labyrinth_game]: the message shown when the loop has ended,
    [None] while it is still running. *)
Definition run_labyrinth_game (pygame : bool) (frames : list (list pg_event))
    : result (option string) :=
  let? _ := _assert_pygame_available pygame in
  let '(start_pos, exit_pos) := _find_positions in
  let player := {| position := start_pos |} in
  let? g := game_loop exit_pos {| player := player; running := true; won := false |} frames in
  if running g then Ok None else Ok (Some (outcome_message (won g))).

End labyrinth_game.

(** ** Notions used by the statements *)

Module Notions.
Import content_generator ai_interface data_store main.

(** The entry of [LOCAL_CONTENT] under a triple, when there is one. *)
Definition lookup_content (subject : string) (grade : Z) (topic : string)
    : option content :=
  match dict_get subject LOCAL_CONTENT with
  | Some subject_data =>
      match dict_get grade subject_data with
      | Some grade_data => dict_get topic grade_data
      | None => None
      end
  | None => None
  end.

(** The triple is present in the local content table. *)
Definition in_local_content (subject : string) (grade : Z) (topic : string) : bool :=
  match lookup_content subject grade topic with
  | Some _ => true
  | None => false
  end.

(** Every entry of the table, with its triple. *)
Definition table_entries : list (string * Z * string * content) :=
  flat_map (fun s => flat_map (fun g => map (fun t => (fst s, fst g, fst t, snd t)) (snd g))
                              (snd s))
           LOCAL_CONTENT.

(** An entry is usable: not empty, with a concept and a lesson text. *)
Definition complete (c : content) : bool :=
  match c, dict_get "concept" c, dict_get "lesson" c with
  | _ :: _, Some _, Some _ => true
  | _, _, _ => false
  end.

Section WithRuntime.
Context `{py : CPython}.

(** The state after a record is logged. *)
Definition with_log (r : log_record) (w : world) : world :=
  {| w_rng := w_rng w; w_log := w_log w ++ [r]; w_files := w_files w;
     w_io_ok := w_io_ok w |}.

(** The remote attempts: the bodies of the three [try] blocks. *)
Definition remote_lesson (env : Env) (subject : string) (grade : Z) (topic : string)
    : result string :=
  let? lesson_text := _request_from_gemini env (lesson_prompt subject grade topic) in
  py_strip lesson_text.

Definition remote_exercises (env : Env) (subject : string) (grade : Z) (topic : string)
    : result (list exercise) :=
  let? response_text := _request_from_gemini env (exercises_prompt subject grade topic) in
  let? exercises := py_json_loads response_text in
  parse_exercises exercises.

Definition remote_answer (env : Env) (question lesson_context student_answer : string)
    : result string :=
  let? text := _request_from_gemini env
                 (answer_prompt question lesson_context student_answer) in
  py_strip text.

(** The warnings of the three fallbacks. *)
Definition lesson_warning (subject : string) (grade : Z) (exc : exn) : log_record :=
  Warning "Falling back to local lesson for %s grade %s: %s"
          [subject; str_of_int grade] exc.
Definition exercises_warning (subject : string) (grade : Z) (exc : exn) : log_record :=
  Warning "Falling back to local exercises for %s grade %s: %s"
          [subject; str_of_int grade] exc.
Definition answer_warning (exc : exn) : log_record :=
  Warning "Falling back to local answer helper: %s" [] exc.

(** The failures of the endpoint that the specification lists: an error
    status, a body that is not JSON, an empty list of candidates. *)
Inductive listed_failure : http_outcome -> Prop :=
| error_status status body :
    is_success status = false -> listed_failure (Response status body)
| malformed_body status body :
    json_loads body = None -> listed_failure (Response status body)
| empty_candidates status body d :
    json_loads body = Some (PDict d) ->
    dict_get "candidates" d = Some (PList []) ->
    listed_failure (Response status body).

(** A payload of the expected shape
    [{"candidates": [{"content": {"parts": [{"text": ...}]}}]}], read as
    the specification words it: the texts of the parts of each candidate
    (other keys may be present beside the ones named). *)
Definition part_text (part : pyval) : option string :=
  match part with
  | PDict d => match dict_get "text" d with
               | Some (PStr text) => Some text
               | _ => None
               end
  | _ => None
  end.

Definition candidate_texts (candidate : pyval) : option (list string) :=
  match candidate with
  | PDict d =>
      match dict_get "content" d with
      | Some (PDict content) =>
          match dict_get "parts" content with
          | Some (PList parts) => mapM part_text parts
          | _ => None
          end
      | _ => None
      end
  | _ => None
  end.

Definition payload_texts (data : pyval) : option (list (list string)) :=
  match data with
  | PDict d =>
      match dict_get "candidates" d with
      | Some (PList candidates) => mapM candidate_texts candidates
      | _ => None
      end
  | _ => None
  end.

(** The first text that is not empty, candidates and parts in order. *)
Definition first_nonempty_text (texts : list (list string)) : option string :=
  List.find nonempty (concat texts).

(** The reading of one entry of the exercise list, in the words of the
    specification: an entry has a usable question when that text is not
    empty once stripped. *)
Definition entry_question (entry : list (string * pyval)) : string :=
  strip (py_str (dict_get_default "question" (PStr "") entry)).

Definition usable_question (entry : list (string * pyval)) : bool :=
  nonempty (entry_question entry).

Definition exercise_of_entry (entry : list (string * pyval)) : exercise :=
  {| question := entry_question entry;
     expected_answer := strip (py_str (dict_get_default "expected_answer" (PStr "") entry));
     hint := py_str (dict_get_default "hint" (PStr "Use clues from the lesson.") entry) |}.

(** The exercises kept from a list of entries. *)
Definition kept_exercises (entries : list (list (string * pyval))) : list exercise :=
  map exercise_of_entry (List.filter usable_question entries).

(** The triple is one that the lesson list can offer and the guards of
    the window accept: the three values are truthy. *)
Definition offered (e : event) : Prop :=
  match e with
  | LessonSelected _ subject grade topic => in_local_content subject grade topic = true
  | TestCompleted _ _ => True
  end.

(** At most one entry of [completed_lessons] equals the entry of any
    given triple. *)
Definition lessons_recorded_once (mw : MainWindow) : Prop :=
  forall lessons, completed_lessons (progress mw) = PList lessons ->
  forall subject grade topic,
    length (List.filter (fun e => py_eq e (lesson_entry subject grade topic)) lessons) <= 1.

(** The quiz entries that a sequence of events is to append, [current]
    being the lesson open when the sequence starts. *)
Fixpoint expected_tests (current : string * Z * string) (events : list event)
    : list pyval :=
  match events with
  | [] => []
  | LessonSelected _ subject grade topic :: events' =>
      expected_tests (subject, grade, topic) events'
  | TestCompleted score total :: events' =>
      let '(subject, grade, topic) := current in
      test_entry subject grade topic score total :: expected_tests current events'
  end.

Definition is_test_completed (e : event) : bool :=
  match e with
  | TestCompleted _ _ => true
  | LessonSelected _ _ _ _ => false
  end.

End WithRuntime.


(** *** The labyrinth *)

(** The cell is inside the grid and is not a wall. *)
Definition free_cell (p : Z * Z) : Prop :=
  labyrinth_game._is_wall (fst p) (snd p) = Ok false.

(** The variables of the loop when it is entered. *)
Definition start_game : labyrinth_game.game :=
  {| labyrinth_game.player := {| labyrinth_game.position := fst labyrinth_game._find_positions |};
     labyrinth_game.running := true;
     labyrinth_game.won := false |}.

(** Where the loop holds the player: on a free cell that is not the exit. *)
Definition inside (g : labyrinth_game.game) : Prop :=
  free_cell (labyrinth_game.position (labyrinth_game.player g)) /\
  labyrinth_game.position (labyrinth_game.player g) <> snd labyrinth_game._find_positions.

(** The events that end the loop: closing the window, the escape key. *)
Definition ends_loop (event : labyrinth_game.pg_event) : bool :=
  match event with
  | labyrinth_game.QUIT => true
  | labyrinth_game.KEYDOWN labyrinth_game.K_ESCAPE => true
  | _ => false
  end.

(** *** The progress files *)

(** The name of the file of a student, and the directory with its
    separator. *)
Definition file_name (student : string) : string :=
  replace_char "/" "_" student +:+ ".json".

Definition dir_prefix (data_dir : string) : string :=
  if negb (nonempty data_dir) || ends_with_char "/" data_dir
  then data_dir else data_dir +:+ "/".

(** The progress of a student who has no file. *)
Definition empty_progress (student : string) : StudentProgress :=
  {| student_id := student; completed_lessons := PList []; completed_tests := PList [] |}.

(** *** Entries of the exercise list *)

(** The value is a JSON object. *)
Definition is_object (v : pyval) : bool :=
  match v with
  | PDict _ => true
  | _ => false
  end.

(** *** The quiz page *)

(** The index of the quiz page points at one of its exercises. *)
Definition page_ok (tp : TestPage) : Prop :=
  _exercises tp = [] \/
  (0 <= _index tp < Z.of_nat (length (_exercises tp)))%Z.

Definition is_submit (e : gui_event) : bool :=
  match e with
  | SubmitClicked _ => true
  | _ => false
  end.

Definition is_next (e : gui_event) : bool :=
  match e with
  | NextClicked => true
  | _ => false
  end.

(** Typing, submitting and asking for the next question. *)
Definition on_quiz_page (e : gui_event) : bool :=
  match e with
  | AnswerTyped _ | SubmitClicked _ | NextClicked => true
  | _ => false
  end.

(** Typing the same answer and submitting it, [k] times over. *)
Fixpoint repeated_submits (env : Env) (typed : string) (k : nat) : list gui_event :=
  match k with
  | 0 => []
  | S k' => AnswerTyped typed :: SubmitClicked env :: repeated_submits env typed k'
  end.

(** *** A session of one student *)

Section Session.
Context `{py : CPython}.

(** The window works for the student [name] on a disk it can use, its
    progress is well formed, and what [load_progress] finds on the disk
    for the student equals the progress in the window. *)
Definition session_ok (name : string) (a : app) : Prop :=
  student_id (progress (window a)) = name /\
  py_wf (completed_lessons (progress (window a))) = true /\
  py_wf (completed_tests (progress (window a))) = true /\
  w_io_ok (outside a) DEFAULT_DATA_DIR = true /\
  w_io_ok (outside a) (progress_file name DEFAULT_DATA_DIR) = true /\
  exists loaded,
    fst (load_progress name DEFAULT_DATA_DIR (outside a)) = Ok loaded /\
    StudentProgress_eq loaded (progress (window a)) = true /\
    StudentProgress_eq (progress (window a)) loaded = true.

End Session.

(** *** What the session records *)

Definition is_lesson_entry (e : pyval) : Prop :=
  exists subject grade topic, e = lesson_entry subject grade topic.

Definition is_test_entry (e : pyval) : Prop :=
  exists subject grade topic score total, e = test_entry subject grade topic score total.

(** The two lists of the progress are lists, of entries that
    [_open_lesson] and [_record_test] make. *)
Definition recorded (p : StudentProgress) : Prop :=
  exists lessons tests,
    completed_lessons p = PList lessons /\
    completed_tests p = PList tests /\
    Forall is_lesson_entry lessons /\
    Forall is_test_entry tests.

End Notions.

(** ** A runtime, environments and states to evaluate the embedding on *)

(** Numbers with a fraction, and the number that equals nothing. *)
Module Numbers.
Import PrimFloat.

Definition four : float := 4%float.
Definition one_half : float := 0.5%float.
Definition not_a_number : float := nan.

End Numbers.

Module Samples.
Import content_generator ai_interface data_store main.

(** A generator that counts: [randbelow n] is the state modulo [n]. *)
Definition counting_randbelow (n st : nat) : nat * nat := (st mod n, S st).

Definition counting_randbelow_lt (n st : nat) (H : 0 < n)
    : fst (counting_randbelow n st) < n :=
  Nat.mod_upper_bound st n (proj2 (Nat.neq_0_lt_0 n) H).

(** A text between a no-break space and a space on one side, a space and
    an ideographic space on the other. *)
Definition padded_lesson_text : string :=
  utf8 0xA0 +:+ " A fraction is a part of a whole. " +:+ utf8 0x3000.

(** The payload of a response with two candidates; the first text is
    empty. *)
Definition lesson_payload : pyval :=
  PDict [ ("candidates",
           PList [ PDict [ ("content",
                            PDict [ ("parts", PList [ PDict [ ("text", PStr "") ] ]);
                                    ("role", PStr "model") ]) ];
                   PDict [ ("content",
                            PDict [ ("parts",
                                     PList [ PDict [ ("text", PStr padded_lesson_text) ];
                                             PDict [ ("text", PStr "Not reached.") ] ]) ]);
                           ("finishReason", PStr "STOP") ] ]) ].

(** The payload of a response whose text is the exercise list below. *)
Definition exercises_payload : pyval :=
  PDict [ ("candidates",
           PList [ PDict [ ("content",
                            PDict [ ("parts", PList [ PDict [ ("text", PStr "exercises.json") ] ]) ]) ] ]) ].

(** An entry without a question, an entry whose question is an em space
    and a space, and a well-formed entry without a hint, its question
    after a no-break space. *)
Definition entry_without_question : list (string * pyval) :=
  [ ("expected_answer", PStr "1/2") ].
Definition entry_blank_question : list (string * pyval) :=
  [ ("question", PStr (utf8 0x2003 +:+ " ")); ("expected_answer", PStr "1/4") ].
Definition entry_well_formed : list (string * pyval) :=
  [ ("question", PStr (utf8 0xA0 +:+ "What is half of 8? ")); ("expected_answer", PInt 4) ].
Definition exercises_document : pyval :=
  PList [ PDict entry_without_question; PDict entry_blank_question;
          PDict entry_well_formed ].

(** A lowercase mapping that knows the letters A to Z. *)
Definition lower_char (c : ascii) : ascii :=
  let n := N_of_ascii c in
  if ((65 <=? n) && (n <=? 90))%N then ascii_of_N (n + 32) else c.

Fixpoint lower_ascii (s : string) : string :=
  match s with
  | "" => ""
  | String c s' => String (lower_char c) (lower_ascii s')
  end.

(** A parser that knows the three texts by name. *)
Definition documents : list (string * pyval) :=
  [ ("lesson-payload.json", lesson_payload);
    ("exercises-payload.json", exercises_payload);
    ("exercises.json", exercises_document) ].

Definition python : CPython :=
  {| rng_state := nat;
     random_seed := Z.to_nat;
     randbelow := counting_randbelow;
     randbelow_lt := counting_randbelow_lt;
     json_loads := fun text => dict_get text documents;
     repr_container := fun v => match v with PList _ => "[...]" | _ => "{...}" end;
     repr_float := fun _ => "0.0";
     lower := lower_ascii |}.

Definition with_key (name : string) : option string :=
  if String.eqb name "GEMINI_API_KEY" then Some "secret" else None.

(** No key is configured. *)
Definition env_without_key : Env :=
  {| getenv := fun _ => None; http_post := fun _ => Failed |}.

(** The endpoint answers 500. *)
Definition env_server_error : Env :=
  {| getenv := with_key; http_post := fun _ => Response 500 "Internal Server Error" |}.

(** The endpoint answers with the lesson payload. *)
Definition env_lesson : Env :=
  {| getenv := with_key; http_post := fun _ => Response 200 "lesson-payload.json" |}.

(** The endpoint answers with the exercises payload. *)
Definition env_exercises : Env :=
  {| getenv := with_key; http_post := fun _ => Response 200 "exercises-payload.json" |}.

(** The state when the modules have been imported: the generator seeded
    with 1234, an empty log, no file, a disk that can be used. *)
Definition world0 : @world python :=
  {| w_rng := @random_seed python 1234; w_log := []; w_files := ∅;
     w_io_ok := fun _ => true |}.

Definition app0 : @app python := {| window := init; outside := world0 |}.

(** Two completed lessons and one completed test. *)
Definition sample_progress : StudentProgress :=
  {| student_id := "ada";
     completed_lessons := PList [ lesson_entry "Mathematics" 3 "Fractions";
                                  lesson_entry "Science" 4 "Energy" ];
     completed_tests := PList [ test_entry "Mathematics" 3 "Fractions" 2 3 ] |}.

(** A lesson opened twice, a quiz completed after each opening. *)
Definition sample_events : list event :=
  [ LessonSelected env_without_key "Mathematics" 3 "Fractions";
    TestCompleted 2 3;
    LessonSelected env_server_error "Mathematics" 3 "Fractions";
    TestCompleted 3 3 ].

End Samples.

(** Further inputs: a disk that holds a progress file, a disk that
    refuses every path, a parser whose exercise list has an entry that is
    not an object, and quiz pages. *)
Module Scenes.
Import content_generator ai_interface data_store main Samples.

(** The file of the student [ada] holds the progress above. *)
Definition world_with_file : @world python :=
  {| w_rng := @random_seed python 1234; w_log := [];
     w_files := {[ "data/ada.json" := JsonFile (asdict sample_progress) ]};
     w_io_ok := fun _ => true |}.

Definition app_with_file : @app python := {| window := init; outside := world_with_file |}.

(** Nothing can be created or opened. *)
Definition world_without_disk : @world python :=
  {| w_rng := @random_seed python 1234; w_log := []; w_files := ∅;
     w_io_ok := fun _ => false |}.

Definition app_without_disk : @app python :=
  {| window := init; outside := world_without_disk |}.

(** A student id with a separator. *)
Definition progress_with_separator : StudentProgress :=
  {| student_id := "class/ada";
     completed_lessons := PList [ lesson_entry "Science" 4 "Energy" ];
     completed_tests := PList [] |}.

(** The exercise list has a number after a well-formed entry. *)
Definition documents_bad_entry : list (string * pyval) :=
  [ ("exercises-payload.json", exercises_payload);
    ("exercises.json", PList [ PDict entry_well_formed; PInt 7 ]) ].

Definition python_bad_entry : CPython :=
  {| rng_state := nat;
     random_seed := Z.to_nat;
     randbelow := counting_randbelow;
     randbelow_lt := counting_randbelow_lt;
     json_loads := fun text => dict_get text documents_bad_entry;
     repr_container := fun v => match v with PList _ => "[...]" | _ => "{...}" end;
     repr_float := fun _ => "0.0";
     lower := lower_ascii |}.

Definition world_bad_entry : @world python_bad_entry :=
  {| w_rng := @random_seed python_bad_entry 1234; w_log := []; w_files := ∅;
     w_io_ok := fun _ => true |}.

(** Entries with a [null] question, and with an expected answer that is
    a no-break space. *)
Definition entry_null_question : list (string * pyval) :=
  [ ("question", PNone); ("expected_answer", PStr "4") ].
Definition entry_blank_answer : list (string * pyval) :=
  [ ("question", PStr "Explain what a fraction is.");
    ("expected_answer", PStr (utf8 0xA0)) ].

(** The exercises that the local generator returns first. *)
Definition local_quiz : list exercise :=
  match fst (@generate_exercises python env_without_key "Mathematics" 3 "Fractions" world0) with
  | Ok exercises => exercises
  | Raise _ => []
  end.

Definition half_of_eight : exercise :=
  {| question := "What is half of 8?"; expected_answer := "4";
     hint := "Use clues from the lesson." |}.
Definition double_of_eight : exercise :=
  {| question := "What is the double of 8?"; expected_answer := "16";
     hint := "Add 8 to 8." |}.

(** The pages when the program starts, with a lesson open, and with a
    quiz of two exercises loaded. *)
Definition gui0 : @gui python := {| the_app := app0; test_page := new_test_page |}.

Definition gui_lesson : @gui python :=
  snd (@gui_handle python (LessonOpened env_without_key "Mathematics" 3 "Fractions") gui0).

Definition gui_quiz : @gui python :=
  snd (@load_exercises python [half_of_eight; double_of_eight] "" gui_lesson).

(** A wrong answer, the right one twice, the next question, and a
    second quiz started in the middle. *)
Definition quiz_events : list gui_event :=
  [ AnswerTyped "5"; SubmitClicked env_without_key;
    AnswerTyped " 4 "; SubmitClicked env_without_key;
    AnswerTyped "4"; SubmitClicked env_without_key;
    NextClicked; QuizStarted env_without_key; NextClicked; NextClicked ].

(** The file of the student [bob] holds a lesson without topic. *)
Definition entry_without_topic : list (string * pyval) :=
  [ ("subject", PStr "Science"); ("grade", PInt 4) ].

Definition document_without_topic : list (string * pyval) :=
  [ ("student_id", PStr "bob");
    ("completed_lessons",
     PList [ lesson_entry "Mathematics" 3 "Fractions"; PDict entry_without_topic ]);
    ("completed_tests", PList []) ].

Definition world_incomplete_file : @world python :=
  {| w_rng := @random_seed python 1234; w_log := [];
     w_files := {[ "data/bob.json" := JsonFile (PDict document_without_topic) ]};
     w_io_ok := fun _ => true |}.

Definition app_incomplete_file : @app python :=
  {| window := init; outside := world_incomplete_file |}.

End Scenes.

(** * Properties *)

Import content_generator ai_interface data_store main Notions.

(** ** Strings *)

(** [chars] cuts the text and loses nothing. *)
Lemma concat_cons (ch : string) (rest : list string) :
  String.concat "" (ch :: rest) = ch +:+ String.concat "" rest.
Proof.
  destruct rest as [|ch' rest]; cbn [String.concat].
  - induction ch as [|c ch IH]; [reflexivity|].
    change (String c ch +:+ "") with (String c (ch +:+ "")). now rewrite <- IH.
  - reflexivity.
Qed.

Lemma concat_chars (s : string) : String.concat "" (chars s) = s.
Proof.
  induction s as [|c s IH]; [reflexivity|].
  cbn [chars]. destruct (chars s) as [|ch rest]; [now rewrite <- IH|].
  rewrite concat_cons in IH.
  destruct (starts_with_continuation ch); rewrite !concat_cons.
  - change (String c ch +:+ String.concat "" rest)
      with (String c (ch +:+ String.concat "" rest)).
    now rewrite IH.
  - change (String c "" +:+ (ch +:+ String.concat "" rest))
      with (String c (ch +:+ String.concat "" rest)).
    now rewrite IH.
Qed.

(** The spaces of Unicode are removed at both ends and kept inside; a
    letter whose last byte is that of the no-break space is kept. *)
Lemma strip_unicode_spaces :
  strip (utf8 0xA0 +:+ utf8 0x3000 +:+ " Hi" +:+ utf8 0x2028 +:+ "there " +:+ utf8 0x85) =
  "Hi" +:+ utf8 0x2028 +:+ "there".
Proof. reflexivity. Qed.

Lemma strip_keeps_letters :
  strip (utf8 0xE0 +:+ " la carte" +:+ utf8 0xE0) = utf8 0xE0 +:+ " la carte" +:+ utf8 0xE0.
Proof. reflexivity. Qed.

Lemma prefix_append (n b : string) : String.prefix n (n +:+ b) = true.
Proof.
  induction n as [|c n IH]; simpl; [destruct b; reflexivity|].
  destruct (ascii_dec c c); [assumption|congruence].
Qed.

Lemma contains_unfold (n hay : string) :
  contains n hay =
  String.prefix n hay ||
  match hay with "" => false | String _ hay' => contains n hay' end.
Proof. destruct hay; reflexivity. Qed.

Lemma contains_prefix (n b : string) : contains n (n +:+ b) = true.
Proof. rewrite contains_unfold, prefix_append. reflexivity. Qed.

Lemma contains_append_r (a n x : string) :
  contains n x = true -> contains n (a +:+ x) = true.
Proof.
  intros H. induction a as [|c a IH]; [assumption|].
  rewrite contains_unfold. simpl. rewrite IH. apply orb_true_r.
Qed.

Lemma nonempty_append_l (a b : string) : nonempty a = true -> nonempty (a +:+ b) = true.
Proof. destruct a; simpl; [discriminate|reflexivity]. Qed.

Lemma nonempty_true (s : string) : nonempty s = true <-> s <> "".
Proof. destruct s; simpl; split; congruence. Qed.

(** ** Dictionaries *)

Lemma dict_get_In `{EqDecision K} {V} (k : K) (v : V) (d : list (K * V)) :
  dict_get k d = Some v -> In (k, v) d.
Proof.
  induction d as [|[k' v'] d IH]; simpl; [discriminate|].
  destruct (decide (k' = k)) as [->|]; [intros [= ->]; now left|auto].
Qed.

Lemma dict_get_is_Some `{EqDecision K} {V} (k : K) (d : list (K * V)) :
  In k (map fst d) -> is_Some (dict_get k d).
Proof.
  induction d as [|[k' v'] d IH]; simpl; [tauto|].
  destruct (decide (k' = k)); [eauto|]. intros [?|?]; [congruence|auto].
Qed.

Lemma dict_get_NoDup `{EqDecision K} {V} (k : K) (v : V) (d : list (K * V)) :
  NoDup (map fst d) -> In (k, v) d -> dict_get k d = Some v.
Proof.
  induction d as [|[k' v'] d IH]; simpl; [tauto|].
  intros Hnd [Heq|Hin].
  - injection Heq as -> ->. destruct (decide (k = k)); congruence.
  - apply NoDup_cons in Hnd as [Hnotin Hnd].
    destruct (decide (k' = k)) as [->|]; [|auto].
    exfalso. apply Hnotin. apply list_elem_of_In.
    change k with (fst (k, v)). now apply in_map.
Qed.

(** ** The local content table *)

Lemma lookup_content_entry s g t c :
  lookup_content s g t = Some c -> In (s, g, t, c) table_entries.
Proof.
  unfold lookup_content, table_entries. intros H.
  destruct (dict_get s LOCAL_CONTENT) as [sd|] eqn:Hs; [|discriminate].
  destruct (dict_get g sd) as [gd|] eqn:Hg; [|discriminate].
  apply dict_get_In in Hs, Hg, H.
  apply in_flat_map. exists (s, sd). split; [assumption|]. simpl.
  apply in_flat_map. exists (g, gd). split; [assumption|]. simpl.
  apply in_map_iff. exists (t, c). split; [reflexivity|assumption].
Qed.

Lemma table_complete s g t c :
  lookup_content s g t = Some c -> complete c = true.
Proof.
  intros H%lookup_content_entry.
  assert (Hall : forallb (fun e => complete (snd e)) table_entries = true) by reflexivity.
  rewrite forallb_forall in Hall. exact (Hall _ H).
Qed.

Lemma select_content_lookup s g t :
  _select_content s g t =
  match lookup_content s g t with
  | Some ((_ :: _) as c) => Ok c
  | _ => Raise (KeyError (no_content_message s g t))
  end.
Proof.
  unfold _select_content, lookup_content, dict_get_default.
  destruct (dict_get s LOCAL_CONTENT) as [sd|]; simpl; [|reflexivity].
  destruct (dict_get g sd) as [gd|]; reflexivity.
Qed.

Lemma select_content_present s g t :
  in_local_content s g t = true ->
  exists c concept lesson,
    _select_content s g t = Ok c /\
    dict_get "concept" c = Some concept /\ dict_get "lesson" c = Some lesson.
Proof.
  unfold in_local_content. rewrite select_content_lookup.
  destruct (lookup_content s g t) as [c|] eqn:Hc; [intros _|discriminate].
  pose proof (table_complete _ _ _ _ Hc) as Hok. unfold complete in Hok.
  destruct c as [|e c]; [discriminate|].
  destruct (dict_get "concept" (e :: c)) as [concept|] eqn:Hconcept; [|discriminate].
  destruct (dict_get "lesson" (e :: c)) as [lesson|] eqn:Hlesson; [|discriminate].
  exists (e :: c), concept, lesson. repeat split; assumption || reflexivity.
Qed.

Lemma select_content_absent s g t :
  in_local_content s g t = false ->
  _select_content s g t = Raise (KeyError (no_content_message s g t)).
Proof.
  unfold in_local_content. rewrite select_content_lookup.
  destruct (lookup_content s g t); [discriminate|reflexivity].
Qed.

Lemma generate_local_lesson_present s g t :
  in_local_content s g t = true ->
  exists c concept lesson,
    _select_content s g t = Ok c /\
    dict_get "concept" c = Some concept /\ dict_get "lesson" c = Some lesson /\
    generate_local_lesson s g t =
    Ok ("Lesson Topic: " +:+ t +:+ nl +:+
        "Grade Level: " +:+ str_of_int g +:+ nl +:+
        "Subject: " +:+ s +:+ nl +:+ nl +:+
        "Big Idea: " +:+ concept +:+ nl +:+ nl +:+
        "Key Learning:" +:+ nl +:+ lesson +:+ nl +:+ nl +:+
        "Try sketching or acting out the idea to help it stick!").
Proof.
  intros (c & concept & lesson & Hc & Hconcept & Hlesson)%select_content_present.
  exists c, concept, lesson. repeat split; try assumption.
  unfold generate_local_lesson, dict_item. rewrite Hc. simpl.
  rewrite Hconcept. simpl. rewrite Hlesson. reflexivity.
Qed.

(** C7.  For every (subject, grade, topic) present in the local content
    table, [generate_local_lesson] returns a text that is not empty and
    contains the topic name and the decimal form of the grade. *)
Theorem local_lesson_mentions_topic_and_grade (subject : string) (grade : Z) (topic : string) :
  in_local_content subject grade topic = true ->
  exists text,
    generate_local_lesson subject grade topic = Ok text /\
    nonempty text = true /\
    contains topic text = true /\
    contains (str_of_int grade) text = true.
Proof.
  intros (c & concept & lesson & _ & _ & _ & Hgen)%generate_local_lesson_present.
  eexists. split; [exact Hgen|]. split; [reflexivity|]. split.
  - apply (contains_append_r "Lesson Topic: "). apply contains_prefix.
  - apply (contains_append_r "Lesson Topic: "), contains_append_r,
      (contains_append_r nl), (contains_append_r "Grade Level: "), contains_prefix.
Qed.

Lemma local_lesson_mentions_topic_and_grade_witness :
  in_local_content "Science" 4 "Energy" = true /\
  exists text,
    generate_local_lesson "Science" 4 "Energy" = Ok text /\
    nonempty text = true /\
    contains "Energy" text = true /\
    contains (str_of_int 4) text = true.
Proof.
  split; [reflexivity|].
  apply (local_lesson_mentions_topic_and_grade "Science" 4 "Energy"). reflexivity.
Defined.


(** ** The shuffle *)

Section Shuffle.
Context `{py : CPython}.

Lemma swap_ok {A} (i j : nat) (x : list A) :
  i < length x -> j < length x ->
  exists x', swap i j x = Ok x' /\ x' ≡ₚ x.
Proof.
  intros [xi Hi]%lookup_lt_is_Some_2 [xj Hj]%lookup_lt_is_Some_2.
  unfold swap. rewrite Hi, Hj. eexists. split; [reflexivity|].
  now apply Permutation_insert_swap.
Qed.

Lemma shuffle_from_ok {A} (i : nat) :
  forall (x : list A) (st : rng_state),
    i < length x \/ i = 0 ->
    exists x' st', shuffle_from i x st = (Ok x', st') /\ x' ≡ₚ x.
Proof.
  induction i as [|i IH]; intros x st Hi.
  - exists x, st. split; reflexivity.
  - destruct Hi as [Hi|Hi]; [|discriminate].
    pose proof (randbelow_lt (S i + 1) st ltac:(lia)) as Hj.
    change (shuffle_from (S i) x st) with
      (let (j, st') := randbelow (S i + 1) st in
       match swap (S i) j x with
       | Ok x' => shuffle_from i x' st'
       | Raise e => (Raise e, st')
       end).
    destruct (randbelow (S i + 1) st) as [j st1]. simpl in Hj.
    destruct (swap_ok (S i) j x Hi ltac:(lia)) as (x1 & -> & Hperm).
    destruct (IH x1 st1) as (x2 & st2 & -> & Hperm2).
    + left. rewrite (Permutation_length Hperm). lia.
    + exists x2, st2. split; [reflexivity|]. now rewrite Hperm2.
Qed.

Lemma random_shuffle_ok {A} (x : list A) (w : world) :
  exists x' st',
    random_shuffle x w =
      (Ok x', {| w_rng := st'; w_log := w_log w; w_files := w_files w;
                 w_io_ok := w_io_ok w |}) /\
    x' ≡ₚ x.
Proof.
  unfold random_shuffle.
  destruct (shuffle_from_ok (length x - 1) x (w_rng w)) as (x' & st' & -> & Hperm).
  - destruct x; simpl; lia.
  - eauto.
Qed.

(** The result of [random.shuffle] and the next state of the generator
    depend on the generator only, not on the log or the files. *)
Lemma random_shuffle_rng {A} (x : list A) (w1 w2 : world) :
  w_rng w1 = w_rng w2 ->
  fst (random_shuffle x w1) = fst (random_shuffle x w2) /\
  w_rng (snd (random_shuffle x w1)) = w_rng (snd (random_shuffle x w2)).
Proof.
  intros Heq. unfold random_shuffle. rewrite Heq.
  destruct (shuffle_from _ x (w_rng w2)). split; reflexivity.
Qed.

Lemma base_questions_nonempty subject topic concept :
  base_questions subject topic concept <> [] /\
  Forall (fun qa => nonempty (fst qa) = true) (base_questions subject topic concept).
Proof.
  unfold base_questions.
  repeat match goal with |- context [if ?b then _ else _] => destruct b end;
    (split; [discriminate|repeat constructor]).
Qed.

Lemma generate_local_exercises_unfold subject grade topic (w : world) :
  generate_local_exercises subject grade topic w =
  match _select_content subject grade topic with
  | Ok content =>
      match dict_item "concept" content with
      | Ok concept =>
          match random_shuffle (base_questions subject topic concept) w with
          | (Ok shuffled, w') => (Ok (map (to_exercise concept) shuffled), w')
          | (Raise e, w') => (Raise e, w')
          end
      | Raise e => (Raise e, w)
      end
  | Raise e => (Raise e, w)
  end.
Proof.
  unfold generate_local_exercises, bind, lift_result, ret.
  destruct (_select_content subject grade topic); [|reflexivity].
  destruct (dict_item "concept" a); [|reflexivity].
  destruct (random_shuffle _ w) as [[?|?] ?]; reflexivity.
Qed.

Lemma generate_local_exercises_present subject grade topic :
  in_local_content subject grade topic = true ->
  exists concept,
    forall w : world, exists shuffled st',
      shuffled ≡ₚ base_questions subject topic concept /\
      random_shuffle (base_questions subject topic concept) w =
        (Ok shuffled, {| w_rng := st'; w_log := w_log w; w_files := w_files w;
                         w_io_ok := w_io_ok w |}) /\
      generate_local_exercises subject grade topic w =
        (Ok (map (to_exercise concept) shuffled),
         {| w_rng := st'; w_log := w_log w; w_files := w_files w;
            w_io_ok := w_io_ok w |}).
Proof.
  intros (c & concept & lesson & Hc & Hconcept & _)%select_content_present.
  exists concept. intros w.
  destruct (random_shuffle_ok (base_questions subject topic concept) w)
    as (shuffled & st' & Hsh & Hperm).
  exists shuffled, st'. split; [assumption|]. split; [assumption|].
  rewrite generate_local_exercises_unfold, Hc. unfold dict_item.
  rewrite Hconcept, Hsh. reflexivity.
Qed.

Lemma generate_local_exercises_absent subject grade topic (w : world) :
  in_local_content subject grade topic = false ->
  generate_local_exercises subject grade topic w =
    (Raise (KeyError (no_content_message subject grade topic)), w).
Proof.
  intros H%select_content_absent.
  rewrite generate_local_exercises_unfold, H. reflexivity.
Qed.

End Shuffle.

(** C8.  For every triple present in the local content table,
    [generate_local_exercises] returns at least one exercise, each with a
    question and a hint that are not empty; whatever the state of the
    seeded generator, the questions returned for the request are the same
    up to their order, and from the same state of the generator the
    exercises are the same. *)
Theorem local_exercises_nonempty_and_stable `{py : CPython}
    (subject : string) (grade : Z) (topic : string) (w : world) :
  in_local_content subject grade topic = true ->
  exists exercises w',
    generate_local_exercises subject grade topic w = (Ok exercises, w') /\
    exercises <> [] /\
    Forall (fun e => nonempty (question e) = true /\ nonempty (hint e) = true) exercises /\
    forall w2 : world, exists exercises2 w2',
      generate_local_exercises subject grade topic w2 = (Ok exercises2, w2') /\
      map question exercises2 ≡ₚ map question exercises /\
      (w_rng w2 = w_rng w -> exercises2 = exercises).
Proof.
  intros [concept Hgen]%generate_local_exercises_present.
  destruct (Hgen w) as (shuffled & st' & Hperm & Hsh & ->).
  destruct (base_questions_nonempty subject topic concept) as [Hne Hq].
  eexists _, _. split; [reflexivity|]. split; [|split].
  - intros Hnil%map_eq_nil. subst shuffled.
    apply Permutation_nil_l in Hperm. congruence.
  - apply Forall_forall. intros e [qa [<- Hin]]%list_elem_of_In%in_map_iff.
    split; [|reflexivity].
    rewrite Forall_forall in Hq. apply Hq.
    rewrite <- Hperm. now apply list_elem_of_In.
  - intros w2. destruct (Hgen w2) as (shuffled2 & st2 & Hperm2 & Hsh2 & ->).
    eexists _, _. split; [reflexivity|]. split.
    + rewrite !map_map. simpl.
      change (map (fun x => fst x) shuffled2 ≡ₚ map (fun x => fst x) shuffled).
      apply Permutation_map. now rewrite Hperm, Hperm2.
    + intros Heq.
      destruct (random_shuffle_rng (base_questions subject topic concept) w2 w Heq)
        as [Hfst _].
      rewrite Hsh, Hsh2 in Hfst. simpl in Hfst. congruence.
Qed.

(** ** What the navigation helpers offer *)

Lemma sorted_str_In (t : string) (l : list string) : In t (sorted_str l) -> In t l.
Proof.
  unfold sorted_str. intros H%list_elem_of_In.
  rewrite merge_sort_Permutation in H. now apply list_elem_of_In.
Qed.

Lemma get_topics_present (subject : string) (grade : Z) (topic : string) :
  In topic (get_topics subject grade) -> in_local_content subject grade topic = true.
Proof.
  unfold get_topics, in_local_content, lookup_content, dict_get_default.
  intros H%sorted_str_In.
  destruct (dict_get subject LOCAL_CONTENT) as [sd|]; [|contradiction].
  simpl in H. destruct (dict_get grade sd) as [gd|]; [|contradiction].
  simpl in H. apply dict_get_is_Some in H as [c ->]. reflexivity.
Qed.

(** C9.  For every grade that [get_available_grades] returns, every
    subject that [get_subjects_for_grade] returns for it and every topic
    that [get_topics] returns for the two, the triple is present in
    [LOCAL_CONTENT]: [_select_content], [generate_local_lesson] and
    [generate_local_exercises] return and raise no [KeyError]. *)
Theorem offered_combinations_have_content `{py : CPython}
    (grade : Z) (subject topic : string) :
  In grade get_available_grades ->
  In subject (get_subjects_for_grade grade) ->
  In topic (get_topics subject grade) ->
  in_local_content subject grade topic = true /\
  (exists content, _select_content subject grade topic = Ok content) /\
  (exists text, generate_local_lesson subject grade topic = Ok text) /\
  (forall w : world, exists exercises w',
      generate_local_exercises subject grade topic w = (Ok exercises, w')).
Proof.
  intros _ _ Hin%get_topics_present. split; [assumption|].
  destruct (generate_local_lesson_present _ _ _ Hin)
    as (c & concept & lesson & Hc & _ & _ & Hgen).
  split; [eauto|]. split; [eauto|].
  intros w. destruct (generate_local_exercises_present _ _ _ Hin) as [concept' Hex].
  destruct (Hex w) as (shuffled & st' & _ & _ & ->). eauto.
Qed.

(** ** The three operations, by cases on the remote attempt *)

Section Operations.
Context `{py : CPython}.

Lemma generate_lesson_cases env subject grade topic (w : world) :
  generate_lesson env subject grade topic w =
  match remote_lesson env subject grade topic with
  | Ok text => (Ok text, w)
  | Raise exc =>
      (generate_local_lesson subject grade topic,
       with_log (lesson_warning subject grade exc) w)
  end.
Proof.
  unfold generate_lesson, remote_lesson, try_except, bind, lift_result, rbind.
  destruct (_request_from_gemini env _) as [v|e]; [|reflexivity].
  destruct (py_strip v); reflexivity.
Qed.

Lemma generate_exercises_cases env subject grade topic (w : world) :
  generate_exercises env subject grade topic w =
  match remote_exercises env subject grade topic with
  | Ok exercises => (Ok exercises, w)
  | Raise exc =>
      generate_local_exercises subject grade topic
        (with_log (exercises_warning subject grade exc) w)
  end.
Proof.
  unfold generate_exercises, remote_exercises, try_except, bind, lift_result, rbind.
  destruct (_request_from_gemini env _) as [v|e]; [|reflexivity].
  destruct (py_json_loads v) as [doc|e]; [|reflexivity].
  destruct (parse_exercises doc); reflexivity.
Qed.

Lemma answer_question_cases env question lesson_context student_answer (w : world) :
  answer_question env question lesson_context student_answer w =
  match remote_answer env question lesson_context student_answer with
  | Ok text => (Ok text, w)
  | Raise exc =>
      (Ok (answer_question_locally question lesson_context),
       with_log (answer_warning exc) w)
  end.
Proof.
  unfold answer_question, remote_answer, try_except, bind, lift_result, rbind.
  destruct (_request_from_gemini env _) as [v|e]; [|reflexivity].
  destruct (py_strip v); reflexivity.
Qed.

Lemma generate_local_exercises_rng subject grade topic (w1 w2 : world) :
  w_rng w1 = w_rng w2 ->
  fst (generate_local_exercises subject grade topic w1) =
    fst (generate_local_exercises subject grade topic w2) /\
  w_rng (snd (generate_local_exercises subject grade topic w1)) =
    w_rng (snd (generate_local_exercises subject grade topic w2)).
Proof.
  intros Heq. rewrite !generate_local_exercises_unfold.
  destruct (_select_content subject grade topic) as [c|e]; [|now split].
  destruct (dict_item "concept" c) as [concept|e]; [|now split].
  destruct (random_shuffle_rng (base_questions subject topic concept) w1 w2 Heq)
    as [Hfst Hrng].
  destruct (random_shuffle _ w1) as [[x1|e1] w1'], (random_shuffle _ w2) as [[x2|e2] w2'];
    simpl in *; split; congruence.
Qed.

Lemma text_of_data_no_candidates d :
  dict_get "candidates" d = Some (PList []) ->
  text_of_data (PDict d) =
    Raise (RuntimeError "Gemini response did not include any text.").
Proof.
  intros H. unfold text_of_data, py_get, dict_get_default. rewrite H. reflexivity.
Qed.

(** The request raises when no key is configured. *)
Lemma request_without_key env prompt :
  GEMINI_API_KEY env = None \/ GEMINI_API_KEY env = Some "" ->
  _request_from_gemini env prompt = Raise (RuntimeError "GEMINI_API_KEY is not set.").
Proof. unfold _request_from_gemini. intros [-> | ->]; reflexivity. Qed.

(** The request raises on each of the listed failures. *)
Lemma request_listed_failure env prompt :
  (forall req, listed_failure (http_post env req)) ->
  exists exc, _request_from_gemini env prompt = Raise exc.
Proof.
  intros Hfail. unfold _request_from_gemini.
  destruct (GEMINI_API_KEY env) as [[|c key]|]; [eauto| |eauto].
  match goal with |- context [http_post env ?r] => specialize (Hfail r); destruct Hfail end.
  - rewrite H. simpl. eauto.
  - destruct (is_success status); simpl; [|eauto]. rewrite H. eauto.
  - destruct (is_success status); simpl; [|eauto]. rewrite H.
    rewrite (text_of_data_no_candidates _ H0). eauto.
Qed.

End Operations.

(** C1.  When the endpoint answers every request with an error status, a
    body that is not JSON or an empty list of candidates, [generate_lesson]
    returns what [generate_local_lesson] returns for the same subject,
    grade and topic, and [generate_exercises] returns what
    [generate_local_exercises] returns for them, leaving the generator of
    [random] in the same state. *)
Theorem remote_failure_gives_local_result `{py : CPython}
    (env : Env) (subject : string) (grade : Z) (topic : string) (w : world) :
  (forall req, listed_failure (http_post env req)) ->
  fst (generate_lesson env subject grade topic w) =
    generate_local_lesson subject grade topic /\
  fst (generate_exercises env subject grade topic w) =
    fst (generate_local_exercises subject grade topic w) /\
  w_rng (snd (generate_exercises env subject grade topic w)) =
    w_rng (snd (generate_local_exercises subject grade topic w)).
Proof.
  intros Hfail. split.
  - rewrite generate_lesson_cases. unfold remote_lesson.
    destruct (request_listed_failure env (lesson_prompt subject grade topic) Hfail)
      as [exc ->]. reflexivity.
  - rewrite generate_exercises_cases. unfold remote_exercises.
    destruct (request_listed_failure env (exercises_prompt subject grade topic) Hfail)
      as [exc ->]. simpl.
    now apply generate_local_exercises_rng.
Qed.

(** ** What can leave the operations *)

Section Boundary.
Context `{py : CPython}.

Lemma generate_local_lesson_raises subject grade topic exc :
  generate_local_lesson subject grade topic = Raise exc ->
  exc = KeyError (no_content_message subject grade topic) /\
  in_local_content subject grade topic = false.
Proof.
  destruct (in_local_content subject grade topic) eqn:Hin.
  - destruct (generate_local_lesson_present _ _ _ Hin) as (? & ? & ? & _ & _ & _ & ->).
    discriminate.
  - unfold generate_local_lesson. rewrite (select_content_absent _ _ _ Hin).
    simpl. intros [= <-]. split; reflexivity.
Qed.

Lemma generate_local_exercises_raises subject grade topic (w : world) exc :
  fst (generate_local_exercises subject grade topic w) = Raise exc ->
  exc = KeyError (no_content_message subject grade topic) /\
  in_local_content subject grade topic = false.
Proof.
  destruct (in_local_content subject grade topic) eqn:Hin.
  - destruct (generate_local_exercises_present _ _ _ Hin) as [concept Hgen].
    destruct (Hgen w) as (? & ? & _ & _ & ->). discriminate.
  - rewrite (generate_local_exercises_absent _ _ _ w Hin).
    simpl. intros [= <-]. split; reflexivity.
Qed.

End Boundary.

(** C2.  No exception of the remote attempt leaves [generate_lesson],
    [generate_exercises] or [answer_question]: whatever the attempt raises
    (the missing API key included) is logged and replaced by the result
    of the local generator.  The one exception that leaves [generate_lesson]
    and [generate_exercises] is the [KeyError] of [_select_content], and
    only for a triple that the table does not hold; [answer_question]
    always returns. *)
Theorem only_lookup_error_propagates `{py : CPython}
    (env : Env) (subject : string) (grade : Z) (topic : string)
    (question lesson_context student_answer : string) (w : world) :
  (forall exc, remote_lesson env subject grade topic = Raise exc ->
     generate_lesson env subject grade topic w =
       (generate_local_lesson subject grade topic,
        with_log (lesson_warning subject grade exc) w)) /\
  (forall exc, remote_exercises env subject grade topic = Raise exc ->
     generate_exercises env subject grade topic w =
       generate_local_exercises subject grade topic
         (with_log (exercises_warning subject grade exc) w)) /\
  (forall exc, remote_answer env question lesson_context student_answer = Raise exc ->
     answer_question env question lesson_context student_answer w =
       (Ok (answer_question_locally question lesson_context),
        with_log (answer_warning exc) w)) /\
  (GEMINI_API_KEY env = None ->
     exists exc,
       remote_lesson env subject grade topic = Raise exc /\
       remote_exercises env subject grade topic = Raise exc /\
       remote_answer env question lesson_context student_answer = Raise exc) /\
  (forall exc, fst (generate_lesson env subject grade topic w) = Raise exc ->
     exc = KeyError (no_content_message subject grade topic) /\
     in_local_content subject grade topic = false) /\
  (forall exc, fst (generate_exercises env subject grade topic w) = Raise exc ->
     exc = KeyError (no_content_message subject grade topic) /\
     in_local_content subject grade topic = false) /\
  (exists text,
     fst (answer_question env question lesson_context student_answer w) = Ok text).
Proof.
  repeat split.
  - intros exc H. rewrite generate_lesson_cases, H. reflexivity.
  - intros exc H. rewrite generate_exercises_cases, H. reflexivity.
  - intros exc H. rewrite answer_question_cases, H. reflexivity.
  - intros Hkey. exists (RuntimeError "GEMINI_API_KEY is not set.").
    unfold remote_lesson, remote_exercises, remote_answer.
    rewrite !request_without_key by (now left). repeat split; reflexivity.
  - rewrite generate_lesson_cases in H.
    destruct (remote_lesson env subject grade topic); [discriminate|].
    now apply generate_local_lesson_raises in H.
  - rewrite generate_lesson_cases in H.
    destruct (remote_lesson env subject grade topic); [discriminate|].
    now apply generate_local_lesson_raises in H.
  - rewrite generate_exercises_cases in H.
    destruct (remote_exercises env subject grade topic); [discriminate|].
    now apply generate_local_exercises_raises in H.
  - rewrite generate_exercises_cases in H.
    destruct (remote_exercises env subject grade topic); [discriminate|].
    now apply generate_local_exercises_raises in H.
  - rewrite answer_question_cases.
    destruct (remote_answer env question lesson_context student_answer); eauto.
Qed.

(** C10.  [answer_question_locally] returns a text that is not empty for
    every question, and the text depends on the question only: two lesson
    contexts give the same feedback, and when the remote attempt fails
    [answer_question] returns that feedback whatever the context and the
    answer of the student. *)
Theorem local_feedback_depends_on_question_only `{py : CPython}
    (question context1 context2 : string) :
  nonempty (answer_question_locally question context1) = true /\
  answer_question_locally question context1 = answer_question_locally question context2 /\
  forall env answer1 answer2 (w1 w2 : world) exc1 exc2,
    remote_answer env question context1 answer1 = Raise exc1 ->
    remote_answer env question context2 answer2 = Raise exc2 ->
    fst (answer_question env question context1 answer1 w1) =
      Ok (answer_question_locally question context1) /\
    fst (answer_question env question context2 answer2 w2) =
      fst (answer_question env question context1 answer1 w1).
Proof.
  split; [|split].
  - unfold answer_question_locally.
    repeat match goal with |- context [if ?b then _ else _] => destruct b end;
      reflexivity.
  - reflexivity.
  - intros env answer1 answer2 w1 w2 exc1 exc2 H1 H2.
    rewrite !answer_question_cases, H1, H2. split; reflexivity.
Qed.

(** ** The text of a well-formed payload *)

Section Payload.
Context `{py : CPython}.

Lemma text_of_parts_shaped parts texts :
  mapM part_text parts = Some texts ->
  text_of_parts parts = Ok (PStr <$> List.find nonempty texts).
Proof.
  intros H%mapM_Some_1. induction H as [|part text parts texts Hpart _ IH].
  - reflexivity.
  - unfold part_text in Hpart. destruct part as [| | | | | |d]; try discriminate.
    destruct (dict_get "text" d) as [[| | | |s| |]|] eqn:Htext; try discriminate.
    injection Hpart as ->. simpl. unfold dict_get_default. rewrite Htext. simpl.
    destruct (nonempty text); [reflexivity|exact IH].
Qed.

Lemma find_app {A} (f : A -> bool) (l1 l2 : list A) :
  List.find f (l1 ++ l2) =
  match List.find f l1 with Some x => Some x | None => List.find f l2 end.
Proof. induction l1 as [|x l1 IH]; simpl; [reflexivity|]. now destruct (f x). Qed.

Lemma text_of_candidates_shaped candidates texts :
  mapM candidate_texts candidates = Some texts ->
  text_of_candidates candidates = Ok (PStr <$> first_nonempty_text texts).
Proof.
  unfold first_nonempty_text.
  intros H%mapM_Some_1. induction H as [|cand ctexts cands texts Hcand _ IH].
  - reflexivity.
  - unfold candidate_texts in Hcand. destruct cand as [| | | | | |d]; try discriminate.
    destruct (dict_get "content" d) as [[| | | | | |content]|] eqn:Hcontent; try discriminate.
    destruct (dict_get "parts" content) as [[| | | | |parts|]|] eqn:Hparts; try discriminate.
    simpl. unfold dict_get_default. rewrite Hcontent. simpl.
    unfold dict_get_default. rewrite Hparts. simpl.
    rewrite (text_of_parts_shaped _ _ Hcand). simpl. rewrite find_app.
    destruct (List.find nonempty ctexts); [reflexivity|exact IH].
Qed.

Lemma text_of_data_shaped data texts text :
  payload_texts data = Some texts ->
  first_nonempty_text texts = Some text ->
  text_of_data data = Ok (PStr text).
Proof.
  unfold payload_texts. destruct data as [| | | | | |d]; try discriminate.
  destruct (dict_get "candidates" d) as [[| | | | |candidates|]|] eqn:Hcands; try discriminate.
  intros Htexts Hfirst.
  pose proof (text_of_candidates_shaped _ _ Htexts) as Hfound.
  rewrite Hfirst in Hfound.
  unfold text_of_data, py_get, dict_get_default. rewrite Hcands.
  destruct candidates; cbn -[text_of_candidates]; rewrite Hfound; reflexivity.
Qed.

Lemma request_shaped env prompt key status body data texts text :
  GEMINI_API_KEY env = Some key -> key <> "" ->
  (forall req, http_post env req = Response status body) ->
  is_success status = true ->
  json_loads body = Some data ->
  payload_texts data = Some texts ->
  first_nonempty_text texts = Some text ->
  _request_from_gemini env prompt = Ok (PStr text).
Proof.
  intros Hkey Hne Hpost Hstatus Hbody Htexts Hfirst.
  unfold _request_from_gemini. rewrite Hkey.
  destruct key as [|c key]; [congruence|].
  rewrite Hpost, Hstatus. simpl. rewrite Hbody.
  exact (text_of_data_shaped _ _ _ Htexts Hfirst).
Qed.

End Payload.

(** C6.  When a key is configured and the endpoint answers with a success
    status and a payload of the shape
    [{"candidates": [{"content": {"parts": [{"text": ...}]}}]}],
    [generate_lesson] (and [answer_question] likewise) returns the first
    text of the payload that is not empty, stripped; the state is left as
    it was, no fallback warning is logged, and the result does not depend
    on what the local table holds for the triple. *)
Theorem remote_success_returns_stripped_text `{py : CPython}
    (env : Env) (subject : string) (grade : Z) (topic : string)
    (question lesson_context student_answer : string) (w : world)
    (key : string) (status : Z) (body : string) (data : pyval)
    (texts : list (list string)) (text : string) :
  GEMINI_API_KEY env = Some key -> key <> "" ->
  (forall req, http_post env req = Response status body) ->
  is_success status = true ->
  json_loads body = Some data ->
  payload_texts data = Some texts ->
  first_nonempty_text texts = Some text ->
  generate_lesson env subject grade topic w = (Ok (strip text), w) /\
  answer_question env question lesson_context student_answer w = (Ok (strip text), w).
Proof.
  intros Hkey Hne Hpost Hstatus Hbody Htexts Hfirst.
  rewrite generate_lesson_cases, answer_question_cases.
  unfold remote_lesson, remote_answer.
  rewrite !(request_shaped env _ key status body data texts text) by assumption.
  split; reflexivity.
Qed.

(** ** Parsing the exercises of the remote response *)

Section Parsing.
Context `{py : CPython}.

Lemma parse_entries_dicts entries :
  forall parsed,
    parse_entries (map PDict entries) parsed = Ok (parsed ++ kept_exercises entries)%list.
Proof.
  induction entries as [|entry entries IH]; intros parsed.
  - unfold kept_exercises. simpl. now rewrite app_nil_r.
  - change (parse_entries (map PDict (entry :: entries)) parsed) with
      (parse_entries (map PDict entries)
         (if usable_question entry then parsed ++ [exercise_of_entry entry] else parsed)).
    rewrite IH. unfold kept_exercises. simpl.
    destruct (usable_question entry); simpl; [|reflexivity].
    now rewrite <- app_assoc.
Qed.

Lemma parse_exercises_dicts entries :
  parse_exercises (PList (map PDict entries)) =
  match kept_exercises entries with
  | [] => Raise (ValueError "No valid exercises returned")
  | _ :: _ => Ok (kept_exercises entries)
  end.
Proof.
  unfold parse_exercises. rewrite parse_entries_dicts. simpl.
  destruct (kept_exercises entries); reflexivity.
Qed.

Lemma unusable_question entry :
  dict_get "question" entry = None \/
  (exists q, dict_get "question" entry = Some (PStr q) /\ strip q = "") ->
  usable_question entry = false.
Proof.
  unfold usable_question, entry_question, dict_get_default.
  intros [-> | (q & -> & Hq)]; simpl; [reflexivity|]. now rewrite Hq.
Qed.

Lemma parse_exercises_not_list doc :
  (forall l, doc <> PList l) ->
  parse_exercises doc = Raise (ValueError "Gemini exercise response must be a list").
Proof. destruct doc; try reflexivity. intros H. now destruct (H items). Qed.

End Parsing.

(** C3.  Let the remote response carry the text [text].  When [text] is a
    JSON array of objects, the exercises returned are those of the
    entries with a usable question, in order: an entry whose ["question"]
    is missing, or empty once stripped, is dropped.  An array of one entry
    without ["question"] and one well-formed entry without ["hint"] gives
    the one exercise of the second entry, with the default hint.  When
    [text] is not JSON, is not an array, or no entry is kept, the local
    generator is used. *)
Theorem remote_exercises_keep_usable_entries `{py : CPython}
    (env : Env) (subject : string) (grade : Z) (topic : string) (w : world)
    (text : string) :
  _request_from_gemini env (exercises_prompt subject grade topic) = Ok (PStr text) ->
  (forall entries, json_loads text = Some (PList (map PDict entries)) ->
     (forall entry,
        dict_get "question" entry = None \/
        (exists q, dict_get "question" entry = Some (PStr q) /\ strip q = "") ->
        usable_question entry = false) /\
     (kept_exercises entries <> [] ->
        generate_exercises env subject grade topic w = (Ok (kept_exercises entries), w)) /\
     (kept_exercises entries = [] ->
        generate_exercises env subject grade topic w =
          generate_local_exercises subject grade topic
            (with_log (exercises_warning subject grade
                         (ValueError "No valid exercises returned")) w))) /\
  (forall malformed well_formed q,
     json_loads text = Some (PList [PDict malformed; PDict well_formed]) ->
     dict_get "question" malformed = None ->
     dict_get "question" well_formed = Some (PStr q) -> strip q <> "" ->
     dict_get "hint" well_formed = None ->
     generate_exercises env subject grade topic w =
       (Ok [ {| question := strip q;
                expected_answer :=
                  strip (py_str (dict_get_default "expected_answer" (PStr "") well_formed));
                hint := "Use clues from the lesson." |} ], w)) /\
  (json_loads text = None ->
     generate_exercises env subject grade topic w =
       generate_local_exercises subject grade topic
         (with_log (exercises_warning subject grade JSONDecodeError) w)) /\
  (forall doc, json_loads text = Some doc -> (forall l, doc <> PList l) ->
     generate_exercises env subject grade topic w =
       generate_local_exercises subject grade topic
         (with_log (exercises_warning subject grade
                      (ValueError "Gemini exercise response must be a list")) w)).
Proof.
  intros Hreq.
  assert (Hcases : forall doc, json_loads text = Some doc ->
            generate_exercises env subject grade topic w =
            match parse_exercises doc with
            | Ok exercises => (Ok exercises, w)
            | Raise exc =>
                generate_local_exercises subject grade topic
                  (with_log (exercises_warning subject grade exc) w)
            end).
  { intros doc Hdoc. rewrite generate_exercises_cases. unfold remote_exercises.
    rewrite Hreq. simpl. rewrite Hdoc. simpl. reflexivity. }
  split; [|split; [|split]].
  - intros entries Hdoc. split; [exact unusable_question|].
    rewrite (Hcases _ Hdoc), parse_exercises_dicts.
    split; intros Hkept; destruct (kept_exercises entries); congruence.
  - intros malformed well_formed q Hdoc Hmissing Hq Hne Hhint.
    rewrite (Hcases _ Hdoc).
    rewrite (parse_exercises_dicts [malformed; well_formed]).
    assert (Hdrop : usable_question malformed = false)
      by (apply unusable_question; now left).
    assert (Hkeep : usable_question well_formed = true).
    { unfold usable_question, entry_question, dict_get_default. rewrite Hq.
      now apply nonempty_true. }
    assert (Hex : exercise_of_entry well_formed =
                  {| question := strip q;
                     expected_answer :=
                       strip (py_str (dict_get_default "expected_answer" (PStr "") well_formed));
                     hint := "Use clues from the lesson." |}).
    { unfold exercise_of_entry, entry_question, dict_get_default at 1 3.
      rewrite Hq, Hhint. reflexivity. }
    unfold kept_exercises. cbn [List.filter]. rewrite Hdrop, Hkeep. cbn [map].
    rewrite Hex. reflexivity.
  - intros Hnone. rewrite generate_exercises_cases. unfold remote_exercises.
    rewrite Hreq. simpl. rewrite Hnone. reflexivity.
  - intros doc Hdoc Hnl. rewrite (Hcases _ Hdoc), parse_exercises_not_list by assumption.
    reflexivity.
Qed.

(** ** Equality of values *)

Lemma pyval_ind' (P : pyval -> Prop) :
  P PNone -> (forall b, P (PBool b)) -> (forall n, P (PInt n)) ->
  (forall x, P (PFloat x)) ->
  (forall s, P (PStr s)) ->
  (forall l, Forall P l -> P (PList l)) ->
  (forall d, Forall (fun kv => P (snd kv)) d -> P (PDict d)) ->
  forall v, P v.
Proof.
  intros HNone HBool HInt HFloat HStr HList HDict.
  fix IH 1. intros [|b|n|x|s|l|d].
  - exact HNone.
  - apply HBool.
  - apply HInt.
  - apply HFloat.
  - apply HStr.
  - apply HList. induction l as [|x l IHl]; constructor; [apply IH|exact IHl].
  - apply HDict. induction d as [|[k x] d IHd]; constructor; [apply IH|exact IHd].
Qed.

(** Numbers are compared by value, whatever their type, and NaN is equal
    to nothing: a lesson read from a file with the grade [4.0] is the
    lesson of grade [4]. *)
Lemma py_eq_numbers :
  py_eq (PInt 4) (PFloat Numbers.four) = true /\
  py_eq (PFloat Numbers.one_half) (PInt 0) = false /\
  py_eq (PBool true) (PFloat Numbers.one_half) = false /\
  py_eq (PFloat Numbers.not_a_number) (PFloat Numbers.not_a_number) = false /\
  py_wf (PFloat Numbers.not_a_number) = false /\
  py_eq (PDict [ ("subject", PStr "Science"); ("grade", PFloat Numbers.four);
                 ("topic", PStr "Energy") ])
        (lesson_entry "Science" 4 "Energy") = true.
Proof. repeat split; vm_compute; reflexivity. Qed.

Lemma py_eq_list (xs ys : list pyval) :
  py_eq (PList xs) (PList ys) = forall2b py_eq xs ys.
Proof.
  simpl. revert ys. induction xs as [|x xs IH]; intros [|y ys]; simpl; try reflexivity.
  now rewrite IH.
Qed.

Lemma py_eq_dict (xs ys : list (string * pyval)) :
  py_eq (PDict xs) (PDict ys) =
  (length xs =? length ys)%nat &&
  forallb (fun kv => match dict_get (fst kv) ys with
                     | Some w => py_eq (snd kv) w
                     | None => false
                     end) xs.
Proof.
  simpl. f_equal. induction xs as [|[k v] xs IH]; simpl; [reflexivity|].
  now rewrite IH.
Qed.

Lemma forall2b_Forall2 {A B} (f : A -> B -> bool) xs ys :
  forall2b f xs ys = true <-> Forall2 (fun x y => f x y = true) xs ys.
Proof.
  revert ys. induction xs as [|x xs IH]; intros [|y ys]; simpl.
  - split; [constructor|reflexivity].
  - split; [discriminate|inversion 1].
  - split; [discriminate|inversion 1].
  - rewrite andb_true_iff, IH. split.
    + intros [? ?]. now constructor.
    + inversion 1; subst. now split.
Qed.

Lemma sort_keys_dict (d : list (string * pyval)) :
  sort_keys (PDict d) =
  PDict (merge_sort key_le (map (fun kv => (fst kv, sort_keys (snd kv))) d)).
Proof. reflexivity. Qed.

Lemma sorted_entries_keys (d : list (string * pyval)) :
  map fst (merge_sort key_le (map (fun kv => (fst kv, sort_keys (snd kv))) d))
  ≡ₚ map fst d.
Proof.
  rewrite merge_sort_Permutation, map_map. simpl. reflexivity.
Qed.

(** Sorting the keys gives an equal value, whichever side [==] is asked. *)
Lemma py_eq_sort_keys (v : pyval) :
  py_wf v = true ->
  py_eq (sort_keys v) v = true /\ py_eq v (sort_keys v) = true.
Proof.
  induction v as [|b|n|x|s|l IH|d IH] using pyval_ind'; intros Hwf.
  - split; reflexivity.
  - simpl. now destruct b.
  - simpl. now rewrite Z.eqb_refl.
  - split; exact Hwf.
  - simpl. now rewrite String.eqb_refl.
  - change (sort_keys (PList l)) with (PList (map sort_keys l)).
    rewrite !py_eq_list. simpl in Hwf.
    induction IH as [|x l Hx _ IHl]; [split; reflexivity|].
    simpl in Hwf. apply andb_true_iff in Hwf as [Hwx Hwl].
    destruct (Hx Hwx) as [H1 H2], (IHl Hwl) as [H3 H4].
    simpl. now rewrite H1, H2, H3, H4.
  - rewrite sort_keys_dict, !py_eq_dict.
    simpl in Hwf. apply andb_true_iff in Hwf as [Hnd Hwf].
    apply bool_decide_eq_true in Hnd. rewrite forallb_forall in Hwf.
    rewrite Forall_forall in IH.
    set (f := fun kv : string * pyval => (fst kv, sort_keys (snd kv))).
    pose proof (merge_sort_Permutation key_le (map f d)) as Hperm.
    assert (Hlen : length (merge_sort key_le (map f d)) = length d)
      by (now rewrite (Permutation_length Hperm), length_map).
    assert (Hnd' : NoDup (map fst (merge_sort key_le (map f d))))
      by (unfold f; now rewrite sorted_entries_keys).
    rewrite Hlen, Nat.eqb_refl. simpl. split; apply forallb_forall.
    + intros kv Hin%list_elem_of_In. rewrite Hperm in Hin.
      apply list_elem_of_In, in_map_iff in Hin as [[k x] [<- Hin]]. simpl.
      rewrite (dict_get_NoDup k x d Hnd Hin).
      apply (IH (k, x)); [now apply list_elem_of_In|]. exact (Hwf _ Hin).
    + intros [k x] Hin. simpl.
      assert (Hin' : In (k, sort_keys x) (merge_sort key_le (map f d))).
      { apply list_elem_of_In. rewrite Hperm. apply list_elem_of_In.
        apply in_map_iff. now exists (k, x). }
      rewrite (dict_get_NoDup k (sort_keys x) _ Hnd' Hin').
      apply (IH (k, x)); [now apply list_elem_of_In|]. exact (Hwf _ Hin).
Qed.

(** ** Saving and loading the progress *)

Section Store.
Context `{py : CPython}.

Lemma sort_keys_asdict (p : StudentProgress) :
  sort_keys (asdict p) =
  PDict [ ("completed_lessons", sort_keys (completed_lessons p));
          ("completed_tests", sort_keys (completed_tests p));
          ("student_id", PStr (student_id p)) ].
Proof.
  unfold asdict. rewrite sort_keys_dict. simpl map.
  generalize (sort_keys (completed_lessons p)) (sort_keys (completed_tests p)).
  intros lessons tests. reflexivity.
Qed.

Lemma save_progress_ok (p : StudentProgress) (data_dir : string) (w : world) :
  w_io_ok w data_dir = true ->
  w_io_ok w (progress_file (student_id p) data_dir) = true ->
  save_progress p data_dir w =
  (Ok tt, {| w_rng := w_rng w; w_log := w_log w;
             w_files := <[progress_file (student_id p) data_dir :=
                            JsonFile (sort_keys (asdict p))]> (w_files w);
             w_io_ok := w_io_ok w |}).
Proof.
  intros Hdir Hfile.
  unfold save_progress, _progress_path, makedirs, write_file, bind, ret.
  now rewrite Hdir, Hfile.
Qed.

Lemma load_progress_ok (student : string) (data_dir : string) (w : world) payload :
  w_io_ok w data_dir = true ->
  w_io_ok w (progress_file student data_dir) = true ->
  w_files w !! progress_file student data_dir = Some (JsonFile payload) ->
  load_progress student data_dir w = (from_dict payload student, w).
Proof.
  intros Hdir Hfile Hfound.
  unfold load_progress, _progress_path, makedirs, path_exists, read_file, bind, ret,
    lift_result.
  rewrite Hdir. cbn beta iota. rewrite Hfound.
  rewrite bool_decide_eq_true_2 by eauto. cbn [negb]. cbn beta iota.
  rewrite Hfound, Hfile. reflexivity.
Qed.

Lemma save_then_load (p : StudentProgress) (data_dir : string) (w : world) :
  w_io_ok w data_dir = true ->
  w_io_ok w (progress_file (student_id p) data_dir) = true ->
  (run save_progress p data_dir ; load_progress (student_id p) data_dir) w =
  (Ok {| student_id := student_id p;
         completed_lessons := sort_keys (completed_lessons p);
         completed_tests := sort_keys (completed_tests p) |},
   {| w_rng := w_rng w; w_log := w_log w;
      w_files := <[progress_file (student_id p) data_dir :=
                     JsonFile (sort_keys (asdict p))]> (w_files w);
      w_io_ok := w_io_ok w |}).
Proof.
  intros Hdir Hfile. unfold bind at 1.
  rewrite (save_progress_ok p data_dir w Hdir Hfile).
  rewrite (load_progress_ok _ _ _ (sort_keys (asdict p))); try assumption.
  - now rewrite sort_keys_asdict.
  - apply lookup_insert_eq.
Qed.

End Store.

(** C5.  For every progress whose values are well formed, saving it and
    then loading the same student from the same directory (a directory
    and a file that the operating system lets the program use) returns
    a progress equal to the one saved: the same student, and lists of
    lessons and of tests equal to the saved ones with [==], entry by
    entry in the same order. *)
Theorem save_load_round_trip `{py : CPython}
    (p : StudentProgress) (data_dir : string) (w : world) :
  w_io_ok w data_dir = true ->
  w_io_ok w (progress_file (student_id p) data_dir) = true ->
  py_wf (completed_lessons p) = true ->
  py_wf (completed_tests p) = true ->
  exists loaded w',
    (run save_progress p data_dir ; load_progress (student_id p) data_dir) w
      = (Ok loaded, w') /\
    student_id loaded = student_id p /\
    StudentProgress_eq loaded p = true /\
    StudentProgress_eq p loaded = true /\
    (forall lessons, completed_lessons p = PList lessons ->
       exists lessons', completed_lessons loaded = PList lessons' /\
                        Forall2 (fun x y => py_eq x y = true) lessons' lessons) /\
    (forall tests, completed_tests p = PList tests ->
       exists tests', completed_tests loaded = PList tests' /\
                      Forall2 (fun x y => py_eq x y = true) tests' tests).
Proof.
  intros Hdir Hfile Hl Ht. eexists _, _. split; [now apply save_then_load|]. simpl.
  destruct (py_eq_sort_keys _ Hl) as [Hl1 Hl2], (py_eq_sort_keys _ Ht) as [Ht1 Ht2].
  split; [reflexivity|]. unfold StudentProgress_eq. simpl.
  rewrite String.eqb_refl, Hl1, Hl2, Ht1, Ht2.
  split; [reflexivity|]. split; [reflexivity|].
  split; intros l Heq; rewrite Heq in *; eexists; (split; [reflexivity|]);
    apply forall2b_Forall2; rewrite <- py_eq_list; assumption.
Qed.

(** ** The slots of the window *)

Section Window.
Context `{py : CPython}.

(** [_persist_progress] returns, whether the file can be written or
    not, and leaves the window as it is. *)
Lemma persist_progress_window (a : app) :
  fst (_persist_progress a) = Ok tt /\ window (snd (_persist_progress a)) = window a.
Proof.
  unfold _persist_progress, bind, get_window, try_except, in_world, log_append.
  destruct (save_progress (progress (window a)) DEFAULT_DATA_DIR (outside a))
    as [[[]|exc] w']; split; reflexivity.
Qed.

(** The window after [_open_lesson]. *)
Lemma open_lesson_window env subject grade topic (a : app) :
  window (snd (_open_lesson env subject grade topic a)) =
  match fst (generate_lesson env subject grade topic (outside a)) with
  | Raise _ => set_current subject grade topic (window a)
  | Ok text =>
      let mw := set_current_lesson_text text (set_current subject grade topic (window a)) in
      match completed_lessons (progress (window a)) with
      | PList lessons =>
          if existsb (fun e => py_eq e (lesson_entry subject grade topic)) lessons
          then mw
          else set_progress
                 (set_completed_lessons
                    (PList (lessons ++ [lesson_entry subject grade topic]))
                    (progress mw)) mw
      | _ => mw
      end
  end.
Proof.
  unfold _open_lesson, generate_lesson_sync, bind, modify_window, in_world, get_window,
    lift_result, ret.
  cbn [outside window].
  destruct (generate_lesson env subject grade topic (outside a)) as [[text|e] w'];
    [|reflexivity].
  cbn [fst snd outside window set_current_lesson_text set_current progress].
  destruct (completed_lessons (progress (window a))) as [| | | | |lessons|]; try reflexivity.
  cbn [py_contains].
  destruct (existsb _ lessons); [reflexivity|].
  cbn [negb py_append]. cbn beta iota.
  now rewrite (proj2 (persist_progress_window _)).
Qed.

(** The window after [_record_test]. *)
Lemma record_test_window score total (a : app) :
  window (snd (_record_test score total a)) =
  match current_triple (window a) with
  | Some (subject, grade, topic) =>
      match completed_tests (progress (window a)) with
      | PList tests =>
          set_progress
            (set_completed_tests
               (PList (tests ++ [test_entry subject grade topic score total]))
               (progress (window a))) (window a)
      | _ => window a
      end
  | None => window a
  end.
Proof.
  unfold _record_test, bind, modify_window, get_window, lift_result, ret.
  cbn [outside window fst snd].
  destruct (current_triple (window a)) as [[[subject grade] topic]|]; [|reflexivity].
  destruct (completed_tests (progress (window a))); try reflexivity.
  cbn [py_append]. cbn beta iota.
  now rewrite (proj2 (persist_progress_window _)).
Qed.

Lemma lesson_entry_eq s g t s' g' t' :
  py_eq (lesson_entry s g t) (lesson_entry s' g' t') = true <->
  s = s' /\ g = g' /\ t = t'.
Proof.
  unfold lesson_entry. rewrite py_eq_dict. simpl.
  rewrite !andb_true_iff, !String.eqb_eq, Z.eqb_eq. tauto.
Qed.

Lemma filter_none {A} (f : A -> bool) (l : list A) :
  existsb f l = false -> List.filter f l = [].
Proof.
  induction l as [|x l IH]; simpl; [reflexivity|].
  intros [-> Hl]%orb_false_iff. auto.
Qed.

Lemma handle_keeps_lessons_once (e : event) (a : app) :
  lessons_recorded_once (window a) ->
  lessons_recorded_once (window (snd (handle e a))).
Proof.
  intros Hinv. destruct e as [env subject grade topic|score total]; simpl.
  - rewrite open_lesson_window.
    destruct (fst (generate_lesson env subject grade topic (outside a))) as [text|exc];
      [|exact Hinv].
    unfold lessons_recorded_once in *. cbn zeta.
    destruct (completed_lessons (progress (window a))) as [| | | | |lessons|] eqn:Hl;
      try (cbn; rewrite Hl; exact Hinv).
    destruct (existsb _ lessons) eqn:Hex; [cbn; rewrite Hl; exact Hinv|].
    cbn. intros lessons' [= <-] s g t.
    rewrite List.filter_app, length_app. cbn [List.filter].
    destruct (py_eq (lesson_entry subject grade topic) (lesson_entry s g t)) eqn:Heq.
    + apply lesson_entry_eq in Heq as (<- & <- & <-).
      rewrite (filter_none _ _ Hex). simpl. lia.
    + specialize (Hinv lessons eq_refl s g t). simpl. lia.
  - rewrite record_test_window.
    destruct (current_triple (window a)) as [[[subject grade] topic]|]; [|exact Hinv].
    destruct (completed_tests (progress (window a))); exact Hinv.
Qed.

Lemma run_keeps_lessons_once (events : list event) :
  forall a : app,
    lessons_recorded_once (window a) ->
    lessons_recorded_once (window (run_events events a)).
Proof.
  induction events as [|e events IH]; intros a Hinv; simpl; [exact Hinv|].
  apply IH. now apply handle_keeps_lessons_once.
Qed.

End Window.

Section Recording.
Context `{py : CPython}.

(** The triples of the table pass the guard of [_start_test] and
    [_record_test]. *)
Lemma table_triples_truthy s g t :
  in_local_content s g t = true ->
  nonempty s && negb (g =? 0)%Z && nonempty t = true.
Proof.
  unfold in_local_content. destruct (lookup_content s g t) as [c|] eqn:Hc; [|discriminate].
  intros _. apply lookup_content_entry in Hc.
  assert (Hall : forallb (fun e : string * Z * string * content =>
                            let '(s, g, t, _) := e in
                            nonempty s && negb (g =? 0)%Z && nonempty t)
                         table_entries = true) by reflexivity.
  rewrite forallb_forall in Hall. exact (Hall _ Hc).
Qed.

Lemma generate_lesson_present env s g t (w : world) :
  in_local_content s g t = true ->
  exists text, fst (generate_lesson env s g t w) = Ok text.
Proof.
  intros Hin. rewrite generate_lesson_cases.
  destruct (remote_lesson env s g t); [eauto|].
  destruct (generate_local_lesson_present _ _ _ Hin) as (? & ? & ? & _ & _ & _ & ->).
  eauto.
Qed.

Lemma open_lesson_tests env s g t (a : app) :
  completed_tests (progress (window (snd (_open_lesson env s g t a)))) =
  completed_tests (progress (window a)).
Proof.
  rewrite open_lesson_window.
  destruct (fst (generate_lesson env s g t (outside a))); [|reflexivity].
  cbn zeta.
  destruct (completed_lessons (progress (window a))) as [| | | | |lessons|];
    try reflexivity.
  destruct (existsb _ lessons); reflexivity.
Qed.

Lemma open_lesson_current env s g t (a : app) :
  in_local_content s g t = true ->
  current_triple (window (snd (_open_lesson env s g t a))) = Some (s, g, t).
Proof.
  intros Hin%table_triples_truthy. rewrite open_lesson_window.
  destruct (fst (generate_lesson env s g t (outside a))); cbn zeta;
    [destruct (completed_lessons (progress (window a))) as [| | | | |lessons|];
     [| | | | |destruct (existsb (fun e => py_eq e (lesson_entry s g t)) lessons)|]|];
    unfold current_triple; cbn; now rewrite Hin.
Qed.

Lemma run_appends_expected_tests (events : list event) :
  forall (a : app) current tests,
    current_triple (window a) = Some current ->
    completed_tests (progress (window a)) = PList tests ->
    Forall offered events ->
    completed_tests (progress (window (run_events events a))) =
      PList (tests ++ expected_tests current events).
Proof.
  induction events as [|e events IH]; intros a current tests Hcur Htests Hoff.
  - simpl. now rewrite app_nil_r.
  - apply Forall_cons in Hoff as [He Hoff].
    destruct e as [env s g t|score total].
    + simpl in He. cbn [run_events handle expected_tests].
      apply IH; [now apply open_lesson_current| |assumption].
      now rewrite open_lesson_tests.
    + destruct current as [[s g] t]. cbn [run_events handle expected_tests].
      pose proof (record_test_window score total a) as Hw.
      rewrite Hcur, Htests in Hw.
      rewrite (IH _ (s, g, t) (tests ++ [test_entry s g t score total])%list);
        [now rewrite <- app_assoc| | |assumption]; rewrite Hw.
      * exact Hcur.
      * reflexivity.
Qed.

Lemma expected_tests_length current (events : list event) :
  length (expected_tests current events) = length (List.filter is_test_completed events).
Proof.
  revert current. induction events as [|[env s g t|score total] events IH];
    intros [[s0 g0] t0]; simpl; auto.
Qed.

Lemma open_twice_records_once env1 env2 s g t (w : world) :
  in_local_content s g t = true ->
  completed_lessons
    (progress (window (run_events [LessonSelected env1 s g t; LessonSelected env2 s g t]
                                  {| window := init; outside := w |}))) =
  PList [lesson_entry s g t].
Proof.
  intros Hin. cbn [run_events handle].
  set (a1 := snd (_open_lesson env1 s g t {| window := init; outside := w |})).
  assert (H1 : completed_lessons (progress (window a1)) = PList [lesson_entry s g t]).
  { unfold a1. rewrite open_lesson_window. cbn [outside window].
    destruct (generate_lesson_present env1 s g t w Hin) as [text ->]. reflexivity. }
  rewrite open_lesson_window.
  destruct (generate_lesson_present env2 s g t (outside a1) Hin) as [text ->].
  cbn zeta. rewrite H1. cbn [existsb].
  assert (Hrefl : py_eq (lesson_entry s g t) (lesson_entry s g t) = true)
    by now apply lesson_entry_eq.
  rewrite Hrefl. cbn. exact H1.
Qed.

End Recording.

(** C4.  Over every sequence of lesson and quiz events, [completed_lessons]
    keeps at most one entry per (subject, grade, topic): the entry is
    compared with [==] against the list before it is appended, so a
    lesson opened twice is recorded once.  [completed_tests] is never
    deduplicated: with a lesson open, every completed quiz appends its
    entry, so two attempts on one topic give two entries. *)
Theorem lessons_once_tests_every_attempt `{py : CPython}
    (a : app) (events : list event) :
  lessons_recorded_once (window a) ->
  lessons_recorded_once (window (run_events events a)) /\
  (forall env1 env2 subject grade topic (w : world),
     in_local_content subject grade topic = true ->
     completed_lessons
       (progress (window (run_events [LessonSelected env1 subject grade topic;
                                      LessonSelected env2 subject grade topic]
                                     {| window := init; outside := w |}))) =
     PList [lesson_entry subject grade topic]) /\
  (forall current tests,
     current_triple (window a) = Some current ->
     completed_tests (progress (window a)) = PList tests ->
     Forall offered events ->
     completed_tests (progress (window (run_events events a))) =
       PList (tests ++ expected_tests current events) /\
     length (expected_tests current events) =
       length (List.filter is_test_completed events)) /\
  (forall subject grade topic tests score1 total1 score2 total2,
     current_triple (window a) = Some (subject, grade, topic) ->
     completed_tests (progress (window a)) = PList tests ->
     completed_tests
       (progress (window (run_events [TestCompleted score1 total1;
                                      TestCompleted score2 total2] a))) =
     PList (tests ++ [test_entry subject grade topic score1 total1;
                      test_entry subject grade topic score2 total2])).
Proof.
  intros Hinv. split; [now apply run_keeps_lessons_once|].
  split; [intros; now apply open_twice_records_once|]. split.
  - intros current tests Hcur Htests Hoff. split.
    + now apply run_appends_expected_tests.
    + apply expected_tests_length.
  - intros subject grade topic tests score1 total1 score2 total2 Hcur Htests.
    apply (run_appends_expected_tests
             [TestCompleted score1 total1; TestCompleted score2 total2]
             a (subject, grade, topic) tests Hcur Htests).
    repeat constructor.
Qed.

(** * The properties at concrete inputs *)

Import Samples.

Lemma remote_failure_gives_local_result_witness :
  (forall req, @listed_failure python (http_post env_server_error req)) /\
  fst (@generate_lesson python env_server_error "Mathematics" 3 "Fractions" world0) =
    generate_local_lesson "Mathematics" 3 "Fractions" /\
  fst (@generate_exercises python env_server_error "Mathematics" 3 "Fractions" world0) =
    fst (@generate_local_exercises python "Mathematics" 3 "Fractions" world0) /\
  w_rng (snd (@generate_exercises python env_server_error "Mathematics" 3 "Fractions" world0)) =
    w_rng (snd (@generate_local_exercises python "Mathematics" 3 "Fractions" world0)).
Proof.
  assert (H : forall req, @listed_failure python (http_post env_server_error req))
    by (intros req; apply (@error_status python); reflexivity).
  split; [exact H|].
  exact (@remote_failure_gives_local_result python env_server_error
           "Mathematics" 3 "Fractions" world0 H).
Defined.

Lemma only_lookup_error_propagates_witness :
  GEMINI_API_KEY env_without_key = None /\
  @generate_lesson python env_without_key "Science" 4 "Energy" world0 =
    (generate_local_lesson "Science" 4 "Energy",
     with_log (lesson_warning "Science" 4 (RuntimeError "GEMINI_API_KEY is not set."))
              world0).
Proof.
  split; [reflexivity|].
  apply (@only_lookup_error_propagates python env_without_key "Science" 4 "Energy"
           "" "" "" world0).
  reflexivity.
Defined.

Lemma remote_exercises_keep_usable_entries_witness :
  @_request_from_gemini python env_exercises (exercises_prompt "Mathematics" 3 "Fractions")
    = Ok (PStr "exercises.json") /\
  @generate_exercises python env_exercises "Mathematics" 3 "Fractions" world0 =
    (Ok [ {| question := "What is half of 8?";
             expected_answer := "4";
             hint := "Use clues from the lesson." |} ], world0).
Proof.
  split; [reflexivity|].
  pose proof (@remote_exercises_keep_usable_entries python env_exercises
                "Mathematics" 3 "Fractions" world0 "exercises.json" eq_refl)
    as (Hentries & _).
  destruct (Hentries [entry_without_question; entry_blank_question; entry_well_formed]
              eq_refl) as (_ & Hkept & _).
  rewrite Hkept; [reflexivity|discriminate].
Defined.

Lemma lessons_once_tests_every_attempt_witness :
  lessons_recorded_once (window app0) /\
  lessons_recorded_once (window (@run_events python sample_events app0)) /\
  completed_tests (progress (window (@run_events python
                                       [TestCompleted 2 3; TestCompleted 3 3]
                                       (@run_events python
                                          [LessonSelected env_without_key "Science" 4 "Energy"]
                                          app0)))) =
    PList [ test_entry "Science" 4 "Energy" 2 3; test_entry "Science" 4 "Energy" 3 3 ].
Proof.
  assert (H0 : forall a : @app python,
             completed_lessons (progress (window a)) = PList [] \/
             completed_lessons (progress (window a)) =
               PList [lesson_entry "Science" 4 "Energy"] ->
             lessons_recorded_once (window a)).
  { intros a [Hl|Hl] lessons Heq subject grade topic; rewrite Hl in Heq;
      injection Heq as <-;
      [simpl; lia|].
    cbn [List.filter].
    destruct (py_eq (lesson_entry "Science" 4 "Energy") (lesson_entry subject grade topic));
      simpl; lia. }
  split; [apply H0; left; reflexivity|]. split.
  - apply (@lessons_once_tests_every_attempt python app0 sample_events).
    apply H0. left. reflexivity.
  - assert (H1 : lessons_recorded_once
                   (window (@run_events python
                              [LessonSelected env_without_key "Science" 4 "Energy"] app0)))
      by (apply H0; right; reflexivity).
    pose proof (@lessons_once_tests_every_attempt python
             (@run_events python [LessonSelected env_without_key "Science" 4 "Energy"] app0)
             [] H1) as (_ & _ & _ & Htwo).
    exact (Htwo "Science" 4%Z "Energy" [] 2%Z 3%Z 3%Z 3%Z eq_refl eq_refl).
Defined.

Lemma save_load_round_trip_witness :
  w_io_ok world0 "data" = true /\
  w_io_ok world0 (progress_file (student_id sample_progress) "data") = true /\
  py_wf (completed_lessons sample_progress) = true /\
  py_wf (completed_tests sample_progress) = true /\
  exists loaded w',
    (run @save_progress python sample_progress "data" ;
     @load_progress python (student_id sample_progress) "data") world0 = (Ok loaded, w') /\
    student_id loaded = student_id sample_progress /\
    StudentProgress_eq loaded sample_progress = true /\
    StudentProgress_eq sample_progress loaded = true.
Proof.
  do 4 (split; [reflexivity|]).
  destruct (@save_load_round_trip python sample_progress "data" world0
              eq_refl eq_refl eq_refl eq_refl)
    as (loaded & w' & Hrun & Hid & Heq1 & Heq2 & _).
  exists loaded, w'. repeat split; assumption.
Defined.

Lemma remote_success_returns_stripped_text_witness :
  GEMINI_API_KEY env_lesson = Some "secret" /\
  @generate_lesson python env_lesson "Mathematics" 3 "Fractions" world0 =
    (Ok "A fraction is a part of a whole.", world0) /\
  @generate_lesson python env_lesson "Unknown" 0 "Nothing" world0 =
    (Ok "A fraction is a part of a whole.", world0).
Proof.
  split; [reflexivity|].
  split;
    apply (fun s g t =>
             proj1 (@remote_success_returns_stripped_text python env_lesson s g t
                      "" "" "" world0 "secret" 200 "lesson-payload.json" lesson_payload
                      [[""]; [padded_lesson_text; "Not reached."]]
                      padded_lesson_text
                      eq_refl ltac:(discriminate) (fun _ => eq_refl)
                      eq_refl eq_refl eq_refl eq_refl)).
Defined.

Lemma local_exercises_nonempty_and_stable_witness :
  in_local_content "Mathematics" 3 "Fractions" = true /\
  exists exercises w',
    @generate_local_exercises python "Mathematics" 3 "Fractions" world0 = (Ok exercises, w') /\
    exercises <> [] /\
    Forall (fun e => nonempty (question e) = true /\ nonempty (hint e) = true) exercises.
Proof.
  split; [reflexivity|].
  destruct (@local_exercises_nonempty_and_stable python "Mathematics" 3 "Fractions"
              world0 eq_refl) as (exercises & w' & Hgen & Hne & Hall & _).
  exists exercises, w'. repeat split; assumption.
Defined.

Lemma offered_combinations_have_content_witness :
  In 3%Z get_available_grades /\
  In "Mathematics" (get_subjects_for_grade 3) /\
  In "Fractions" (get_topics "Mathematics" 3) /\
  in_local_content "Mathematics" 3 "Fractions" = true /\
  exists content, _select_content "Mathematics" 3 "Fractions" = Ok content.
Proof.
  assert (Hg : In 3%Z get_available_grades) by (vm_compute; tauto).
  assert (Hs : In "Mathematics" (get_subjects_for_grade 3)) by (vm_compute; tauto).
  assert (Ht : In "Fractions" (get_topics "Mathematics" 3)) by (vm_compute; tauto).
  repeat (split; [assumption|]).
  destruct (@offered_combinations_have_content python 3 "Mathematics" "Fractions" Hg Hs Ht)
    as (Hin & Hsel & _).
  split; assumption.
Defined.

Lemma local_feedback_depends_on_question_only_witness :
  @remote_answer python env_without_key "Solve 4 x 6." "context one" "23" =
    Raise (RuntimeError "GEMINI_API_KEY is not set.") /\
  @remote_answer python env_without_key "Solve 4 x 6." "another context" "25" =
    Raise (RuntimeError "GEMINI_API_KEY is not set.") /\
  fst (@answer_question python env_without_key "Solve 4 x 6." "another context" "25" world0) =
    fst (@answer_question python env_without_key "Solve 4 x 6." "context one" "23" world0).
Proof.
  split; [reflexivity|]. split; [reflexivity|].
  pose proof (@local_feedback_depends_on_question_only python
                "Solve 4 x 6." "context one" "another context") as (_ & _ & Hfallback).
  exact (proj2 (Hfallback env_without_key "23" "25" world0 world0 _ _ eq_refl eq_refl)).
Defined.

(** * Further properties of the code *)

(** ** Indexing *)

Lemma list_item_in_range {A} (l : list A) (i : Z) :
  (0 <= i < Z.of_nat (length l))%Z ->
  exists x, list_item l i = Ok x /\ l !! Z.to_nat i = Some x.
Proof.
  intros Hi. unfold list_item.
  destruct (Z.ltb_spec i 0); [lia|].
  destruct (Z.leb_spec 0 i); [|lia].
  destruct (Z.ltb_spec i (Z.of_nat (length l))); [|lia]. simpl.
  destruct (lookup_lt_is_Some_2 l (Z.to_nat i) ltac:(lia)) as [x Hx].
  rewrite Hx. eauto.
Qed.

Lemma length_list_ascii_of_string (s : string) :
  length (list_ascii_of_string s) = String.length s.
Proof. induction s as [|c s IH]; simpl; [reflexivity|now rewrite IH]. Qed.

Lemma str_item_in_range (s : string) (i : Z) :
  (0 <= i < Z.of_nat (String.length s))%Z ->
  exists c, str_item s i = Ok (String c "").
Proof.
  intros Hi. unfold str_item.
  destruct (list_item_in_range (list_ascii_of_string s) i) as (c & -> & _).
  - now rewrite length_list_ascii_of_string.
  - simpl. eauto.
Qed.

(** ** The labyrinth *)

Section Labyrinth.
Import labyrinth_game.

Lemma grid_rows_have_cols (line : string) :
  In line GRID -> Z.of_nat (String.length line) = COLS.
Proof.
  assert (Hall : forallb (fun line => (Z.of_nat (String.length line) =? COLS)%Z) GRID = true)
    by reflexivity.
  rewrite forallb_forall in Hall. intros Hin. now apply Z.eqb_eq, Hall.
Qed.

Lemma is_wall_inside (col row : Z) :
  (0 <= row < ROWS)%Z -> (0 <= col < COLS)%Z ->
  exists b, _is_wall col row = Ok b.
Proof.
  intros Hrow Hcol. unfold _is_wall.
  destruct (Z.leb_spec 0 row); [|lia]. destruct (Z.ltb_spec row ROWS); [|lia].
  destruct (Z.leb_spec 0 col); [|lia]. destruct (Z.ltb_spec col COLS); [|lia].
  cbn [andb].
  destruct (list_item_in_range GRID row Hrow) as (line & -> & Hline).
  cbn [rbind].
  assert (Hin : In line GRID)
    by (apply list_elem_of_In, list_elem_of_lookup; eauto).
  destruct (str_item_in_range line col) as (c & ->).
  - now rewrite (grid_rows_have_cols line Hin).
  - cbn [rbind]. eauto.
Qed.

Lemma is_wall_outside (col row : Z) :
  (row < 0 \/ ROWS <= row \/ col < 0 \/ COLS <= col)%Z ->
  _is_wall col row = Ok true.
Proof.
  intros Hout. unfold _is_wall.
  destruct (Z.leb_spec 0 row), (Z.ltb_spec row ROWS),
    (Z.leb_spec 0 col), (Z.ltb_spec col COLS); try reflexivity; lia.
Qed.

Lemma is_wall_returns (col row : Z) : exists b, _is_wall col row = Ok b.
Proof.
  destruct (Z.lt_ge_cases row 0) as [?|?]; [exists true; apply is_wall_outside; lia|].
  destruct (Z.lt_ge_cases row ROWS) as [?|?]; [|exists true; apply is_wall_outside; lia].
  destruct (Z.lt_ge_cases col 0) as [?|?]; [exists true; apply is_wall_outside; lia|].
  destruct (Z.lt_ge_cases col COLS) as [?|?]; [|exists true; apply is_wall_outside; lia].
  apply is_wall_inside; lia.
Qed.

End Labyrinth.

(** X1.  [_is_wall] returns for every pair of integers: no index leaves
    the grid, whose rows all have [COLS] characters, and every cell
    outside the grid counts as a wall. *)
Theorem is_wall_total (col row : Z) :
  exists b, labyrinth_game._is_wall col row = Ok b /\
            ((row < 0 \/ labyrinth_game.ROWS <= row \/
              col < 0 \/ labyrinth_game.COLS <= col)%Z -> b = true).
Proof.
  destruct (Z.lt_ge_cases row 0) as [?|?];
    [exists true; split; [apply is_wall_outside; lia|reflexivity]|].
  destruct (Z.lt_ge_cases row labyrinth_game.ROWS) as [?|?];
    [|exists true; split; [apply is_wall_outside; lia|reflexivity]].
  destruct (Z.lt_ge_cases col 0) as [?|?];
    [exists true; split; [apply is_wall_outside; lia|reflexivity]|].
  destruct (Z.lt_ge_cases col labyrinth_game.COLS) as [?|?];
    [|exists true; split; [apply is_wall_outside; lia|reflexivity]].
  destruct (is_wall_inside col row) as [b Hb]; [lia|lia|].
  exists b. split; [assumption|]. lia.
Qed.

Section LabyrinthMoves.
Import labyrinth_game.

Lemma attempt_move_free (p : Player) (dx dy : Z) :
  free_cell (position p) ->
  exists p', _attempt_move p dx dy = Ok p' /\ free_cell (position p') /\
             (position p' = position p \/
              position p' = (fst (position p) + dx, snd (position p) + dy)%Z).
Proof.
  destruct p as [[x y]]. intros Hfree. unfold _attempt_move. cbn [position].
  destruct (is_wall_returns (x + dx) (y + dy)) as (b & Hb). rewrite Hb. cbn [rbind].
  destruct b; cbn [negb].
  - eexists. split; [reflexivity|]. split; [exact Hfree|now left].
  - eexists. split; [reflexivity|]. split; [exact Hb|now right].
Qed.

(** The four cells around the exit are walls. *)
Lemma exit_enclosed (dx dy : Z) :
  In (dx, dy) [(0, -1); (0, 1); (-1, 0); (1, 0)]%Z ->
  ~ free_cell (fst (snd _find_positions) - dx, snd (snd _find_positions) - dy)%Z.
Proof.
  intros [[= <- <-]|[[= <- <-]|[[= <- <-]|[[= <- <-]|[]]]]]; discriminate.
Qed.

Lemma step_inside (g : game) (dx dy : Z) :
  In (dx, dy) [(0, -1); (0, 1); (-1, 0); (1, 0)]%Z ->
  inside g ->
  exists p', _attempt_move (player g) dx dy = Ok p' /\
             inside {| player := p'; running := running g; won := won g |}.
Proof.
  intros Hdir [Hfree Hne].
  destruct (attempt_move_free (player g) dx dy Hfree) as (p' & Hmove & Hfree' & Hpos).
  exists p'. split; [assumption|]. split; [assumption|]. cbn [player].
  destruct Hpos as [->| Hpos]; [assumption|].
  intros Hexit. apply (exit_enclosed dx dy Hdir).
  rewrite Hpos in Hexit. rewrite <- Hexit. cbn [fst snd].
  replace (fst (position (player g)) + dx - dx)%Z with (fst (position (player g))) by lia.
  replace (snd (position (player g)) + dy - dy)%Z with (snd (position (player g))) by lia.
  exact Hfree.
Qed.

Lemma handle_event_inside (g : game) (event : pg_event) :
  inside g ->
  exists g', handle_event g event = Ok g' /\ inside g' /\ won g' = won g /\
             running g' = running g && negb (ends_loop event).
Proof.
  intros Hin.
  assert (Hstay : forall r, inside {| player := player g; running := r; won := won g |})
    by (intros r; exact Hin).
  assert (Hmove : forall dx dy, In (dx, dy) [(0, -1); (0, 1); (-1, 0); (1, 0)]%Z ->
            exists g', (let? p := _attempt_move (player g) dx dy in
                        Ok {| player := p; running := running g; won := won g |}) = Ok g' /\
                       inside g' /\ won g' = won g /\ running g' = running g && true).
  { intros dx dy Hdir. destruct (step_inside g dx dy Hdir Hin) as (p' & -> & Hin').
    eexists. split; [reflexivity|]. split; [exact Hin'|].
    split; [reflexivity|]. cbn. now rewrite andb_true_r. }
  destruct event as [|k|]; [| |].
  - eexists. split; [reflexivity|]. split; [apply Hstay|].
    split; [reflexivity|]. cbn. now rewrite andb_false_r.
  - destruct k; cbn [handle_event ends_loop negb];
      try (apply Hmove; cbn; tauto).
    + eexists. split; [reflexivity|]. split; [apply Hstay|].
      split; [reflexivity|]. cbn. now rewrite andb_false_r.
    + exists g. split; [reflexivity|]. split; [exact Hin|].
      split; [reflexivity|]. now rewrite andb_true_r.
  - exists g. split; [reflexivity|]. split; [exact Hin|].
    split; [reflexivity|]. cbn. now rewrite andb_true_r.
Qed.

Lemma handle_events_inside (events : list pg_event) :
  forall g, inside g ->
  exists g', handle_events g events = Ok g' /\ inside g' /\ won g' = won g /\
             running g' = running g && negb (existsb ends_loop events).
Proof.
  induction events as [|event events IH]; intros g Hin.
  - exists g. split; [reflexivity|]. split; [exact Hin|].
    split; [reflexivity|]. cbn. now rewrite andb_true_r.
  - destruct (handle_event_inside g event Hin) as (g1 & H1 & Hin1 & Hwon1 & Hrun1).
    destruct (IH g1 Hin1) as (g2 & H2 & Hin2 & Hwon2 & Hrun2).
    exists g2. cbn [handle_events]. rewrite H1. cbn [rbind].
    split; [exact H2|]. split; [exact Hin2|]. split; [congruence|].
    rewrite Hrun2, Hrun1. cbn [existsb]. rewrite negb_orb. now rewrite andb_assoc.
Qed.

Lemma frame_inside (g : game) (events : list pg_event) :
  inside g ->
  exists g', frame (snd _find_positions) g events = Ok g' /\ inside g' /\
             won g' = won g /\
             running g' = running g && negb (existsb ends_loop events).
Proof.
  intros Hin. destruct (handle_events_inside events g Hin) as (g' & H & Hin' & Hwon & Hrun).
  exists g'. unfold frame. rewrite H. cbn [rbind].
  rewrite bool_decide_eq_false_2 by (apply Hin'). auto.
Qed.

Lemma game_loop_inside (frames : list (list pg_event)) :
  forall g, inside g -> won g = false ->
  exists g', game_loop (snd _find_positions) g frames = Ok g' /\ inside g' /\
             won g' = false /\
             (running g = true ->
              running g' = negb (existsb (existsb ends_loop) frames)).
Proof.
  induction frames as [|events frames IH]; intros g Hin Hwon.
  - exists g. cbn. destruct (running g); auto.
  - cbn [game_loop]. destruct (running g) eqn:Hrun.
    + destruct (frame_inside g events Hin) as (g1 & -> & Hin1 & Hwon1 & Hrun1).
      cbn [rbind]. rewrite Hrun in Hrun1. cbn [andb] in Hrun1.
      destruct (IH g1 Hin1 ltac:(congruence)) as (g2 & H2 & Hin2 & Hwon2 & Hrun2).
      destruct (running g1) eqn:Hr1.
      * exists g2. split; [exact H2|]. split; [exact Hin2|]. split; [exact Hwon2|].
        intros _. cbn [existsb].
        destruct (existsb ends_loop events); [discriminate|]. now apply Hrun2.
      * exists g1. split.
        { destruct frames; cbn [game_loop]; now rewrite Hr1. }
        split; [exact Hin1|]. split; [congruence|].
        intros _. cbn [existsb].
        destruct (existsb ends_loop events); [now rewrite Hr1|discriminate].
    + exists g. split; [reflexivity|]. split; [exact Hin|]. split; [exact Hwon|].
      discriminate.
Qed.

Lemma start_inside : inside start_game.
Proof. split; [reflexivity|discriminate]. Qed.

Lemma loop_from_start (frames : list (list pg_event)) :
  exists g, game_loop (snd _find_positions) start_game frames = Ok g /\
            free_cell (position (player g)) /\
            position (player g) <> snd _find_positions /\
            won g = false /\
            running g = negb (existsb (existsb ends_loop) frames).
Proof.
  destruct (game_loop_inside frames start_game start_inside eq_refl)
    as (g & H & [Hfree Hne] & Hwon & Hrun).
  exists g. repeat split; try assumption. now apply Hrun.
Qed.

End LabyrinthMoves.

(** X2.  A move is made only onto a cell that is inside the grid and is
    not a wall, whatever the step asked for; so from the start cell, and
    whatever events the turns of the loop bring, the loop never fails
    and the player always stands on such a cell. *)
Theorem player_stays_on_free_cells
    (p : labyrinth_game.Player) (dx dy : Z) (frames : list (list labyrinth_game.pg_event)) :
  (free_cell (labyrinth_game.position p) ->
   exists p', labyrinth_game._attempt_move p dx dy = Ok p' /\
              free_cell (labyrinth_game.position p') /\
              (labyrinth_game.position p' = labyrinth_game.position p \/
               labyrinth_game.position p' =
                 (fst (labyrinth_game.position p) + dx,
                  snd (labyrinth_game.position p) + dy)%Z)) /\
  exists g,
    labyrinth_game.game_loop (snd labyrinth_game._find_positions) start_game frames = Ok g /\
    free_cell (labyrinth_game.position (labyrinth_game.player g)).
Proof.
  split; [apply attempt_move_free|].
  destruct (loop_from_start frames) as (g & H & Hfree & _). eauto.
Qed.

(** X3.  The exit cell of the grid is walled in on its four sides: with
    [pygame] available, whatever events the turns bring, the player never
    stands on the exit and [won] is never set; the loop ends exactly
    when a turn brings the closing of the window or the escape key, and
    the message shown is then the one for a game not won. *)
Theorem labyrinth_exit_is_never_reached (frames : list (list labyrinth_game.pg_event)) :
  exists g,
    labyrinth_game.game_loop (snd labyrinth_game._find_positions) start_game frames = Ok g /\
    labyrinth_game.position (labyrinth_game.player g) <> snd labyrinth_game._find_positions /\
    labyrinth_game.won g = false /\
    labyrinth_game.running g = negb (existsb (existsb ends_loop) frames) /\
    labyrinth_game.run_labyrinth_game true frames =
      Ok (if existsb (existsb ends_loop) frames
          then Some "Maybe next time!" else None).
Proof.
  destruct (loop_from_start frames) as (g & H & _ & Hne & Hwon & Hrun).
  exists g. repeat split; try assumption.
  unfold labyrinth_game.run_labyrinth_game. cbn [labyrinth_game._assert_pygame_available rbind].
  change labyrinth_game._find_positions
    with (fst labyrinth_game._find_positions, snd labyrinth_game._find_positions).
  cbv iota beta. fold start_game.
  change (fst labyrinth_game._find_positions, snd labyrinth_game._find_positions)
    with labyrinth_game._find_positions in *.
  rewrite H. cbn [rbind]. rewrite Hrun, Hwon.
  destruct (existsb (existsb ends_loop) frames); reflexivity.
Qed.

(** ** The progress files *)

Lemma length_append (a b : string) :
  String.length (a +:+ b) = String.length a + String.length b.
Proof. induction a as [|c a IH]; simpl; [reflexivity|now rewrite IH]. Qed.

Lemma append_cons (c : ascii) (a b : string) : String c a +:+ b = String c (a +:+ b).
Proof. reflexivity. Qed.

Lemma append_assoc (a b c : string) : (a +:+ b) +:+ c = a +:+ (b +:+ c).
Proof.
  induction a as [|x a IH]; [reflexivity|]. rewrite !append_cons. now f_equal.
Qed.

Lemma append_inj_l (a x y : string) : a +:+ x = a +:+ y -> x = y.
Proof. induction a as [|c a IH]; simpl; [auto|]. intros [= H]. auto. Qed.

Lemma append_inj_r (c a b : string) : a +:+ c = b +:+ c -> a = b.
Proof.
  revert b. induction a as [|x a IH]; intros [|y b] H; simpl in H.
  - reflexivity.
  - apply (f_equal String.length) in H. rewrite !length_append in H. simpl in H. lia.
  - apply (f_equal String.length) in H. rewrite !length_append in H. simpl in H. lia.
  - injection H as -> H. f_equal. auto.
Qed.

Lemma no_separator_in_file_name (student : string) :
  contains "/" (file_name student) = false /\
  String.prefix "/" (file_name student) = false.
Proof.
  unfold file_name.
  assert (H : contains "/" (replace_char "/" "_" student +:+ ".json") = false).
  { induction student as [|c student IH]; [reflexivity|].
    rewrite contains_unfold. cbn [replace_char].
    destruct (Ascii.eqb_spec c "/") as [->|Hne].
    - change (String "_" (replace_char "/" "_" student) +:+ ".json")
        with (String "_" (replace_char "/" "_" student +:+ ".json")).
      cbn beta iota. rewrite IH. reflexivity.
    - change (String c (replace_char "/" "_" student) +:+ ".json")
        with (String c (replace_char "/" "_" student +:+ ".json")).
      cbn beta iota. rewrite IH, orb_false_r. cbn [String.prefix].
      destruct (ascii_dec "/" c) as [<-|]; [congruence|reflexivity]. }
  split; [exact H|].
  rewrite contains_unfold in H. now apply orb_false_iff in H as [H _].
Qed.

Lemma progress_file_form (student data_dir : string) :
  progress_file student data_dir = dir_prefix data_dir +:+ file_name student.
Proof.
  unfold progress_file, path_join, dir_prefix. fold (file_name student).
  rewrite (proj2 (no_separator_in_file_name student)).
  destruct (negb (nonempty data_dir) || ends_with_char "/" data_dir); [reflexivity|].
  now rewrite append_assoc.
Qed.

(** X4.  Whatever the student id (a path such as [../x] included), the
    file of the student lies directly in the data directory: its path is
    the directory, a separator when the directory needs one, and a name
    without separator. *)
Theorem progress_file_stays_in_directory (student data_dir : string) :
  progress_file student data_dir = dir_prefix data_dir +:+ file_name student /\
  contains "/" (file_name student) = false.
Proof.
  split; [apply progress_file_form|apply no_separator_in_file_name].
Qed.

Section Files.
Context `{py : CPython}.

Lemma load_progress_cases (student data_dir : string) (w : world) :
  w_io_ok w data_dir = true ->
  load_progress student data_dir w =
  (match w_files w !! progress_file student data_dir with
   | None => Ok (empty_progress student)
   | Some f =>
       if w_io_ok w (progress_file student data_dir) then
         match f with
         | JsonFile payload => from_dict payload student
         | OtherFile _ => Raise JSONDecodeError
         | BinaryFile => Raise UnicodeDecodeError
         end
       else Raise OSError
   end, w).
Proof.
  intros Hdir.
  unfold load_progress, _progress_path, makedirs, path_exists, read_file, bind, ret,
    lift_result, raise.
  rewrite Hdir. cbn beta iota.
  destruct (w_files w !! progress_file student data_dir) as [f|] eqn:Hf.
  - rewrite bool_decide_eq_true_2 by eauto. cbn [negb]. cbn beta iota. rewrite Hf.
    destruct (w_io_ok w (progress_file student data_dir)); [|reflexivity].
    destruct f; reflexivity.
  - rewrite bool_decide_eq_false_2 by (intros [? ?]; discriminate). reflexivity.
Qed.

Lemma save_progress_fails (p : StudentProgress) (data_dir : string) (w : world) :
  w_io_ok w data_dir = false \/
  w_io_ok w (progress_file (student_id p) data_dir) = false ->
  save_progress p data_dir w = (Raise OSError, w).
Proof.
  unfold save_progress, _progress_path, makedirs, write_file, bind, ret.
  destruct (w_io_ok w data_dir); [|reflexivity]. cbn beta iota.
  intros [?| ->]; [discriminate|reflexivity].
Qed.

End Files.

Lemma unit_result_cases (r : result unit) : r = Ok tt \/ r <> Ok tt.
Proof. destruct r as [[]|e]; [now left|right; discriminate]. Qed.

Section Students.
Context `{py : CPython}.

Lemma progress_file_same (a b data_dir : string) :
  progress_file a data_dir = progress_file b data_dir <->
  replace_char "/" "_" a = replace_char "/" "_" b.
Proof.
  rewrite !progress_file_form. unfold file_name. split.
  - intros H%append_inj_l. now apply append_inj_r in H.
  - now intros ->.
Qed.

Lemma saved_world_files (p : StudentProgress) (data_dir : string) (w : world) :
  w_io_ok (snd (save_progress p data_dir w)) = w_io_ok w /\
  (fst (save_progress p data_dir w) = Ok tt ->
   w_files (snd (save_progress p data_dir w)) =
     <[progress_file (student_id p) data_dir := JsonFile (sort_keys (asdict p))]>
       (w_files w)) /\
  (fst (save_progress p data_dir w) <> Ok tt ->
   snd (save_progress p data_dir w) = w).
Proof.
  unfold save_progress, _progress_path, makedirs, write_file, bind, ret.
  destruct (w_io_ok w data_dir); cbn beta iota;
    [destruct (w_io_ok w (progress_file (student_id p) data_dir))|];
    cbn; repeat split; congruence.
Qed.

End Students.

(** X6.  The file name replaces every separator of the student id by an
    underscore, so two ids that differ only there share one file: after
    the progress of one student is saved, loading the other id returns
    the lists just saved, under the other id. *)
Theorem ids_equal_after_sanitising_share_a_file `{py : CPython}
    (p : StudentProgress) (other data_dir : string) (w : world) :
  replace_char "/" "_" other = replace_char "/" "_" (student_id p) ->
  w_io_ok w data_dir = true ->
  w_io_ok w (progress_file (student_id p) data_dir) = true ->
  fst ((run save_progress p data_dir ; load_progress other data_dir) w) =
    Ok {| student_id := other;
          completed_lessons := sort_keys (completed_lessons p);
          completed_tests := sort_keys (completed_tests p) |}.
Proof.
  intros Hsame%(progress_file_same other (student_id p) data_dir) Hdir Hfile.
  unfold bind at 1. rewrite (save_progress_ok p data_dir w Hdir Hfile).
  rewrite load_progress_cases by exact Hdir. cbn [fst w_files w_io_ok].
  rewrite Hsame, lookup_insert_eq, Hfile, sort_keys_asdict. reflexivity.
Qed.

(** X7.  Saving the progress of one student does not change what
    [load_progress] returns for a student whose id differs from the
    first after the separators are replaced. *)
Theorem saving_leaves_other_students_alone `{py : CPython}
    (p : StudentProgress) (other data_dir : string) (w : world) :
  replace_char "/" "_" other <> replace_char "/" "_" (student_id p) ->
  fst (load_progress other data_dir (snd (save_progress p data_dir w))) =
    fst (load_progress other data_dir w).
Proof.
  intros Hne.
  assert (Hpath : progress_file (student_id p) data_dir <> progress_file other data_dir)
    by (intros H; apply Hne; symmetry; now apply (progress_file_same _ _ data_dir)).
  destruct (saved_world_files p data_dir w) as (Hio & Hok & Hfail).
  destruct (w_io_ok w data_dir) eqn:Hdir.
  - rewrite !load_progress_cases by (rewrite ?Hio; exact Hdir). cbn [fst].
    rewrite Hio.
    destruct (unit_result_cases (fst (save_progress p data_dir w))) as [Hr|Hr].
    + rewrite (Hok Hr), lookup_insert_ne by exact Hpath. reflexivity.
    + now rewrite (Hfail Hr).
  - rewrite Hfail; [reflexivity|].
    rewrite save_progress_fails by (now left). discriminate.
Qed.

(** ** Recording without a usable disk *)

Section NoDisk.
Context `{py : CPython}.

Lemma generate_lesson_world env s g t (w : world) :
  w_io_ok (snd (generate_lesson env s g t w)) = w_io_ok w /\
  w_files (snd (generate_lesson env s g t w)) = w_files w /\
  w_rng (snd (generate_lesson env s g t w)) = w_rng w.
Proof.
  rewrite generate_lesson_cases. destruct (remote_lesson env s g t); repeat split.
Qed.

Lemma open_lesson_unfold env s g t (a : app) :
  _open_lesson env s g t a =
  match generate_lesson env s g t (outside a) with
  | (Raise exc, w') =>
      (Raise exc, {| window := set_current s g t (window a); outside := w' |})
  | (Ok text, w') =>
      let a1 := {| window := set_current_lesson_text text (set_current s g t (window a));
                   outside := w' |} in
      match completed_lessons (progress (window a)) with
      | PList lessons =>
          if existsb (fun e => py_eq e (lesson_entry s g t)) lessons
          then (Ok tt, a1)
          else _persist_progress
                 {| window := set_progress
                                (set_completed_lessons
                                   (PList (lessons ++ [lesson_entry s g t]))
                                   (progress (window a1))) (window a1);
                    outside := w' |}
      | _ => (Raise TypeError, a1)
      end
  end.
Proof.
  unfold _open_lesson, generate_lesson_sync, bind, modify_window, in_world, get_window,
    lift_result, ret.
  cbn [outside window].
  destruct (generate_lesson env s g t (outside a)) as [[text|e] w']; [|reflexivity].
  cbn [fst snd outside window set_current_lesson_text set_current progress].
  destruct (completed_lessons (progress (window a))) as [| | | | |lessons|]; try reflexivity.
  cbn [py_contains]. destruct (existsb _ lessons); reflexivity.
Qed.

Lemma persist_progress_without_disk (a : app) :
  w_io_ok (outside a) DEFAULT_DATA_DIR = false ->
  _persist_progress a =
    (Ok tt, {| window := window a;
               outside := with_log (Error "Failed to save progress: %s" [] OSError)
                                   (outside a) |}).
Proof.
  intros Hdir. unfold _persist_progress, bind, get_window, try_except, in_world.
  rewrite save_progress_fails by (now left). reflexivity.
Qed.

End NoDisk.

(** X9.  A disk that cannot be used does not stop a lesson: when the
    data directory is refused, [_open_lesson] still returns, shows the
    lesson, records it in the progress held in memory, writes no file
    and logs the error of the failed save. *)
Theorem lesson_opens_without_usable_disk `{py : CPython}
    (env : Env) (subject : string) (grade : Z) (topic : string) (a : app)
    (lessons : list pyval) (text : string) :
  w_io_ok (outside a) DEFAULT_DATA_DIR = false ->
  completed_lessons (progress (window a)) = PList lessons ->
  existsb (fun e => py_eq e (lesson_entry subject grade topic)) lessons = false ->
  fst (generate_lesson env subject grade topic (outside a)) = Ok text ->
  fst (_open_lesson env subject grade topic a) = Ok tt /\
  completed_lessons (progress (window (snd (_open_lesson env subject grade topic a)))) =
    PList (lessons ++ [lesson_entry subject grade topic]) /\
  current_lesson_text (window (snd (_open_lesson env subject grade topic a))) = text /\
  w_files (outside (snd (_open_lesson env subject grade topic a))) = w_files (outside a) /\
  w_log (outside (snd (_open_lesson env subject grade topic a))) =
    (w_log (snd (generate_lesson env subject grade topic (outside a))) ++
     [Error "Failed to save progress: %s" [] OSError])%list.
Proof.
  intros Hdir Hlessons Hnew Htext.
  destruct (generate_lesson_world env subject grade topic (outside a)) as (Hio & Hfiles & _).
  rewrite open_lesson_unfold.
  destruct (generate_lesson env subject grade topic (outside a)) as [r w'].
  cbn [fst snd] in *. subst r. cbn zeta. rewrite Hlessons, Hnew.
  rewrite persist_progress_without_disk by (cbn [outside]; congruence).
  cbn. repeat split. exact Hfiles.
Qed.

(** ** The navigation helpers and the table *)

Lemma table_triples_offered (subject : string) (grade : Z) (topic : string) :
  in_local_content subject grade topic = true ->
  In grade get_available_grades /\
  In subject (get_subjects_for_grade grade) /\
  In topic (get_topics subject grade).
Proof.
  unfold in_local_content.
  destruct (lookup_content subject grade topic) as [c|] eqn:Hc; [intros _|discriminate].
  apply lookup_content_entry in Hc. cbn in Hc.
  repeat (destruct Hc as [Hc|Hc]; [injection Hc as <- <- <- _; vm_compute; tauto|]).
  contradiction.
Qed.

Lemma Sorted_leb_merge_sort (l : list string) :
  Sorted (fun a b : string => String.leb a b = true) (sorted_str l).
Proof.
  assert (Htotal : Total (fun a b : string => Is_true (String.leb a b))).
  { intros a b. destruct (String.leb_total a b) as [->| ->]; [left|right]; exact I. }
  unfold sorted_str.
  pose proof (Sorted_merge_sort (fun a b : string => Is_true (String.leb a b)) l) as H.
  induction H as [|x l' _ IH Hhd]; constructor; [exact IH|].
  destruct Hhd; constructor. now apply Is_true_true.
Qed.

(** X10.  The navigation helpers offer exactly the triples of the table:
    a triple is in [LOCAL_CONTENT] if and only if its grade is among the
    available grades, its subject among the subjects of the grade and its
    topic among the topics of the two.  For a subject or a grade that the
    table does not hold, [get_topics] returns the empty list and raises
    nothing; the lists of subjects and topics come in order. *)
Theorem helpers_offer_exactly_the_table (subject : string) (grade : Z) (topic : string) :
  (in_local_content subject grade topic = true <->
   In grade get_available_grades /\
   In subject (get_subjects_for_grade grade) /\
   In topic (get_topics subject grade)) /\
  (dict_get subject LOCAL_CONTENT = None -> get_topics subject grade = []) /\
  (forall subject_data, dict_get subject LOCAL_CONTENT = Some subject_data ->
     dict_get grade subject_data = None -> get_topics subject grade = []) /\
  Sorted (fun a b : string => String.leb a b = true) (get_topics subject grade) /\
  Sorted (fun a b : string => String.leb a b = true) (get_subjects_for_grade grade).
Proof.
  split; [split|].
  - apply table_triples_offered.
  - intros (_ & _ & Ht). now apply get_topics_present.
  - split; [|split; [|split]].
    + intros Hs. unfold get_topics, dict_get_default. now rewrite Hs.
    + intros sd Hs Hg. unfold get_topics, dict_get_default. rewrite Hs. cbn.
      now rewrite Hg.
    + apply Sorted_leb_merge_sort.
    + apply Sorted_leb_merge_sort.
Qed.

(** ** More on the remote answers *)

Section RemoteAnswers.
Context `{py : CPython}.

Lemma parse_exercises_nonempty doc exercises :
  parse_exercises doc = Ok exercises -> exercises <> [].
Proof.
  unfold parse_exercises. destruct doc; try discriminate.
  destruct (parse_entries items []) as [[|e parsed]|]; cbn; try discriminate.
  now intros [= <-].
Qed.

Lemma remote_exercises_nonempty env s g t exercises :
  remote_exercises env s g t = Ok exercises -> exercises <> [].
Proof.
  unfold remote_exercises.
  destruct (_request_from_gemini env _) as [v|]; [cbn|discriminate].
  destruct (py_json_loads v) as [doc|]; [cbn|discriminate].
  apply parse_exercises_nonempty.
Qed.

Lemma generate_local_exercises_nonempty s g t (w : world) exercises :
  fst (generate_local_exercises s g t w) = Ok exercises -> exercises <> [].
Proof.
  rewrite generate_local_exercises_unfold.
  destruct (_select_content s g t) as [c|]; [|discriminate].
  destruct (dict_item "concept" c) as [concept|]; [|discriminate].
  destruct (random_shuffle_ok (base_questions s t concept) w) as (x & st & -> & Hperm).
  cbn. intros [= <-] Hnil%map_eq_nil. subst x.
  destruct (base_questions_nonempty s t concept) as [Hne _].
  apply Hne. symmetry in Hperm. now apply Permutation_nil_r in Hperm.
Qed.

Lemma parse_entries_rejects (entries : list pyval) :
  existsb (fun v => negb (is_object v)) entries = true ->
  forall parsed,
    parse_entries entries parsed = Raise (ValueError "Exercise entry must be a dict").
Proof.
  induction entries as [|v entries IH]; [discriminate|].
  intros H parsed. destruct v; try reflexivity.
  cbn in H. cbn [parse_entries]. now apply IH.
Qed.

Lemma generate_exercises_nonempty env s g t (w : world) exercises :
  fst (generate_exercises env s g t w) = Ok exercises -> exercises <> [].
Proof.
  rewrite generate_exercises_cases.
  destruct (remote_exercises env s g t) as [remote|exc] eqn:Hremote.
  - intros [= <-]. exact (remote_exercises_nonempty _ _ _ _ _ Hremote).
  - apply generate_local_exercises_nonempty.
Qed.

Lemma generate_exercises_raises env s g t (w : world) exc :
  fst (generate_exercises env s g t w) = Raise exc ->
  exc = KeyError (no_content_message s g t).
Proof.
  rewrite generate_exercises_cases.
  destruct (remote_exercises env s g t); [discriminate|].
  intros H. now apply generate_local_exercises_raises in H.
Qed.

End RemoteAnswers.

(** X11.  [generate_exercises] never returns an empty list: the remote
    branch raises when no exercise is kept and the local one shuffles a
    list of two or three questions.  The test for an empty quiz in
    [_start_test] therefore never holds. *)
Theorem generate_exercises_never_returns_empty `{py : CPython}
    (env : Env) (subject : string) (grade : Z) (topic : string) (w : world)
    (exercises : list exercise) :
  fst (generate_exercises env subject grade topic w) = Ok exercises ->
  exercises <> [].
Proof.
  rewrite generate_exercises_cases.
  destruct (remote_exercises env subject grade topic) as [remote|exc] eqn:Hremote.
  - intros [= <-]. exact (remote_exercises_nonempty _ _ _ _ _ Hremote).
  - apply generate_local_exercises_nonempty.
Qed.

(** X12.  The remote list is taken whole or not at all: when the text is
    a JSON array with one element that is not an object, the operation
    uses the local generator, whatever the other elements are. *)
Theorem one_bad_entry_discards_remote_exercises `{py : CPython}
    (env : Env) (subject : string) (grade : Z) (topic : string) (w : world)
    (text : string) (entries : list pyval) :
  _request_from_gemini env (exercises_prompt subject grade topic) = Ok (PStr text) ->
  json_loads text = Some (PList entries) ->
  existsb (fun v => negb (is_object v)) entries = true ->
  generate_exercises env subject grade topic w =
    generate_local_exercises subject grade topic
      (with_log (exercises_warning subject grade
                   (ValueError "Exercise entry must be a dict")) w).
Proof.
  intros Hreq Hdoc Hbad. rewrite generate_exercises_cases. unfold remote_exercises.
  rewrite Hreq. cbn [rbind py_json_loads]. rewrite Hdoc. cbn [rbind parse_exercises].
  now rewrite parse_entries_rejects.
Qed.

(** X13.  An entry whose ["question"] is [null], [true] or [false] is
    not dropped: [str] turns the value into the text [None], [True] or
    [False], which becomes the question of the exercise. *)
Theorem null_question_becomes_text `{py : CPython}
    (entry : list (string * pyval)) (v : pyval) :
  dict_get "question" entry = Some v ->
  v = PNone \/ (exists b, v = PBool b) ->
  exists exercise,
    parse_exercises (PList [PDict entry]) = Ok [exercise] /\
    question exercise = py_str v /\
    In (question exercise) ["None"; "True"; "False"].
Proof.
  intros Hq Hv.
  assert (Hstr : strip (py_str v) = py_str v /\ nonempty (py_str v) = true /\
                 In (py_str v) ["None"; "True"; "False"]).
  { destruct Hv as [->|[[|] ->]]; cbn; tauto. }
  destruct Hstr as (Hstrip & Hne & Hin).
  exists (exercise_of_entry entry).
  assert (Hquestion : entry_question entry = py_str v).
  { unfold entry_question, dict_get_default. rewrite Hq. exact Hstrip. }
  rewrite (parse_exercises_dicts [entry]). unfold kept_exercises. cbn [List.filter].
  unfold usable_question. rewrite Hquestion, Hne. cbn [map].
  split; [reflexivity|]. cbn [question exercise_of_entry]. rewrite Hquestion. auto.
Qed.

(** ** The quiz page *)

Section Quiz.
Context `{py : CPython}.

Lemma answer_question_returns env q ctx ans (w : world) :
  exists text w',
    answer_question env q ctx ans w = (Ok text, w') /\
    w_files w' = w_files w /\ w_io_ok w' = w_io_ok w /\ w_rng w' = w_rng w.
Proof.
  rewrite answer_question_cases. destruct (remote_answer env q ctx ans); eauto 10.
Qed.

(** What a click on the submit button does when the page holds
    exercises and the index is in range. *)
Lemma handle_submit_effect env (s : gui) :
  _exercises (test_page s) <> [] ->
  (0 <= _index (test_page s) < Z.of_nat (length (_exercises (test_page s))))%Z ->
  exists exercise,
    list_item (_exercises (test_page s)) (_index (test_page s)) = Ok exercise /\
    fst (_handle_submit env s) = Ok tt /\
    window (the_app (snd (_handle_submit env s))) = window (the_app s) /\
    _exercises (test_page (snd (_handle_submit env s))) = _exercises (test_page s) /\
    _index (test_page (snd (_handle_submit env s))) = _index (test_page s) /\
    _score (test_page (snd (_handle_submit env s))) =
      (_score (test_page s) +
       if is_correct exercise (answer_input (test_page s)) then 1 else 0)%Z.
Proof.
  intros Hne Hidx.
  destruct (list_item_in_range _ _ Hidx) as (exercise & Hitem & _).
  exists exercise. split; [exact Hitem|].
  unfold _handle_submit, bind, get_test_page, lift_result, modify_test_page, in_app,
    in_world, answer_question_sync.
  destruct (_exercises (test_page s)) as [|e0 es] eqn:Hex; [congruence|].
  rewrite Hitem. cbn beta iota.
  destruct (is_correct exercise (answer_input (test_page s))).
  - cbn. rewrite Hex. repeat split; lia.
  - destruct (answer_question_returns env (question exercise)
                (_lesson_context (test_page s)) (strip (answer_input (test_page s)))
                (outside (the_app s))) as (text & w' & -> & _).
    cbn. rewrite Hex. repeat split; lia.
Qed.

Lemma handle_submit_empty env (s : gui) :
  _exercises (test_page s) = [] -> _handle_submit env s = (Ok tt, s).
Proof.
  intros Hex. unfold _handle_submit, bind, get_test_page, ret. cbn beta iota.
  now rewrite Hex.
Qed.

Lemma display_current_question_effect (s : gui) :
  _exercises (test_page s) <> [] ->
  (0 <= _index (test_page s) < Z.of_nat (length (_exercises (test_page s))))%Z ->
  exists exercise,
    list_item (_exercises (test_page s)) (_index (test_page s)) = Ok exercise /\
    _display_current_question s =
      (Ok tt,
       {| the_app := the_app s;
          test_page :=
            set_feedback_box ""
              (set_answer_input ""
                 (set_labels (question exercise) ("Hint: " +:+ hint exercise)
                    (test_page s))) |}).
Proof.
  intros Hne Hidx.
  destruct (list_item_in_range _ _ Hidx) as (exercise & Hitem & _).
  exists exercise. split; [exact Hitem|].
  unfold _display_current_question, bind, get_test_page, lift_result, modify_test_page.
  cbn beta iota.
  destruct (_exercises (test_page s)) as [|e0 es] eqn:Hex; [congruence|].
  now rewrite Hitem.
Qed.

(** What a click on the next button does before the last question. *)
Lemma handle_next_advances (s : gui) :
  (0 <= _index (test_page s) < Z.of_nat (length (_exercises (test_page s))) - 1)%Z ->
  fst (_handle_next s) = Ok tt /\
  the_app (snd (_handle_next s)) = the_app s /\
  _exercises (test_page (snd (_handle_next s))) = _exercises (test_page s) /\
  _index (test_page (snd (_handle_next s))) = (_index (test_page s) + 1)%Z /\
  _score (test_page (snd (_handle_next s))) = _score (test_page s).
Proof.
  intros Hidx.
  unfold _handle_next, bind, get_test_page, modify_test_page. cbn beta iota.
  destruct (_exercises (test_page s)) as [|e0 es] eqn:Hex; [cbn in Hidx; lia|].
  rewrite <- Hex in *.
  destruct (Z.ltb_spec (_index (test_page s))
              (Z.of_nat (length (_exercises (test_page s))) - 1)); [|lia].
  set (s1 := {| the_app := the_app s;
                test_page := set_index (_index (test_page s) + 1) (test_page s) |}).
  destruct (display_current_question_effect s1) as (exercise & _ & Hdisp).
  - cbn. congruence.
  - cbn. lia.
  - cbn beta iota. fold s1. rewrite Hdisp. cbn. auto.
Qed.

(** What a click on the next button does on the last question. *)
Lemma handle_next_completes (s : gui) :
  _exercises (test_page s) <> [] ->
  (Z.of_nat (length (_exercises (test_page s))) - 1 <= _index (test_page s))%Z ->
  _handle_next s =
    in_app (_record_test (_score (test_page s))
                         (Z.of_nat (length (_exercises (test_page s))))) s.
Proof.
  intros Hne Hidx.
  unfold _handle_next, bind, get_test_page. cbn beta iota.
  destruct (_exercises (test_page s)) as [|e0 es] eqn:Hex; [congruence|].
  rewrite <- Hex in *.
  destruct (Z.ltb_spec (_index (test_page s))
              (Z.of_nat (length (_exercises (test_page s))) - 1)); [lia|].
  reflexivity.
Qed.

Lemma handle_next_empty (s : gui) :
  _exercises (test_page s) = [] -> _handle_next s = (Ok tt, s).
Proof.
  intros Hex. unfold _handle_next, bind, get_test_page, ret. cbn beta iota.
  now rewrite Hex.
Qed.

Lemma in_app_test_page {A} (m : M app A) (s : gui) :
  test_page (snd (in_app m s)) = test_page s.
Proof. unfold in_app. now destruct (m (the_app s)). Qed.

Lemma record_test_result score total (a : app) :
  fst (_record_test score total a) = Ok tt \/
  fst (_record_test score total a) = Raise AttributeError.
Proof.
  unfold _record_test, bind, get_window, lift_result, modify_window, ret.
  cbn beta iota.
  destruct (current_triple (window a)) as [[[subject grade] topic]|]; [|now left].
  destruct (completed_tests (progress (window a))); try (now right).
  left. cbn [py_append]. cbn beta iota. apply (proj1 (persist_progress_window _)).
Qed.

Lemma start_test_unfold env (s : gui) :
  _start_test env s =
  match current_triple (window (the_app s)) with
  | None => (Ok tt, s)
  | Some (subject, grade, topic) =>
      match generate_exercises env subject grade topic (outside (the_app s)) with
      | (Raise exc, w') =>
          (Raise exc, {| the_app := {| window := window (the_app s); outside := w' |};
                         test_page := test_page s |})
      | (Ok [], w') =>
          (Ok tt, {| the_app := {| window := window (the_app s); outside := w' |};
                     test_page := test_page s |})
      | (Ok exercises, w') =>
          load_exercises exercises (current_lesson_text (window (the_app s)))
            {| the_app := {| window := window (the_app s); outside := w' |};
               test_page := test_page s |}
      end
  end.
Proof.
  destruct s as [a tp].
  unfold _start_test, bind, in_app, get_window, in_world, generate_exercises_sync, ret.
  cbn -[generate_exercises load_exercises current_triple].
  destruct (current_triple (window a)) as [[[subject grade] topic]|]; [|reflexivity].
  cbn -[generate_exercises load_exercises current_triple].
  destruct (generate_exercises env subject grade topic (outside a)) as [[[|e0 es]|exc] w'];
    reflexivity.
Qed.

Lemma load_exercises_effect exercises lesson_context (s : gui) :
  exercises <> [] ->
  fst (load_exercises exercises lesson_context s) = Ok tt /\
  the_app (snd (load_exercises exercises lesson_context s)) = the_app s /\
  _exercises (test_page (snd (load_exercises exercises lesson_context s))) = exercises /\
  _index (test_page (snd (load_exercises exercises lesson_context s))) = 0%Z /\
  _score (test_page (snd (load_exercises exercises lesson_context s))) = 0%Z /\
  _lesson_context (test_page (snd (load_exercises exercises lesson_context s))) =
    lesson_context.
Proof.
  intros Hne. unfold load_exercises, bind, modify_test_page. cbn beta iota.
  match goal with |- context [_display_current_question ?s1] =>
    destruct (display_current_question_effect s1) as (exercise & _ & ->);
      [exact Hne|cbn; destruct exercises; [congruence|cbn; lia]|]
  end.
  cbn. repeat split.
Qed.

(** What [_start_test] does to the page: nothing, or a fresh list of
    exercises that is not empty, shown from its first question. *)
Lemma start_test_page env (s : gui) :
  (test_page (snd (_start_test env s)) = test_page s /\
   (fst (_start_test env s) = Ok tt \/
    exists msg, fst (_start_test env s) = Raise (KeyError msg))) \/
  (fst (_start_test env s) = Ok tt /\
   _exercises (test_page (snd (_start_test env s))) <> [] /\
   _index (test_page (snd (_start_test env s))) = 0%Z /\
   _score (test_page (snd (_start_test env s))) = 0%Z).
Proof.
  rewrite start_test_unfold.
  destruct (current_triple (window (the_app s))) as [[[subject grade] topic]|];
    [|left; split; [reflexivity|now left]].
  pose proof (generate_exercises_nonempty env subject grade topic
                (outside (the_app s))) as Hne.
  pose proof (generate_exercises_raises env subject grade topic
                (outside (the_app s))) as Hkey.
  destruct (generate_exercises env subject grade topic (outside (the_app s)))
    as [[exercises|exc] w']; cbn [fst snd] in *.
  - destruct exercises as [|e0 es]; [now destruct (Hne [] eq_refl)|].
    right.
    match goal with |- context [load_exercises ?x ?c ?s1] =>
      destruct (load_exercises_effect x c s1 ltac:(discriminate))
        as (Hr & _ & Hex & Hidx & Hscore & _)
    end.
    rewrite Hex. repeat split; try assumption. discriminate.
  - left. split; [reflexivity|]. right. rewrite (Hkey exc eq_refl). eauto.
Qed.

End Quiz.

Section QuizRuns.
Context `{py : CPython}.

Lemma in_app_fst {A} (m : M app A) (s : gui) :
  fst (in_app m s) = fst (m (the_app s)).
Proof. unfold in_app. now destruct (m (the_app s)). Qed.

Lemma in_app_the_app {A} (m : M app A) (s : gui) :
  the_app (snd (in_app m s)) = snd (m (the_app s)).
Proof. unfold in_app. now destruct (m (the_app s)). Qed.

(** What one event does to the page: the exercises and the index stay
    usable, and the score stays or grows by one on a submit, or starts
    again at zero with a new quiz. *)
Lemma gui_handle_page (e : gui_event) (s : gui) :
  page_ok (test_page s) ->
  page_ok (test_page (snd (gui_handle e s))) /\
  (_score (test_page (snd (gui_handle e s))) = _score (test_page s) \/
   (is_submit e = true /\
    _score (test_page (snd (gui_handle e s))) = (_score (test_page s) + 1)%Z) \/
   _score (test_page (snd (gui_handle e s))) = 0%Z).
Proof.
  intros Hok. destruct e as [name|env subject grade topic|env|text|env|]; cbn [gui_handle].
  - rewrite in_app_test_page. auto.
  - rewrite in_app_test_page. auto.
  - destruct (start_test_page env s) as [[-> _]|(_ & Hne & Hidx & Hscore)]; [auto|].
    split; [|auto]. right. rewrite Hidx.
    destruct (_exercises (test_page (snd (_start_test env s)))); [congruence|cbn; lia].
  - cbn. auto.
  - destruct Hok as [Hempty|Hidx].
    + rewrite (handle_submit_empty env s Hempty). cbn. split; [now left|auto].
    + assert (Hne : _exercises (test_page s) <> [])
        by (intros H; rewrite H in Hidx; cbn in Hidx; lia).
      destruct (handle_submit_effect env s Hne Hidx)
        as (exercise & _ & _ & _ & Hex & Hi & Hscore).
      split; [right; now rewrite Hex, Hi|].
      rewrite Hscore. destruct (is_correct exercise (answer_input (test_page s)));
        [right; left; auto|left; lia].
  - destruct Hok as [Hempty|Hidx].
    + rewrite (handle_next_empty s Hempty). cbn. split; [now left|auto].
    + assert (Hne : _exercises (test_page s) <> [])
        by (intros H; rewrite H in Hidx; cbn in Hidx; lia).
      destruct (Z.lt_ge_cases (_index (test_page s))
                  (Z.of_nat (length (_exercises (test_page s))) - 1)) as [Hlt|Hge].
      * destruct (handle_next_advances s ltac:(lia)) as (_ & _ & Hex & Hi & Hscore).
        split; [right; rewrite Hex, Hi; lia|auto].
      * rewrite (handle_next_completes s Hne Hge), in_app_test_page.
        split; [now right|auto].
Qed.

Lemma gui_run_page (events : list gui_event) :
  forall s : gui,
    page_ok (test_page s) -> (0 <= _score (test_page s))%Z ->
    page_ok (test_page (gui_run events s)) /\
    (0 <= _score (test_page (gui_run events s))
       <= _score (test_page s) + Z.of_nat (length (List.filter is_submit events)))%Z.
Proof.
  induction events as [|e events IH]; intros s Hok Hscore.
  - cbn. split; [exact Hok|lia].
  - destruct (gui_handle_page e s Hok) as [Hok1 Hs1].
    cbn [gui_run].
    destruct (IH (snd (gui_handle e s)) Hok1) as [Hok2 Hs2].
    + destruct Hs1 as [->|[[_ ->]| ->]]; lia.
    + split; [exact Hok2|]. cbn [List.filter].
      destruct Hs1 as [H1|[[Hsub H1]|H1]]; rewrite H1 in Hs2.
      * destruct (is_submit e); cbn [length]; lia.
      * rewrite Hsub. cbn [length]. lia.
      * destruct (is_submit e); cbn [length]; lia.
Qed.

Lemma submit_and_next_results env (s : gui) :
  page_ok (test_page s) ->
  fst (gui_handle (SubmitClicked env) s) = Ok tt /\
  (fst (gui_handle NextClicked s) = Ok tt \/
   fst (gui_handle NextClicked s) = Raise AttributeError).
Proof.
  intros [Hempty|Hidx]; cbn [gui_handle].
  - rewrite (handle_submit_empty env s Hempty), (handle_next_empty s Hempty). auto.
  - assert (Hne : _exercises (test_page s) <> [])
      by (intros H; rewrite H in Hidx; cbn in Hidx; lia).
    destruct (handle_submit_effect env s Hne Hidx) as (exercise & _ & Hr & _).
    split; [exact Hr|].
    destruct (Z.lt_ge_cases (_index (test_page s))
                (Z.of_nat (length (_exercises (test_page s))) - 1)) as [Hlt|Hge].
    + left. apply (handle_next_advances s). lia.
    + rewrite (handle_next_completes s Hne Hge), in_app_fst.
      apply record_test_result.
Qed.

End QuizRuns.

(** X14.  On the quiz page the index always points at one of the
    exercises, whatever the user does and in whatever order: no event
    makes [self._exercises[self._index]] fail.  A click on the submit
    button always returns, and a click on the next button returns or
    raises the [AttributeError] of a list of tests that is not a list. *)
Theorem quiz_index_stays_in_range `{py : CPython}
    (events : list gui_event) (s : gui) (env : Env) :
  page_ok (test_page s) ->
  page_ok (test_page (gui_run events s)) /\
  fst (gui_handle (SubmitClicked env) (gui_run events s)) = Ok tt /\
  (fst (gui_handle NextClicked (gui_run events s)) = Ok tt \/
   fst (gui_handle NextClicked (gui_run events s)) = Raise AttributeError).
Proof.
  intros Hok.
  assert (Hrun : forall (es : list gui_event) (s0 : gui),
             page_ok (test_page s0) -> page_ok (test_page (gui_run es s0))).
  { induction es as [|e es IH]; intros s0 H0; [exact H0|].
    cbn [gui_run]. apply IH. now apply gui_handle_page. }
  split; [now apply Hrun|]. apply submit_and_next_results. now apply Hrun.
Qed.

(** X15.  The score never goes below zero and grows by at most one with
    each click on the submit button: after any events it is at most the
    score before plus the number of submits among them.  The number of
    exercises is no bound. *)
Theorem score_counts_submits `{py : CPython} (events : list gui_event) (s : gui) :
  page_ok (test_page s) ->
  (0 <= _score (test_page s))%Z ->
  (0 <= _score (test_page (gui_run events s))
     <= _score (test_page s) + Z.of_nat (length (List.filter is_submit events)))%Z.
Proof. intros Hok Hscore. now apply gui_run_page. Qed.

Section QuizScore.
Context `{py : CPython}.

Lemma repeated_submits_count env typed exercise (k : nat) :
  forall s : gui,
    _exercises (test_page s) = [exercise] ->
    _index (test_page s) = 0%Z ->
    is_correct exercise typed = true ->
    let s' := gui_run (repeated_submits env typed k) s in
    window (the_app s') = window (the_app s) /\
    _exercises (test_page s') = [exercise] /\
    _index (test_page s') = 0%Z /\
    _score (test_page s') = (_score (test_page s) + Z.of_nat k)%Z.
Proof.
  induction k as [|k IH]; intros s Hex Hidx Hcorrect.
  - cbn. repeat split; try assumption. lia.
  - cbn [repeated_submits gui_run gui_handle].
    set (s1 := snd (modify_test_page (set_answer_input typed) s)).
    assert (Hex1 : _exercises (test_page s1) = [exercise]) by exact Hex.
    assert (Hidx1 : _index (test_page s1) = 0%Z) by exact Hidx.
    destruct (handle_submit_effect env s1) as (ex & Hitem & _ & Hw & Hex2 & Hidx2 & Hscore).
    + rewrite Hex1. discriminate.
    + rewrite Hex1, Hidx1. cbn. lia.
    + rewrite Hex1, Hidx1 in Hitem. injection Hitem as <-.
      change (answer_input (test_page s1)) with typed in Hscore.
      rewrite Hcorrect in Hscore.
      destruct (IH (snd (_handle_submit env s1))) as (Hw3 & Hex3 & Hidx3 & Hscore3);
        [congruence|congruence|assumption|].
      cbn zeta. rewrite Hw3, Hex3, Hidx3, Hscore3, Hw, Hscore.
      repeat split. change (_score (test_page s1)) with (_score (test_page s)). lia.
Qed.

Lemma on_quiz_page_run (events : list gui_event) :
  forall s : gui,
    forallb on_quiz_page events = true ->
    _exercises (test_page s) <> [] ->
    (0 <= _index (test_page s))%Z ->
    (_index (test_page s) + Z.of_nat (length (List.filter is_next events))
       <= Z.of_nat (length (_exercises (test_page s))) - 1)%Z ->
    window (the_app (gui_run events s)) = window (the_app s) /\
    _exercises (test_page (gui_run events s)) = _exercises (test_page s) /\
    _index (test_page (gui_run events s)) =
      (_index (test_page s) + Z.of_nat (length (List.filter is_next events)))%Z.
Proof.
  induction events as [|e events IH]; intros s Hquiz Hne Hidx Hcount.
  - cbn. repeat split. lia.
  - cbn [forallb] in Hquiz. apply andb_true_iff in Hquiz as [He Hquiz].
    cbn [gui_run List.filter].
    assert (Hrange : (0 <= _index (test_page s)
                        < Z.of_nat (length (_exercises (test_page s))))%Z)
      by (cbn [List.filter] in Hcount; destruct (is_next e); cbn in Hcount; lia).
    destruct e as [name|env subject grade topic|env|text|env|]; try discriminate;
      cbn [is_next gui_handle List.filter length] in *.
    + destruct (IH (snd (modify_test_page (set_answer_input text) s)) Hquiz Hne Hidx Hcount)
        as (Hw & Hex & Hi).
      rewrite Hw, Hex, Hi. repeat split.
    + destruct (handle_submit_effect env s Hne Hrange)
        as (exercise & _ & _ & Hw1 & Hex1 & Hi1 & _).
      destruct (IH (snd (_handle_submit env s)) Hquiz) as (Hw & Hex & Hi);
        [congruence|lia|rewrite Hex1, Hi1; exact Hcount|].
      rewrite Hw, Hex, Hi, Hw1, Hex1, Hi1. repeat split.
    + destruct (handle_next_advances s ltac:(lia)) as (_ & Happ & Hex1 & Hi1 & _).
      destruct (IH (snd (_handle_next s)) Hquiz) as (Hw & Hex & Hi);
        [congruence|lia|rewrite Hex1, Hi1; lia|].
      rewrite Hw, Hex, Hi, Happ, Hex1, Hi1. cbn [length]. repeat split. lia.
Qed.

End QuizScore.

(** X16.  A correct answer submitted again counts again: with a lesson
    open and a quiz of one exercise loaded, typing a correct answer and
    submitting it [k] times and then asking for the next question records
    a test of score [k] out of 1. *)
Theorem repeated_correct_answer_counts_each_time `{py : CPython}
    (env : Env) (exercise : exercise) (typed lesson_context : string) (k : nat)
    (s : gui) (subject : string) (grade : Z) (topic : string) (tests : list pyval) :
  is_correct exercise typed = true ->
  current_triple (window (the_app s)) = Some (subject, grade, topic) ->
  completed_tests (progress (window (the_app s))) = PList tests ->
  completed_tests
    (progress (window (the_app
       (gui_run (repeated_submits env typed k ++ [NextClicked])
                (snd (load_exercises [exercise] lesson_context s)))))) =
  PList (tests ++ [test_entry subject grade topic (Z.of_nat k) 1]).
Proof.
  intros Hcorrect Hcur Htests.
  destruct (load_exercises_effect [exercise] lesson_context s ltac:(discriminate))
    as (_ & Happ & Hex & Hidx & Hscore & _).
  set (s1 := snd (load_exercises [exercise] lesson_context s)) in *.
  assert (Hrun : forall es1 es2 (s0 : gui),
             gui_run (es1 ++ es2) s0 = gui_run es2 (gui_run es1 s0)).
  { induction es1 as [|e es1 IH]; intros es2 s0; [reflexivity|]. cbn. apply IH. }
  rewrite Hrun.
  destruct (repeated_submits_count env typed exercise k s1 Hex Hidx Hcorrect)
    as (Hw & Hex2 & Hidx2 & Hscore2).
  set (s2 := gui_run (repeated_submits env typed k) s1) in *.
  cbn [gui_run gui_handle].
  rewrite (handle_next_completes s2) by (rewrite ?Hex2, ?Hidx2; cbn; (discriminate || lia)).
  rewrite in_app_the_app, record_test_window.
  rewrite Hw, Happ, Hcur, Htests, Hex2, Hscore2, Hscore. reflexivity.
Qed.

(** X17.  The quiz is completed by the click on the next button that
    follows the last question, and by no earlier one: while the user
    types, submits and asks for the next question fewer times than there
    are questions left, the index is the number of those clicks further
    and the window, its progress included, is as it was; on the last
    question the click calls [_record_test] with the score and the
    number of exercises. *)
Theorem quiz_completes_after_last_question `{py : CPython}
    (events : list gui_event) (s : gui) :
  forallb on_quiz_page events = true ->
  _exercises (test_page s) <> [] ->
  (0 <= _index (test_page s))%Z ->
  (_index (test_page s) + Z.of_nat (length (List.filter is_next events))
     <= Z.of_nat (length (_exercises (test_page s))) - 1)%Z ->
  window (the_app (gui_run events s)) = window (the_app s) /\
  _exercises (test_page (gui_run events s)) = _exercises (test_page s) /\
  _index (test_page (gui_run events s)) =
    (_index (test_page s) + Z.of_nat (length (List.filter is_next events)))%Z /\
  (_index (test_page (gui_run events s)) =
     (Z.of_nat (length (_exercises (test_page s))) - 1)%Z ->
   gui_handle NextClicked (gui_run events s) =
     in_app (_record_test (_score (test_page (gui_run events s)))
                          (Z.of_nat (length (_exercises (test_page s)))))
            (gui_run events s)).
Proof.
  intros Hquiz Hne Hidx Hcount.
  destruct (on_quiz_page_run events s Hquiz Hne Hidx Hcount) as (Hw & Hex & Hi).
  repeat split; try assumption.
  intros Hlast. cbn [gui_handle]. rewrite handle_next_completes; rewrite ?Hex; try assumption.
  - reflexivity.
  - lia.
Qed.

(** X18.  A remote exercise whose entry has no ["expected_answer"], or
    one that is empty once stripped, cannot be answered correctly:
    whatever is typed, the answer is not accepted. *)
Theorem exercise_without_expected_answer_is_never_correct `{py : CPython}
    (entry : list (string * pyval)) (typed : string) :
  dict_get "expected_answer" entry = None \/
  (exists text, dict_get "expected_answer" entry = Some (PStr text) /\ strip text = "") ->
  is_correct (exercise_of_entry entry) typed = false.
Proof.
  intros H.
  assert (Hexp : expected_answer (exercise_of_entry entry) = "").
  { cbn [exercise_of_entry expected_answer]. unfold dict_get_default.
    destruct H as [->|(text & -> & Htext)]; [reflexivity|exact Htext]. }
  unfold is_correct. rewrite Hexp. reflexivity.
Qed.

(** ** A session and the next one *)

Lemma py_eq_refl (v : pyval) : py_wf v = true -> py_eq v v = true.
Proof.
  induction v as [|b|n|x|s|l IH|d IH] using pyval_ind'; intros Hwf.
  - reflexivity.
  - now destruct b.
  - cbn. apply Z.eqb_refl.
  - exact Hwf.
  - cbn. apply String.eqb_refl.
  - rewrite py_eq_list. cbn [py_wf] in Hwf.
    induction IH as [|x l Hx _ IHl]; [reflexivity|].
    cbn in Hwf. apply andb_true_iff in Hwf as [Hwx Hwl].
    cbn. now rewrite (Hx Hwx), (IHl Hwl).
  - rewrite py_eq_dict, Nat.eqb_refl. cbn [andb].
    cbn [py_wf] in Hwf. apply andb_true_iff in Hwf as [Hnd Hwf].
    apply bool_decide_eq_true in Hnd. rewrite forallb_forall in Hwf.
    rewrite Forall_forall in IH. apply forallb_forall. intros [k x] Hin. cbn.
    rewrite (dict_get_NoDup k x d Hnd Hin).
    apply (IH (k, x)); [now apply list_elem_of_In|exact (Hwf _ Hin)].
Qed.

Lemma py_wf_sort_keys (v : pyval) : py_wf v = true -> py_wf (sort_keys v) = true.
Proof.
  induction v as [|b|n|x|s|l IH|d IH] using pyval_ind'; intros Hwf; try exact Hwf.
  - change (sort_keys (PList l)) with (PList (map sort_keys l)). cbn [py_wf] in *.
    induction IH as [|x l Hx _ IHl]; [reflexivity|].
    cbn in Hwf. apply andb_true_iff in Hwf as [Hwx Hwl].
    cbn. now rewrite (Hx Hwx), (IHl Hwl).
  - rewrite sort_keys_dict. cbn [py_wf] in *.
    apply andb_true_iff in Hwf as [Hnd Hwf].
    apply bool_decide_eq_true in Hnd. rewrite forallb_forall in Hwf.
    rewrite Forall_forall in IH.
    apply andb_true_iff. split.
    + apply bool_decide_eq_true. now rewrite sorted_entries_keys.
    + apply forallb_forall. intros kv Hin%list_elem_of_In.
      rewrite merge_sort_Permutation in Hin.
      apply list_elem_of_In, in_map_iff in Hin as [[k x] [<- Hin]]. cbn.
      apply (IH (k, x)); [now apply list_elem_of_In|exact (Hwf _ Hin)].
Qed.

Lemma py_wf_dict_get (d : list (string * pyval)) (k : string) (dflt : pyval) :
  py_wf (PDict d) = true -> py_wf dflt = true ->
  py_wf (dict_get_default k dflt d) = true.
Proof.
  intros Hwf Hdflt. unfold dict_get_default.
  destruct (dict_get k d) as [v|] eqn:Hget; [|exact Hdflt].
  cbn [py_wf] in Hwf. apply andb_true_iff in Hwf as [_ Hwf].
  rewrite forallb_forall in Hwf. exact (Hwf _ (dict_get_In _ _ _ Hget)).
Qed.

Lemma py_wf_append (l : list pyval) (entry : pyval) :
  py_wf (PList l) = true -> py_wf entry = true -> py_wf (PList (l ++ [entry])) = true.
Proof.
  cbn [py_wf]. intros Hl He. rewrite forallb_app, Hl. cbn. now rewrite He.
Qed.

Section Sessions.
Context `{py : CPython}.

Lemma load_progress_same_disk (name : string) (w1 w2 : world) :
  w_files w1 = w_files w2 -> w_io_ok w1 = w_io_ok w2 ->
  fst (load_progress name DEFAULT_DATA_DIR w1) =
    fst (load_progress name DEFAULT_DATA_DIR w2).
Proof.
  intros Hfiles Hio.
  unfold load_progress, _progress_path, makedirs, path_exists, read_file, bind, ret,
    lift_result, raise.
  rewrite Hio. destruct (w_io_ok w2 DEFAULT_DATA_DIR); [|reflexivity].
  cbn beta iota. rewrite Hfiles.
  destruct (bool_decide _); cbn [negb]; [|reflexivity].
  cbn beta iota. rewrite Hfiles, Hio.
  destruct (w_files w2 !! _) as [f|]; [|reflexivity].
  destruct (w_io_ok w2 _); [|reflexivity]. destruct f; reflexivity.
Qed.

Lemma persist_progress_ok (a : app) :
  w_io_ok (outside a) DEFAULT_DATA_DIR = true ->
  w_io_ok (outside a)
          (progress_file (student_id (progress (window a))) DEFAULT_DATA_DIR) = true ->
  _persist_progress a =
    (Ok tt,
     {| window := window a;
        outside :=
          {| w_rng := w_rng (outside a); w_log := w_log (outside a);
             w_files :=
               <[progress_file (student_id (progress (window a))) DEFAULT_DATA_DIR :=
                   JsonFile (sort_keys (asdict (progress (window a))))]>
                 (w_files (outside a));
             w_io_ok := w_io_ok (outside a) |} |}).
Proof.
  intros Hdir Hfile. unfold _persist_progress, bind, get_window, try_except, in_world.
  now rewrite (save_progress_ok _ _ _ Hdir Hfile).
Qed.

(** The session after its progress has been replaced and saved. *)
Lemma session_after_save (name : string) (a : app) (p : StudentProgress) mw :
  session_ok name a ->
  student_id p = name ->
  py_wf (completed_lessons p) = true -> py_wf (completed_tests p) = true ->
  progress mw = p ->
  forall w', w_files w' = w_files (outside a) -> w_io_ok w' = w_io_ok (outside a) ->
  fst (_persist_progress {| window := mw; outside := w' |}) = Ok tt /\
  session_ok name (snd (_persist_progress {| window := mw; outside := w' |})).
Proof.
  intros (_ & _ & _ & Hdir & Hfile & _) Hname Hl Ht Hp w' Hfiles Hio.
  assert (Hdir' : w_io_ok w' DEFAULT_DATA_DIR = true) by (now rewrite Hio).
  assert (Hfile' : w_io_ok w' (progress_file name DEFAULT_DATA_DIR) = true)
    by (now rewrite Hio).
  rewrite persist_progress_ok by (cbn [window outside]; rewrite ?Hp, ?Hname; assumption).
  split; [reflexivity|]. cbn [snd window outside].
  unfold session_ok. cbn [window outside w_io_ok]. rewrite Hp.
  split; [exact Hname|]. split; [exact Hl|]. split; [exact Ht|].
  split; [exact Hdir'|]. split; [exact Hfile'|].
  rewrite Hname.
  rewrite load_progress_cases by exact Hdir'.
  cbn [fst w_files w_io_ok]. rewrite lookup_insert_eq, Hfile', sort_keys_asdict.
  exists {| student_id := name;
            completed_lessons := sort_keys (completed_lessons p);
            completed_tests := sort_keys (completed_tests p) |}.
  split; [reflexivity|].
  destruct (py_eq_sort_keys _ Hl) as [Hl1 Hl2], (py_eq_sort_keys _ Ht) as [Ht1 Ht2].
  unfold StudentProgress_eq. cbn [student_id completed_lessons completed_tests].
  rewrite Hname, String.eqb_refl, Hl1, Hl2, Ht1, Ht2.
  split; reflexivity.
Qed.

(** The session after something that left the progress and the disk as
    they were. *)
Lemma session_unchanged (name : string) (a : app) mw w' :
  session_ok name a ->
  progress mw = progress (window a) ->
  w_files w' = w_files (outside a) -> w_io_ok w' = w_io_ok (outside a) ->
  session_ok name {| window := mw; outside := w' |}.
Proof.
  intros (Hname & Hl & Ht & Hdir & Hfile & loaded & Hload & Heq) Hp Hfiles Hio.
  unfold session_ok. cbn [window outside]. rewrite Hp, Hio.
  repeat (split; [assumption|]).
  exists loaded. split; [|exact Heq].
  now rewrite (load_progress_same_disk name w' (outside a)).
Qed.

Lemma record_test_unfold score total (a : app) :
  _record_test score total a =
  match current_triple (window a) with
  | None => (Ok tt, a)
  | Some (subject, grade, topic) =>
      match completed_tests (progress (window a)) with
      | PList tests =>
          _persist_progress
            {| window := set_progress
                           (set_completed_tests
                              (PList (tests ++ [test_entry subject grade topic score total]))
                              (progress (window a))) (window a);
               outside := outside a |}
      | _ => (Raise AttributeError, a)
      end
  end.
Proof.
  unfold _record_test, bind, get_window, lift_result, modify_window, ret.
  cbn beta iota.
  destruct (current_triple (window a)) as [[[subject grade] topic]|]; [|reflexivity].
  destruct (completed_tests (progress (window a))); reflexivity.
Qed.

Lemma handle_keeps_session (name : string) (e : event) (a : app) :
  session_ok name a -> session_ok name (snd (handle e a)).
Proof.
  intros Hok. pose proof Hok as (Hname & Hl & Ht & _).
  destruct e as [env subject grade topic|score total]; cbn [handle].
  - rewrite open_lesson_unfold.
    destruct (generate_lesson_world env subject grade topic (outside a)) as (Hio & Hfiles & _).
    assert (Hsame : forall mw, progress mw = progress (window a) ->
              session_ok name
                {| window := mw;
                   outside := snd (generate_lesson env subject grade topic (outside a)) |})
      by (intros mw Hmw; now apply (session_unchanged name a)).
    destruct (generate_lesson env subject grade topic (outside a)) as [[text|exc] w'];
      cbn [fst snd] in *; [|now apply Hsame].
    cbn zeta.
    destruct (completed_lessons (progress (window a))) as [| | | | |lessons|] eqn:Hlessons;
      try (now apply Hsame).
    destruct (existsb _ lessons); [now apply Hsame|].
    refine (proj2 (session_after_save name a
                     (set_completed_lessons
                        (PList (lessons ++ [lesson_entry subject grade topic]))
                        (progress (window a)))
                     _ Hok _ _ _ _ w' Hfiles Hio)).
    + exact Hname.
    + cbn [set_completed_lessons completed_lessons].
      apply py_wf_append; [exact Hl|reflexivity].
    + exact Ht.
    + reflexivity.
  - rewrite record_test_unfold.
    destruct (current_triple (window a)) as [[[subject grade] topic]|];
      [|destruct a; exact Hok].
    destruct (completed_tests (progress (window a))) as [| | | | |tests|] eqn:Htests;
      try (destruct a; exact Hok).
    refine (proj2 (session_after_save name a
                     (set_completed_tests
                        (PList (tests ++ [test_entry subject grade topic score total]))
                        (progress (window a)))
                     _ Hok _ _ _ _ (outside a) eq_refl eq_refl)).
    + exact Hname.
    + exact Hl.
    + cbn [set_completed_tests completed_tests].
      apply py_wf_append; [exact Ht|reflexivity].
    + reflexivity.
Qed.

Lemma run_keeps_session (name : string) (events : list event) :
  forall a : app, session_ok name a -> session_ok name (run_events events a).
Proof.
  induction events as [|e events IH]; intros a Hok; [exact Hok|].
  cbn [run_events]. apply IH. now apply handle_keeps_session.
Qed.

Lemma on_intro_started_unfold (name : string) (a : app) :
  w_io_ok (outside a) DEFAULT_DATA_DIR = true ->
  _on_intro_started name a =
  match fst (load_progress name DEFAULT_DATA_DIR (outside a)) with
  | Ok loaded =>
      (Ok tt, {| window := set_progress loaded (set_student_id name (window a));
                 outside := outside a |})
  | Raise exc =>
      (Raise exc, {| window := set_student_id name (window a); outside := outside a |})
  end.
Proof.
  intros Hdir. unfold _on_intro_started, bind, modify_window, in_world.
  cbn [outside window].
  pose proof (load_progress_cases name DEFAULT_DATA_DIR (outside a) Hdir) as H.
  destruct (load_progress name DEFAULT_DATA_DIR (outside a)) as [r w'].
  injection H as _ ->. cbn [fst]. destruct r; reflexivity.
Qed.

Lemma from_dict_wf payload name loaded :
  py_wf payload = true ->
  from_dict payload name = Ok loaded ->
  student_id loaded = name /\
  py_wf (completed_lessons loaded) = true /\ py_wf (completed_tests loaded) = true.
Proof.
  intros Hwf. destruct payload; try discriminate. cbn. intros [= <-]. cbn.
  repeat split; now apply py_wf_dict_get.
Qed.

End Sessions.

Section Restart.
Context `{py : CPython}.

Lemma loaded_progress_wf (name : string) (w : world) loaded :
  w_io_ok w DEFAULT_DATA_DIR = true ->
  (forall doc, w_files w !! progress_file name DEFAULT_DATA_DIR = Some (JsonFile doc) ->
     py_wf doc = true) ->
  fst (load_progress name DEFAULT_DATA_DIR w) = Ok loaded ->
  student_id loaded = name /\
  py_wf (completed_lessons loaded) = true /\ py_wf (completed_tests loaded) = true.
Proof.
  intros Hdir Hdocs. rewrite (load_progress_cases name DEFAULT_DATA_DIR w Hdir). cbn [fst].
  destruct (w_files w !! progress_file name DEFAULT_DATA_DIR) as [f|].
  - destruct (w_io_ok w (progress_file name DEFAULT_DATA_DIR)); [|discriminate].
    destruct f as [doc|raw|]; [|discriminate|discriminate].
    apply from_dict_wf. now apply Hdocs.
  - intros [= <-]. repeat split.
Qed.

Lemma session_starts (name : string) (a : app) :
  w_io_ok (outside a) DEFAULT_DATA_DIR = true ->
  w_io_ok (outside a) (progress_file name DEFAULT_DATA_DIR) = true ->
  (forall doc,
     w_files (outside a) !! progress_file name DEFAULT_DATA_DIR = Some (JsonFile doc) ->
     py_wf doc = true) ->
  fst (_on_intro_started name a) = Ok tt ->
  session_ok name (snd (_on_intro_started name a)).
Proof.
  intros Hdir Hfile Hdocs. rewrite (on_intro_started_unfold name a Hdir).
  destruct (fst (load_progress name DEFAULT_DATA_DIR (outside a))) as [loaded|exc] eqn:Hload;
    [intros _|discriminate].
  destruct (loaded_progress_wf name (outside a) loaded Hdir Hdocs Hload) as (Hname & Hl & Ht).
  cbn [snd]. unfold session_ok. cbn [window outside progress set_progress].
  repeat (split; [assumption|]).
  exists loaded. split; [exact Hload|].
  unfold StudentProgress_eq. rewrite String.eqb_refl, !py_eq_refl by assumption.
  split; reflexivity.
Qed.

End Restart.

(** X19.  What a session records is what the next session finds.  For a
    student whose start loads the stored progress, on a disk that can be
    used, after any lesson and quiz events a window created afresh and
    started for the same student loads a progress equal to the one the
    first window held at the end. *)
Theorem progress_survives_restart `{py : CPython}
    (name : string) (a : app) (events : list event) :
  w_io_ok (outside a) DEFAULT_DATA_DIR = true ->
  w_io_ok (outside a) (progress_file name DEFAULT_DATA_DIR) = true ->
  (forall doc,
     w_files (outside a) !! progress_file name DEFAULT_DATA_DIR = Some (JsonFile doc) ->
     py_wf doc = true) ->
  fst (_on_intro_started name a) = Ok tt ->
  let session := run_events events (snd (_on_intro_started name a)) in
  let restarted := _on_intro_started name {| window := init; outside := outside session |} in
  fst restarted = Ok tt /\
  StudentProgress_eq (progress (window (snd restarted))) (progress (window session)) = true /\
  StudentProgress_eq (progress (window session)) (progress (window (snd restarted))) = true.
Proof.
  intros Hdir Hfile Hdocs Hstart session restarted.
  assert (Hok : session_ok name session)
    by (apply run_keeps_session; now apply session_starts).
  destruct Hok as (_ & _ & _ & Hdir' & _ & loaded & Hload & Heq1 & Heq2).
  subst restarted. rewrite on_intro_started_unfold by exact Hdir'.
  cbn [outside]. rewrite Hload. cbn. auto.
Qed.

Section ProgressPageProperties.
Context `{py : CPython}.

Lemma comprehension_ok {A B : Type} (f : A -> result B) (l : list A) :
  Forall (fun x => exists y, f x = Ok y) l ->
  exists ys, comprehension f l = Ok ys /\ length ys = length l.
Proof.
  induction 1 as [|x l [y Hy] _ (ys & Hys & Hlen)]; [now exists []|].
  exists (y :: ys). cbn [comprehension]. rewrite Hy, Hys. cbn. now rewrite Hlen.
Qed.

Lemma comprehension_raises {A B : Type} (f : A -> result B) (P : exn -> Prop) (l : list A) x :
  (forall x exc, f x = Raise exc -> P exc) ->
  In x l -> (exists exc, f x = Raise exc) ->
  exists exc, comprehension f l = Raise exc /\ P exc.
Proof.
  intros HP. induction l as [|x0 l IH]; [intros []|].
  intros [->|Hin] Hx; cbn [comprehension].
  - destruct Hx as [exc Hexc]. rewrite Hexc. exists exc. split; [reflexivity|].
    now apply (HP x).
  - destruct (f x0) as [y|exc] eqn:Hx0.
    + destruct (IH Hin Hx) as (exc & -> & Hexc). now exists exc.
    + exists exc. split; [reflexivity|]. now apply (HP x0).
Qed.

Lemma py_subscript_raises item key exc :
  py_subscript item key = Raise exc -> exc = TypeError \/ exc = KeyError key.
Proof.
  destruct item as [| | | | | |d]; cbn; try (intros [= <-]; now left).
  destruct (dict_get key d); [discriminate|]. intros [= <-]. now right.
Qed.

Lemma lesson_line_raises item exc :
  lesson_line item = Raise exc -> exc = TypeError \/ exists key, exc = KeyError key.
Proof.
  unfold lesson_line.
  destruct (py_subscript item "subject") eqn:H1; cbn;
    [|intros [= <-]; apply py_subscript_raises in H1 as [->| ->]; eauto].
  destruct (py_subscript item "grade") eqn:H2; cbn;
    [|intros [= <-]; apply py_subscript_raises in H2 as [->| ->]; eauto].
  destruct (py_subscript item "topic") eqn:H3; cbn;
    [discriminate|intros [= <-]; apply py_subscript_raises in H3 as [->| ->]; eauto].
Qed.

Lemma lesson_line_missing_key entry key :
  In key ["subject"; "grade"; "topic"] -> dict_get key entry = None ->
  exists exc, lesson_line (PDict entry) = Raise exc.
Proof.
  intros Hkey Hnone. unfold lesson_line, py_subscript.
  destruct (dict_get "subject" entry) eqn:H1; [cbn|eauto].
  destruct (dict_get "grade" entry) eqn:H2; [cbn|eauto].
  destruct (dict_get "topic" entry) eqn:H3; [cbn|eauto].
  destruct Hkey as [<-|[<-|[<-|[]]]]; congruence.
Qed.

Lemma lesson_line_of_entry e : is_lesson_entry e -> exists line, lesson_line e = Ok line.
Proof. intros (s & g & t & ->). eexists. reflexivity. Qed.

Lemma test_line_of_entry e : is_test_entry e -> exists line, test_line e = Ok line.
Proof. intros (s & g & t & score & total & ->). eexists. reflexivity. Qed.

Lemma display_recorded (p : StudentProgress) :
  recorded p ->
  exists lessons tests lessons_lines tests_lines,
    completed_lessons p = PList lessons /\ completed_tests p = PList tests /\
    length lessons_lines = length lessons /\ length tests_lines = length tests /\
    summary_lines p =
      Ok (["Student: " +:+ student_id p; ""; "Completed lessons:"] ++
          lines_or lessons_lines ["  No lessons completed yet."] ++
          [""; "Quiz history:"] ++
          lines_or tests_lines ["  No quizzes taken yet."])%list.
Proof.
  intros (lessons & tests & Hl & Ht & Hlessons & Htests).
  destruct (comprehension_ok lesson_line lessons) as (ll & Hll & Hlen1).
  { eapply Forall_impl; [exact Hlessons|]. apply lesson_line_of_entry. }
  destruct (comprehension_ok test_line tests) as (tl & Htl & Hlen2).
  { eapply Forall_impl; [exact Htests|]. apply test_line_of_entry. }
  exists lessons, tests, ll, tl. repeat (split; [assumption|]).
  unfold summary_lines. rewrite Hl, Ht. cbn [py_iter rbind]. rewrite Hll. cbn [rbind].
  rewrite Htl. reflexivity.
Qed.

Lemma handle_keeps_recorded (e : event) (a : app) :
  recorded (progress (window a)) -> recorded (progress (window (snd (handle e a)))).
Proof.
  intros (lessons & tests & Hl & Ht & Hlessons & Htests).
  destruct e as [env subject grade topic|score total]; cbn [handle].
  - rewrite open_lesson_window.
    destruct (fst (generate_lesson env subject grade topic (outside a)));
      [|now exists lessons, tests].
    cbn zeta. rewrite Hl.
    destruct (existsb _ lessons); [now exists lessons, tests|].
    exists (lessons ++ [lesson_entry subject grade topic])%list, tests.
    repeat split; try assumption.
    apply Forall_app. split; [assumption|]. constructor; [|constructor].
    now exists subject, grade, topic.
  - rewrite record_test_window.
    destruct (current_triple (window a)) as [[[subject grade] topic]|];
      [|now exists lessons, tests].
    rewrite Ht.
    exists lessons, (tests ++ [test_entry subject grade topic score total])%list.
    repeat split; try assumption.
    apply Forall_app. split; [assumption|]. constructor; [|constructor].
    now exists subject, grade, topic, score, total.
Qed.

Lemma run_keeps_recorded (events : list event) :
  forall a : app, recorded (progress (window a)) ->
                  recorded (progress (window (run_events events a))).
Proof.
  induction events as [|e events IH]; intros a H; [exact H|].
  cbn [run_events]. apply IH. now apply handle_keeps_recorded.
Qed.

End ProgressPageProperties.

(** X20.  The progress page can always show what the session itself has
    recorded: when the two lists of the progress hold only entries made
    by [_open_lesson] and [_record_test] (as those of a new window do),
    they still do after any events, and [_show_progress] then returns a
    text, with the name of the student, one line for each lesson and each
    quiz, the line of an empty list in the place of none, and the two
    headings. *)
Theorem progress_page_shows_the_session `{py : CPython} (events : list event) (a : app) :
  recorded (progress (window a)) ->
  recorded (progress (window (run_events events a))) /\
  exists lessons tests lessons_lines tests_lines,
    completed_lessons (progress (window (run_events events a))) = PList lessons /\
    completed_tests (progress (window (run_events events a))) = PList tests /\
    length lessons_lines = length lessons /\
    length tests_lines = length tests /\
    _show_progress (run_events events a) =
      (Ok (String.concat nl
             (["Student: " +:+ student_id (progress (window (run_events events a)));
               ""; "Completed lessons:"] ++
              lines_or lessons_lines ["  No lessons completed yet."] ++
              [""; "Quiz history:"] ++
              lines_or tests_lines ["  No quizzes taken yet."])%list),
       run_events events a).
Proof.
  intros H. pose proof (run_keeps_recorded events a H) as Hrun.
  split; [exact Hrun|].
  destruct (display_recorded _ Hrun) as (lessons & tests & ll & tl & Hl & Ht & H1 & H2 & Hs).
  exists lessons, tests, ll, tl. repeat (split; [assumption|]).
  unfold _show_progress, bind, get_window, lift_result, display_progress.
  cbn beta iota. rewrite Hs. reflexivity.
Qed.

(** X21.  What [load_progress] reads is not checked: when the file of
    the student is an object whose list of lessons has an entry without
    one of the keys [subject], [grade] and [topic], the start of the
    session succeeds all the same, and it is [_show_progress] that
    raises, a [KeyError] or a [TypeError]. *)
Theorem unchecked_file_breaks_progress_page `{py : CPython}
    (name : string) (a : app) (d : list (string * pyval)) (lessons : list pyval)
    (entry : list (string * pyval)) (key : string) :
  w_io_ok (outside a) DEFAULT_DATA_DIR = true ->
  w_io_ok (outside a) (progress_file name DEFAULT_DATA_DIR) = true ->
  w_files (outside a) !! progress_file name DEFAULT_DATA_DIR = Some (JsonFile (PDict d)) ->
  dict_get "completed_lessons" d = Some (PList lessons) ->
  In (PDict entry) lessons ->
  In key ["subject"; "grade"; "topic"] ->
  dict_get key entry = None ->
  fst (_on_intro_started name a) = Ok tt /\
  exists exc,
    fst (_show_progress (snd (_on_intro_started name a))) = Raise exc /\
    (exc = TypeError \/ exists missing, exc = KeyError missing).
Proof.
  intros Hdir Hfile Hdoc Hlessons Hin Hkey Hnone.
  rewrite (on_intro_started_unfold name a Hdir), (load_progress_cases _ _ _ Hdir).
  rewrite Hdoc, Hfile. cbn [fst from_dict py_get rbind snd].
  split; [reflexivity|].
  destruct (comprehension_raises lesson_line
              (fun exc => exc = TypeError \/ exists missing, exc = KeyError missing)
              lessons (PDict entry) lesson_line_raises Hin
              (lesson_line_missing_key entry key Hkey Hnone)) as (exc & Hexc & HP).
  exists exc. split; [|exact HP].
  unfold _show_progress, bind, get_window, lift_result, display_progress, summary_lines.
  cbn [window progress set_progress completed_lessons fst].
  unfold dict_get_default. rewrite Hlessons. cbn [default id py_iter rbind]. rewrite Hexc.
  reflexivity.
Qed.

(** * The further properties at concrete inputs *)

Import Scenes.

Lemma ids_equal_after_sanitising_share_a_file_witness :
  replace_char "/" "_" "class_ada" =
    replace_char "/" "_" (student_id progress_with_separator) /\
  fst ((run @save_progress python progress_with_separator "data" ;
        @load_progress python "class_ada" "data") world0) =
    Ok {| student_id := "class_ada";
          completed_lessons := sort_keys (completed_lessons progress_with_separator);
          completed_tests := PList [] |}.
Proof.
  split; [reflexivity|].
  exact (@ids_equal_after_sanitising_share_a_file python progress_with_separator
           "class_ada" "data" world0 eq_refl eq_refl eq_refl).
Defined.

Lemma saving_leaves_other_students_alone_witness :
  replace_char "/" "_" "ada" <> replace_char "/" "_" (student_id progress_with_separator) /\
  fst (@load_progress python "ada" "data"
         (snd (@save_progress python progress_with_separator "data" world_with_file))) =
    Ok sample_progress.
Proof.
  assert (H : replace_char "/" "_" "ada" <>
              replace_char "/" "_" (student_id progress_with_separator))
    by (vm_compute; discriminate).
  split; [exact H|].
  rewrite (@saving_leaves_other_students_alone python progress_with_separator
             "ada" "data" world_with_file H).
  reflexivity.
Defined.

Lemma lesson_opens_without_usable_disk_witness :
  w_io_ok (outside app_without_disk) DEFAULT_DATA_DIR = false /\
  fst (@_open_lesson python env_without_key "Mathematics" 3 "Fractions" app_without_disk) =
    Ok tt /\
  completed_lessons
    (progress (window (snd (@_open_lesson python env_without_key "Mathematics" 3 "Fractions"
                              app_without_disk)))) =
    PList [lesson_entry "Mathematics" 3 "Fractions"] /\
  w_files (outside (snd (@_open_lesson python env_without_key "Mathematics" 3 "Fractions"
                           app_without_disk))) = ∅.
Proof.
  split; [reflexivity|].
  destruct (@lesson_opens_without_usable_disk python env_without_key
              "Mathematics" 3 "Fractions" app_without_disk [] _
              eq_refl eq_refl eq_refl eq_refl) as (Hr & Hl & _ & Hf & _).
  repeat split; assumption.
Defined.

Lemma generate_exercises_never_returns_empty_witness :
  fst (@generate_exercises python env_without_key "Mathematics" 3 "Fractions" world0) =
    Ok local_quiz /\
  local_quiz <> [].
Proof.
  split; [reflexivity|].
  exact (@generate_exercises_never_returns_empty python env_without_key
           "Mathematics" 3 "Fractions" world0 local_quiz eq_refl).
Defined.

Lemma one_bad_entry_discards_remote_exercises_witness :
  @_request_from_gemini python_bad_entry env_exercises
    (exercises_prompt "Mathematics" 3 "Fractions") = Ok (PStr "exercises.json") /\
  @json_loads python_bad_entry "exercises.json" =
    Some (PList [PDict entry_well_formed; PInt 7]) /\
  @generate_exercises python_bad_entry env_exercises "Mathematics" 3 "Fractions"
    world_bad_entry =
  @generate_local_exercises python_bad_entry "Mathematics" 3 "Fractions"
    (with_log (exercises_warning "Mathematics" 3
                 (ValueError "Exercise entry must be a dict")) world_bad_entry).
Proof.
  split; [reflexivity|]. split; [reflexivity|].
  exact (@one_bad_entry_discards_remote_exercises python_bad_entry env_exercises
           "Mathematics" 3 "Fractions" world_bad_entry "exercises.json"
           [PDict entry_well_formed; PInt 7] eq_refl eq_refl eq_refl).
Defined.

Lemma null_question_becomes_text_witness :
  dict_get "question" entry_null_question = Some PNone /\
  exists exercise,
    @parse_exercises python (PList [PDict entry_null_question]) = Ok [exercise] /\
    question exercise = "None".
Proof.
  split; [reflexivity|].
  destruct (@null_question_becomes_text python entry_null_question PNone
              eq_refl (or_introl eq_refl)) as (exercise & Hparse & Hq & _).
  exists exercise. split; assumption.
Defined.

Lemma quiz_index_stays_in_range_witness :
  page_ok (test_page gui_quiz) /\
  page_ok (test_page (@gui_run python quiz_events gui_quiz)) /\
  fst (@gui_handle python (SubmitClicked env_without_key)
         (@gui_run python quiz_events gui_quiz)) = Ok tt.
Proof.
  assert (H : page_ok (test_page gui_quiz)) by (right; vm_compute; split; [discriminate|reflexivity]).
  split; [exact H|].
  destruct (@quiz_index_stays_in_range python quiz_events gui_quiz env_without_key H)
    as (Hok & Hsubmit & _).
  split; assumption.
Defined.

Lemma score_counts_submits_witness :
  page_ok (test_page gui_quiz) /\
  (0 <= _score (test_page gui_quiz))%Z /\
  (0 <= _score (test_page (@gui_run python quiz_events gui_quiz))
     <= _score (test_page gui_quiz) + 3)%Z.
Proof.
  assert (H : page_ok (test_page gui_quiz)) by (right; vm_compute; split; [discriminate|reflexivity]).
  assert (H0 : (0 <= _score (test_page gui_quiz))%Z) by (vm_compute; discriminate).
  split; [exact H|]. split; [exact H0|].
  exact (@score_counts_submits python quiz_events gui_quiz H H0).
Defined.

Lemma repeated_correct_answer_counts_each_time_witness :
  @is_correct python half_of_eight " 4 " = true /\
  current_triple (window (the_app gui_lesson)) = Some ("Mathematics", 3%Z, "Fractions") /\
  completed_tests
    (progress (window (the_app
       (@gui_run python
          [ AnswerTyped " 4 "; SubmitClicked env_without_key;
            AnswerTyped " 4 "; SubmitClicked env_without_key;
            AnswerTyped " 4 "; SubmitClicked env_without_key; NextClicked ]
          (snd (@load_exercises python [half_of_eight] "" gui_lesson)))))) =
  PList [ test_entry "Mathematics" 3 "Fractions" 3 1 ].
Proof.
  split; [reflexivity|]. split; [reflexivity|].
  exact (@repeated_correct_answer_counts_each_time python env_without_key half_of_eight
           " 4 " "" 3 gui_lesson "Mathematics" 3%Z "Fractions" [] eq_refl eq_refl eq_refl).
Defined.

Lemma quiz_completes_after_last_question_witness :
  forallb on_quiz_page [ AnswerTyped "4"; SubmitClicked env_without_key; NextClicked ] = true /\
  window (the_app (@gui_run python
                     [ AnswerTyped "4"; SubmitClicked env_without_key; NextClicked ]
                     gui_quiz)) = window (the_app gui_quiz) /\
  _index (test_page (@gui_run python
                       [ AnswerTyped "4"; SubmitClicked env_without_key; NextClicked ]
                       gui_quiz)) = 1%Z.
Proof.
  split; [reflexivity|].
  destruct (@quiz_completes_after_last_question python
              [ AnswerTyped "4"; SubmitClicked env_without_key; NextClicked ] gui_quiz
              eq_refl ltac:(discriminate) ltac:(vm_compute; discriminate)
              ltac:(vm_compute; discriminate)) as (Hw & _ & Hi & _).
  split; assumption.
Defined.

Lemma exercise_without_expected_answer_is_never_correct_witness :
  strip (utf8 0xA0) = "" /\
  @is_correct python (@exercise_of_entry python entry_blank_answer) (utf8 0xA0) = false.
Proof.
  split; [reflexivity|].
  exact (@exercise_without_expected_answer_is_never_correct python entry_blank_answer
           (utf8 0xA0) (or_intror (ex_intro _ (utf8 0xA0) (conj eq_refl eq_refl)))).
Defined.

Lemma progress_survives_restart_witness :
  w_io_ok (outside app_with_file) DEFAULT_DATA_DIR = true /\
  fst (@_on_intro_started python "ada" app_with_file) = Ok tt /\
  progress (window (snd (@_on_intro_started python "ada" app_with_file))) = sample_progress /\
  let session := @run_events python sample_events
                   (snd (@_on_intro_started python "ada" app_with_file)) in
  let restarted := @_on_intro_started python "ada"
                     {| window := init; outside := outside session |} in
  fst restarted = Ok tt /\
  StudentProgress_eq (progress (window (snd restarted))) (progress (window session)) = true.
Proof.
  split; [reflexivity|]. split; [reflexivity|]. split; [reflexivity|].
  assert (Hdocs : forall doc,
             w_files (outside app_with_file) !! progress_file "ada" DEFAULT_DATA_DIR =
               Some (JsonFile doc) -> py_wf doc = true).
  { intros doc H. vm_compute in H. injection H as <-. reflexivity. }
  destruct (@progress_survives_restart python "ada" app_with_file sample_events
              eq_refl eq_refl Hdocs eq_refl) as (Hr & Heq & _).
  split; assumption.
Defined.

Lemma progress_page_shows_the_session_witness :
  recorded (progress (window app0)) /\
  exists lessons_lines tests_lines,
    length lessons_lines = 1 /\
    length tests_lines = 2 /\
    fst (@_show_progress python (@run_events python sample_events app0)) =
      Ok (String.concat nl
            (["Student: student"; ""; "Completed lessons:"] ++
             lessons_lines ++ [""; "Quiz history:"] ++ tests_lines)%list).
Proof.
  assert (H : recorded (progress (window app0)))
    by (exists [], []; repeat split; constructor).
  split; [exact H|].
  destruct (@progress_page_shows_the_session python sample_events app0 H)
    as (_ & lessons & tests & ll & tl & Hl & Ht & H1 & H2 & Hshow).
  vm_compute in Hl. injection Hl as <-.
  vm_compute in Ht. injection Ht as <-.
  exists ll, tl. split; [exact H1|]. split; [exact H2|].
  rewrite Hshow. cbn [fst].
  destruct ll; [discriminate|]. destruct tl; [discriminate|]. reflexivity.
Defined.

Lemma unchecked_file_breaks_progress_page_witness :
  w_files (outside app_incomplete_file) !! progress_file "bob" DEFAULT_DATA_DIR =
    Some (JsonFile (PDict document_without_topic)) /\
  dict_get "topic" entry_without_topic = None /\
  fst (@_on_intro_started python "bob" app_incomplete_file) = Ok tt /\
  exists exc,
    fst (@_show_progress python (snd (@_on_intro_started python "bob" app_incomplete_file))) =
      Raise exc.
Proof.
  split; [reflexivity|]. split; [reflexivity|].
  destruct (@unchecked_file_breaks_progress_page python "bob" app_incomplete_file
              document_without_topic
              [lesson_entry "Mathematics" 3 "Fractions"; PDict entry_without_topic]
              entry_without_topic "topic"
              eq_refl eq_refl eq_refl eq_refl
              (or_intror (or_introl eq_refl))
              (or_intror (or_intror (or_introl eq_refl))) eq_refl)
    as (Hstart & exc & Hexc & _).
  split; [exact Hstart|]. exists exc. exact Hexc.
Defined.
